(** * Booking core of the dental agent: a shallow embedding

    The operations of [backend/server.js] that read and write the four
    persisted collections (patients, appointments, available slots,
    emergency alerts), together with the phone lookup of
    [backend/utils/database-manager.js].

    Conventions of the embedding.
    - A JavaScript string is a [string]; each character stands for one
      UTF-16 code unit in the range 0..255.  An argument that is missing
      ([undefined]) is the empty string: every test the code makes on such
      an argument ([!x], [if (x)], [x || d]) treats both alike.
    - An array is a [list]; an object is a record.  Objects reached through
      [find] or [filter] are aliases of the array's entries, so a field
      assignment on them is an update of the entry in place.
    - Every operation starts from [readDatabase] (a fresh copy of the files)
      and persists only through [writeDatabase] or [addPatient].
    - Readings of the wall clock are passed in as a [Clock]. *)

From Stdlib Require Import String Ascii List ZArith Lia Bool Arith DecimalString.
From Stdlib Require Import Sorted Permutation.
Import ListNotations.
Open Scope string_scope.
Open Scope list_scope.

(* ================================================================== *)
(** ** Strings *)
(* ================================================================== *)

Module Js.

(** [String(n)] for a non-negative integer. *)
Definition String_nat (n : nat) : string :=
  NilZero.string_of_uint (Nat.to_uint n).

(** [String(z)] for an integer. *)
Definition String_Z (z : Z) : string :=
  NilZero.string_of_int (Z.to_int z).

(** Code unit of a character. *)
Definition code (c : ascii) : nat := nat_of_ascii c.

(** The class [\d]. *)
Definition isDigit (c : ascii) : bool :=
  (48 <=? code c)%nat && (code c <=? 57)%nat.

(** The class [[a-zA-Z]]. *)
Definition isLetter (c : ascii) : bool :=
  ((65 <=? code c)%nat && (code c <=? 90)%nat)
  || ((97 <=? code c)%nat && (code c <=? 122)%nat).

(** White space and line terminators below 256: TAB, LF, VT, FF, CR, SP and
    NBSP.  This is both the class [\s] and what [trim] strips. *)
Definition isSpace (c : ascii) : bool :=
  ((9 <=? code c)%nat && (code c <=? 13)%nat)
  || (code c =? 32)%nat || (code c =? 160)%nat.

Fixpoint filterChars (keep : ascii -> bool) (s : string) : string :=
  match s with
  | EmptyString => EmptyString
  | String c r => if keep c then String c (filterChars keep r) else filterChars keep r
  end.

Fixpoint allChars (p : ascii -> bool) (s : string) : bool :=
  match s with
  | EmptyString => true
  | String c r => p c && allChars p r
  end.

(** [s.replace(/\D/g, '')] *)
Definition stripNonDigits (s : string) : string := filterChars isDigit s.

Fixpoint trimStart (s : string) : string :=
  match s with
  | EmptyString => EmptyString
  | String c r => if isSpace c then trimStart r else s
  end.

Fixpoint trimEnd (s : string) : string :=
  match s with
  | EmptyString => EmptyString
  | String c r =>
      match trimEnd r with
      | EmptyString => if isSpace c then EmptyString else String c EmptyString
      | r' => String c r'
      end
  end.

(** [s.trim()] *)
Definition trim (s : string) : string := trimEnd (trimStart s).

(** Lower-casing of one code unit below 256: A-Z, and the Latin-1 capitals
    (0xC0-0xDE except the multiplication sign 0xD7). *)
Definition lowerChar (c : ascii) : ascii :=
  let n := code c in
  if ((65 <=? n)%nat && (n <=? 90)%nat)
     || ((192 <=? n)%nat && (n <=? 222)%nat && negb (n =? 215)%nat)
  then ascii_of_nat (n + 32) else c.

(** [s.toLowerCase()] *)
Fixpoint toLowerCase (s : string) : string :=
  match s with
  | EmptyString => EmptyString
  | String c r => String (lowerChar c) (toLowerCase r)
  end.

(** [s.includes(sub)] on strings. *)
Fixpoint includesStr (sub s : string) : bool :=
  prefix sub s ||
  match s with
  | EmptyString => false
  | String _ r => includesStr sub r
  end.

(** [s.startsWith(p)] *)
Definition startsWith (p s : string) : bool := prefix p s.

(** [s.substring(1)] *)
Definition dropFirst (s : string) : string :=
  match s with
  | EmptyString => EmptyString
  | String _ r => r
  end.

Fixpoint repeatChar (c : ascii) (n : nat) : string :=
  match n with
  | O => EmptyString
  | S k => String c (repeatChar c k)
  end.

(** [s.padStart(n, '0')] *)
Definition padStart0 (n : nat) (s : string) : string :=
  repeatChar "0"%char (n - String.length s) ++ s.

(** Value of a string of decimal digits, as [parseInt] reads it. *)
Fixpoint digitsValue (acc : nat) (s : string) : nat :=
  match s with
  | EmptyString => acc
  | String c r =>
      if isDigit c then digitsValue (10 * acc + (code c - 48)) r else acc
  end.

(** Text up to the first occurrence of the character [sep]:
    [s.split(sep)[0]]. *)
Fixpoint beforeChar (sep : ascii) (s : string) : string :=
  match s with
  | EmptyString => EmptyString
  | String c r => if Ascii.eqb c sep then EmptyString else String c (beforeChar sep r)
  end.

(** [parseInt(s)] for text that [trimStart] leaves with a run of decimal
    digits in front ([None] is [NaN]: no digit in front). *)
Definition parseInt (s : string) : option nat :=
  match trimStart s with
  | String c r => if isDigit c then Some (digitsValue 0 (String c r)) else None
  | EmptyString => None
  end.

(** [arr.includes(x)] on an array of strings. *)
Definition includes (x : string) (l : list string) : bool :=
  existsb (String.eqb x) l.

(** Insertion into a list in code-unit order. *)
Fixpoint insertSorted (x : string) (l : list string) : list string :=
  match l with
  | [] => [x]
  | y :: r => if (x <=? y)%string then x :: l else y :: insertSorted x r
  end.

(** [arr.sort()] with the default comparison: the permutation of the
    array in ascending code-unit order (equal strings are identical, so the
    result does not depend on the algorithm). *)
Definition sort (l : list string) : list string :=
  fold_right insertSorted [] l.

End Js.

(* ================================================================== *)
(** ** Data model *)
(* ================================================================== *)

Record FamilyMemberRef := mkFamilyMemberRef {
  fm_name : string;
  fm_relationship : string;
  fm_addedDate : string
}.

Record Patient := mkPatient {
  p_id : string;
  p_fullName : string;
  p_phone : string;
  p_dateOfBirth : string;
  p_insurance : string;
  p_registeredDate : string;
  (** [None]: the record has no [familyMembers] field yet. *)
  p_familyMembers : option (list FamilyMemberRef)
}.

Record Appointment := mkAppointment {
  a_id : string;
  a_patientId : string;
  a_patientName : string;
  a_relationship : option string;
  a_date : string;
  a_time : string;
  a_type : string;
  a_status : string;
  a_emergencyDetails : option string;
  a_createdAt : option string;
  a_bookedAt : option string;
  a_cancelledAt : option string;
  a_cancelReason : option string;
  a_rescheduledFrom : option (string * string);
  a_rescheduledAt : option string
}.

Record SlotDay := mkSlotDay {
  s_date : string;
  s_slots : list string
}.

Record EmergencyAlert := mkEmergencyAlert {
  e_id : string;
  e_patientName : string;
  e_emergencyDetails : string;
  e_contactPhone : string;
  e_timestamp : string;
  e_status : string;
  e_alertedAt : string
}.

(** What [readAllData] returns, restricted to the collections the booking
    core touches (the conversation log is never passed to [writeDatabase]). *)
Record Db := mkDb {
  patients : list Patient;
  appointments : list Appointment;
  availableSlots : list SlotDay;
  emergencyAlerts : list EmergencyAlert
}.

(** One reading of the wall clock, in the forms the code asks for. *)
Record Clock := mkClock {
  (** [Date.now()] *)
  c_now : Z;
  (** [new Date().toISOString()] *)
  c_iso : string;
  (** [new Date().toISOString().split('T')[0]] *)
  c_day : string;
  (** [new Date().toLocaleString()] *)
  c_locale : string;
  (** [new Date().getFullYear()] *)
  c_year : nat
}.

(** A family member entry of a family booking request. *)
Record FamilyMember := mkFamilyMember {
  m_name : string;
  m_relationship : string;
  m_appointmentType : string
}.

(** The projection of an appointment that cancel operations return. *)
Record AppointmentSummary := mkSummary {
  sm_id : string;
  sm_patientName : string;
  sm_date : string;
  sm_time : string;
  sm_type : string;
  sm_status : option string
}.

(** Result objects.  [Fail*] carry [success: false]. *)
Inductive Result :=
  | Fail (message : string)
  | FailDuplicate (message : string) (patient : Patient)
  | FailInsufficient (available : list string) (nextAvailableDate : string)
      (nextAvailableSlots : list string) (message : string)
  | OkAppointment (appointment : Appointment)
  | OkCancelled (message : string) (appointment : AppointmentSummary)
  | OkCancelledAll (message : string) (cancelled : list AppointmentSummary)
  | OkRescheduled (message : string) (appointment : Appointment)
  | OkPatient (patient : Patient)
  | OkMessage (message : string)
  | OkFamily (booked : list Appointment) (familyMembersAdded : nat)
      (message : string) (details : list string).

Definition success (r : Result) : bool :=
  match r with
  | Fail _ | FailDuplicate _ _ | FailInsufficient _ _ _ _ => false
  | _ => true
  end.

(** How the body of an operation ends: it returns with the working copy
    dropped, or it calls [writeDatabase] on the working copy and returns. *)
Inductive Exit :=
  | Returned (r : Result) (working : Db)
  | Written (r : Result) (working : Db).

Definition readDatabase (disk : Db) : Db := disk.

(** Arrays are truthy even when empty, so each of the four sections is
    written. *)
Definition writeDatabase (data disk : Db) : Db :=
  {| patients := patients data;
     appointments := appointments data;
     availableSlots := availableSlots data;
     emergencyAlerts := emergencyAlerts data |}.

Definition commit (disk : Db) (e : Exit) : Result * Db :=
  match e with
  | Returned r _ => (r, disk)
  | Written r working => (r, writeDatabase working disk)
  end.

(* ================================================================== *)
(** ** Validation *)
(* ================================================================== *)

Inductive Validation :=
  | Invalid (message : string)
  | Valid (normalized : string).

Definition validatePhoneNumber (phone : string) : Validation :=
  if (phone =? "")%string then Invalid "Phone number is required"
  else
    let cleanPhone := Js.stripNonDigits phone in
    if (String.length cleanPhone =? 10)%nat then Valid cleanPhone
    else if (String.length cleanPhone =? 11)%nat && Js.startsWith "1" cleanPhone
    then Valid (Js.dropFirst cleanPhone)
    else Invalid "Please provide a valid 10-digit US phone number".

(** The character class of [/^[a-zA-Z\s\-']+$/]. *)
Definition isNameChar (c : ascii) : bool :=
  Js.isLetter c || Js.isSpace c || Ascii.eqb c "-"%char || Ascii.eqb c "'"%char.

Definition validatePatientName (name : string) : Validation :=
  if (String.length (Js.trim name) <? 2)%nat
  then Invalid "Please provide a valid full name (at least 2 characters)"
  else if negb (Js.allChars isNameChar (Js.trim name))
  then Invalid "Name can only contain letters, spaces, hyphens, and apostrophes"
  else Valid (Js.trim name).

Definition validateDateOfBirth (year : nat) (dob : string) : Validation :=
  if (dob =? "")%string then Invalid "Date of birth is required"
  else if negb ((String.length dob =? 8)%nat && Js.allChars Js.isDigit dob)
  then Invalid "Please provide date of birth in MMDDYYYY format (e.g., 08272000)"
  else
    let month := Js.digitsValue 0 (substring 0 2 dob) in
    let day := Js.digitsValue 0 (substring 2 2 dob) in
    let yr := Js.digitsValue 0 (substring 4 4 dob) in
    if (month <? 1)%nat || (12 <? month)%nat
    then Invalid "Invalid month in date of birth"
    else if (day <? 1)%nat || (31 <? day)%nat
    then Invalid "Invalid day in date of birth"
    else if (yr <? 1900)%nat || (year <? yr)%nat
    then Invalid "Invalid year in date of birth"
    else Valid dob.

Definition validInsurances : list string :=
  [ "Blue Cross Blue Shield"; "Blue Cross"; "Aetna"; "Cigna"; "Delta Dental";
    "MetLife"; "United Healthcare"; "Humana"; "Other Insurance"; "No Insurance" ].

Definition joinComma (l : list string) : string :=
  match l with
  | [] => ""
  | x :: r => fold_left (fun acc y => acc ++ ", " ++ y)%string r x
  end.

Definition validateInsurance (insurance : string) : Validation :=
  if (String.length (Js.trim insurance) <? 2)%nat
  then Invalid "Please select an insurance provider"
  else
    match find (fun ins => (Js.toLowerCase ins =? Js.toLowerCase (Js.trim insurance))%string)
               validInsurances with
    | None => Invalid ("Please select from: " ++ joinComma validInsurances)
    | Some found => Valid found
    end.

(* ================================================================== *)
(** ** Patient lookup *)
(* ================================================================== *)

(** [normalizePhone] of [findPatientByPhone]. *)
Definition normalizePhone (p : string) : string :=
  let cleanPhone := Js.stripNonDigits p in
  if (String.length cleanPhone =? 11)%nat && Js.startsWith "1" cleanPhone
  then Js.dropFirst cleanPhone
  else cleanPhone.

Definition findPatientByPhone (phone : string) (disk : Db) : option Patient :=
  find (fun p => (normalizePhone (p_phone p) =? normalizePhone phone)%string)
       (patients disk).

Inductive SearchResult :=
  | SearchInvalid (message : string)
  | SearchFound (patient : Patient) (appts : list Appointment)
      (familyMembers : list FamilyMemberRef)
  | SearchMissing (message : string).

Definition isActive (a : Appointment) : bool :=
  negb (a_status a =? "cancelled")%string.

(** The second and third stage of [searchPatient]: the name fallback and
    the assembly of the answer. *)
Definition searchByName (disk : Db) (byPhone : option Patient) (name : string)
  : SearchResult :=
  let patient :=
    match byPhone with
    | Some p => Some p
    | None =>
        if (name =? "")%string then None
        else find (fun p =>
                     Js.includesStr (Js.toLowerCase name) (Js.toLowerCase (p_fullName p))
                     || Js.includesStr (Js.toLowerCase (p_fullName p)) (Js.toLowerCase name))
                  (patients disk)
    end in
  match patient with
  | Some p =>
      SearchFound p
        (filter (fun a => (a_patientId a =? p_id p)%string && isActive a)
                (appointments disk))
        (match p_familyMembers p with Some l => l | None => [] end)
  | None => SearchMissing "No patient found with that information"
  end.

Definition searchPatient (phone name : string) (disk : Db) : SearchResult :=
  if (phone =? "")%string then searchByName disk None name
  else
    match validatePhoneNumber phone with
    | Invalid message => SearchInvalid message
    | Valid normalized => searchByName disk (findPatientByPhone normalized disk) name
    end.

(* ================================================================== *)
(** ** Slot availability *)
(* ================================================================== *)

(** [db.availableSlots.find(s => s.date === date)] *)
Definition findDay (date : string) (days : list SlotDay) : option SlotDay :=
  find (fun s => (s_date s =? date)%string) days.

(** An assignment to [slots] of the entry that [findDay] returns: the first
    entry with that date is replaced in place; nothing happens when there is
    none. *)
Fixpoint updateDay (date : string) (f : list string -> list string)
    (days : list SlotDay) : list SlotDay :=
  match days with
  | [] => []
  | d :: rest =>
      if (s_date d =? date)%string
      then {| s_date := s_date d; s_slots := f (s_slots d) |} :: rest
      else d :: updateDay date f rest
  end.

(** [if (!slots.includes(t)) { slots.push(t); slots.sort(); }] *)
Definition pushSorted (t : string) (slots : list string) : list string :=
  if Js.includes t slots then slots else Js.sort (slots ++ [t]).

(** The release of a slot as every operation writes it out:
    [if (daySlots && !daySlots.slots.includes(t)) { push; sort }]. *)
Definition release (date time : string) (days : list SlotDay) : list SlotDay :=
  updateDay date (pushSorted time) days.

(** [daySlots.slots = daySlots.slots.filter(s => s !== time)] *)
Definition removeSlot (time : string) (slots : list string) : list string :=
  filter (fun s => negb (s =? time)%string) slots.

(** The open slots of a date: the list of the first entry with that date. *)
Definition openSlots (date : string) (days : list SlotDay) : option (list string) :=
  option_map s_slots (findDay date days).

(* ================================================================== *)
(** ** Appointment ledger *)
(* ================================================================== *)

Definition setCancelled (at_ : string) (reason : option string) (a : Appointment)
  : Appointment :=
  {| a_id := a_id a; a_patientId := a_patientId a; a_patientName := a_patientName a;
     a_relationship := a_relationship a; a_date := a_date a; a_time := a_time a;
     a_type := a_type a; a_status := "cancelled";
     a_emergencyDetails := a_emergencyDetails a; a_createdAt := a_createdAt a;
     a_bookedAt := a_bookedAt a; a_cancelledAt := Some at_;
     a_cancelReason := match reason with Some r => Some r | None => a_cancelReason a end;
     a_rescheduledFrom := a_rescheduledFrom a; a_rescheduledAt := a_rescheduledAt a |}.

Definition setRescheduled (newDate newTime at_ : string) (a : Appointment)
  : Appointment :=
  {| a_id := a_id a; a_patientId := a_patientId a; a_patientName := a_patientName a;
     a_relationship := a_relationship a; a_date := newDate; a_time := newTime;
     a_type := a_type a; a_status := a_status a;
     a_emergencyDetails := a_emergencyDetails a; a_createdAt := a_createdAt a;
     a_bookedAt := a_bookedAt a; a_cancelledAt := a_cancelledAt a;
     a_cancelReason := a_cancelReason a;
     a_rescheduledFrom := Some (a_date a, a_time a); a_rescheduledAt := Some at_ |}.

(** Field assignments on the object that [arr.find(p)] returned: the first
    entry satisfying [p] is updated in place. *)
Fixpoint updateFirst {A : Type} (p : A -> bool) (f : A -> A) (l : list A) : list A :=
  match l with
  | [] => []
  | x :: r => if p x then f x :: r else x :: updateFirst p f r
  end.

(** Field assignments on every object of [arr.filter(p)]. *)
Definition updateAll {A : Type} (p : A -> bool) (f : A -> A) (l : list A) : list A :=
  map (fun x => if p x then f x else x) l.

(** The loop [for (const a of chosen) { release a's slot; ... }]. *)
Definition releaseAll (chosen : list Appointment) (days : list SlotDay)
  : list SlotDay :=
  fold_left (fun ds a => release (a_date a) (a_time a) ds) chosen days.

Definition summary (withStatus : bool) (a : Appointment) : AppointmentSummary :=
  {| sm_id := a_id a; sm_patientName := a_patientName a; sm_date := a_date a;
     sm_time := a_time a; sm_type := a_type a;
     sm_status := if withStatus then Some (a_status a) else None |}.

(* ================================================================== *)
(** ** Booking coordinator *)
(* ================================================================== *)

Definition hasId (appointmentId : string) (a : Appointment) : bool :=
  (a_id a =? appointmentId)%string.

Definition sameDayOf (patientId date : string) (a : Appointment) : bool :=
  (a_patientId a =? patientId)%string && (a_date a =? date)%string && isActive a.

(** The overwrite step of [bookAppointment] on the working copy. *)
Definition overwriteSameDay (c : Clock) (patientId date : string) (db : Db) : Db :=
  let sameDayAppointments := filter (sameDayOf patientId date) (appointments db) in
  {| patients := patients db;
     appointments :=
       updateAll (sameDayOf patientId date)
         (setCancelled (c_iso c) (Some "overwritten_by_new_booking"))
         (appointments db);
     availableSlots :=
       fold_left (fun ds a => release date (a_time a) ds) sameDayAppointments
         (availableSlots db);
     emergencyAlerts := emergencyAlerts db |}.

Definition newAppointment (c : Clock) (db : Db)
    (patientId patientName date time type emergencyDetails : string) : Appointment :=
  {| a_id := "a" ++ Js.padStart0 3 (Js.String_nat (length (appointments db) + 1));
     a_patientId := patientId; a_patientName := patientName;
     a_relationship := None; a_date := date; a_time := time; a_type := type;
     a_status := "scheduled";
     a_emergencyDetails :=
       if (emergencyDetails =? "")%string then None else Some emergencyDetails;
     a_createdAt := Some (c_iso c); a_bookedAt := None; a_cancelledAt := None;
     a_cancelReason := None; a_rescheduledFrom := None; a_rescheduledAt := None |}.

Definition bookAppointment_body (c : Clock)
    (patientId patientName date time type emergencyDetails : string) (db : Db) : Exit :=
  match find (fun p => (p_id p =? patientId)%string) (patients db) with
  | None =>
      Returned (Fail ("Patient with ID " ++ patientId ++
        " not found. Please register the patient first using register_new_patient function.")) db
  | Some patient =>
      if negb (p_fullName patient =? patientName)%string
      then Returned (Fail ("Patient name mismatch. Expected " ++ String "034" (p_fullName patient)
             ++ String "034" " but got " ++ String "034" patientName
             ++ String "034" ". Please use the correct patient name.")) db
      else
        let db1 := overwriteSameDay c patientId date db in
        match findDay date (availableSlots db1) with
        | None => Returned (Fail "This time slot is no longer available") db1
        | Some daySlots =>
            if negb (Js.includes time (s_slots daySlots))
            then Returned (Fail "This time slot is no longer available") db1
            else
              let appointment :=
                newAppointment c db1 patientId patientName date time type emergencyDetails in
              Written (OkAppointment appointment)
                {| patients := patients db1;
                   appointments := appointments db1 ++ [appointment];
                   availableSlots := updateDay date (removeSlot time) (availableSlots db1);
                   emergencyAlerts := emergencyAlerts db1 |}
        end
  end.

Definition bookAppointment (c : Clock)
    (patientId patientName date time type emergencyDetails : string) (disk : Db)
  : Result * Db :=
  commit disk
    (bookAppointment_body c patientId patientName date time type emergencyDetails
       (readDatabase disk)).

Definition cancelAppointment_body (c : Clock) (appointmentId : string) (db : Db) : Exit :=
  match find (hasId appointmentId) (appointments db) with
  | None => Returned (Fail "Appointment not found") db
  | Some appointment =>
      if (a_status appointment =? "cancelled")%string
      then Returned (Fail "Appointment is already cancelled") db
      else
        let cancelled := setCancelled (c_iso c) None appointment in
        Written (OkCancelled "Appointment cancelled successfully" (summary true cancelled))
          {| patients := patients db;
             appointments :=
               updateFirst (hasId appointmentId) (setCancelled (c_iso c) None)
                 (appointments db);
             availableSlots :=
               release (a_date appointment) (a_time appointment) (availableSlots db);
             emergencyAlerts := emergencyAlerts db |}
  end.

Definition cancelAppointment (c : Clock) (appointmentId : string) (disk : Db)
  : Result * Db :=
  commit disk (cancelAppointment_body c appointmentId (readDatabase disk)).

Definition activeOf (patientId : string) (a : Appointment) : bool :=
  (a_patientId a =? patientId)%string && isActive a.

Definition cancelAllAppointments_body (c : Clock) (patientId : string) (db : Db) : Exit :=
  let chosen := filter (activeOf patientId) (appointments db) in
  if (length chosen =? 0)%nat
  then Returned (Fail "No active appointments found to cancel") db
  else
    Written
      (OkCancelledAll
         ("Successfully cancelled " ++ Js.String_nat (length chosen) ++ " appointment(s)")
         (map (summary false) chosen))
      {| patients := patients db;
         appointments :=
           updateAll (activeOf patientId) (setCancelled (c_iso c) None) (appointments db);
         availableSlots := releaseAll chosen (availableSlots db);
         emergencyAlerts := emergencyAlerts db |}.

Definition cancelAllAppointments (c : Clock) (patientId : string) (disk : Db)
  : Result * Db :=
  commit disk (cancelAllAppointments_body c patientId (readDatabase disk)).

Definition rescheduleAppointment_body (c : Clock)
    (appointmentId newDate newTime : string) (db : Db) : Exit :=
  match find (hasId appointmentId) (appointments db) with
  | None => Returned (Fail "Appointment not found") db
  | Some appointment =>
      match findDay newDate (availableSlots db) with
      | None => Returned (Fail "The requested time slot is not available") db
      | Some newDaySlots =>
          if negb (Js.includes newTime (s_slots newDaySlots))
          then Returned (Fail "The requested time slot is not available") db
          else
            let released :=
              release (a_date appointment) (a_time appointment) (availableSlots db) in
            Written
              (OkRescheduled "Appointment rescheduled successfully"
                 (setRescheduled newDate newTime (c_iso c) appointment))
              {| patients := patients db;
                 appointments :=
                   updateFirst (hasId appointmentId)
                     (setRescheduled newDate newTime (c_iso c)) (appointments db);
                 availableSlots := updateDay newDate (removeSlot newTime) released;
                 emergencyAlerts := emergencyAlerts db |}
      end
  end.

Definition rescheduleAppointment (c : Clock)
    (appointmentId newDate newTime : string) (disk : Db) : Result * Db :=
  commit disk (rescheduleAppointment_body c appointmentId newDate newTime (readDatabase disk)).

(* ================================================================== *)
(** ** Registration *)
(* ================================================================== *)

(** [db.addPatient]: reads the patients file, pushes, writes it back. *)
Definition addPatient (patient : Patient) (disk : Db) : Db :=
  {| patients := patients disk ++ [patient];
     appointments := appointments disk;
     availableSlots := availableSlots disk;
     emergencyAlerts := emergencyAlerts disk |}.

Definition registerNewPatient (c : Clock)
    (fullName phone dateOfBirth insurance : string) (disk : Db) : Result * Db :=
  match validatePatientName fullName with
  | Invalid message => (Fail message, disk)
  | Valid nameN =>
  match validatePhoneNumber phone with
  | Invalid message => (Fail message, disk)
  | Valid phoneN =>
  match validateDateOfBirth (c_year c) dateOfBirth with
  | Invalid message => (Fail message, disk)
  | Valid dobN =>
  match validateInsurance insurance with
  | Invalid message => (Fail message, disk)
  | Valid insuranceN =>
      match searchPatient phoneN "" disk with
      | SearchFound existing _ _ =>
          (FailDuplicate ("A patient with phone number " ++ phoneN ++ " already exists")
             existing, disk)
      | _ =>
          let patient :=
            {| p_id := "p" ++ Js.padStart0 3 (Js.String_nat (length (patients disk) + 1));
               p_fullName := nameN; p_phone := phoneN; p_dateOfBirth := dobN;
               p_insurance := insuranceN; p_registeredDate := c_day c;
               p_familyMembers := Some [] |} in
          (OkPatient patient, addPatient patient disk)
      end
  end end end end.

(* ================================================================== *)
(** ** Dates *)
(* ================================================================== *)

Module IsoDate.

(** Days from 1970-01-01 to the civil date [y]-[m]-[d]. *)
Definition daysFromCivil (y m d : Z) : Z :=
  let y' := if (m <=? 2)%Z then (y - 1)%Z else y in
  let era := (y' / 400)%Z in
  let yoe := (y' - era * 400)%Z in
  let mp := if (2 <? m)%Z then (m - 3)%Z else (m + 9)%Z in
  let doy := ((153 * mp + 2) / 5 + d - 1)%Z in
  let doe := (yoe * 365 + yoe / 4 - yoe / 100 + doy)%Z in
  (era * 146097 + doe - 719468)%Z.

Definition field (start len : nat) (s : string) : option Z :=
  let t := substring start len s in
  if (String.length t =? len)%nat && Js.allChars Js.isDigit t
  then Some (Z.of_nat (Js.digitsValue 0 t)) else None.

Definition charAt (i : nat) (s : string) : string := substring i 1 s.

(** The time value of a date-only text [YYYY-MM-DD] (midnight UTC). *)
Definition dateOnly (s : string) : option Z :=
  match field 0 4 s, field 5 2 s, field 8 2 s with
  | Some y, Some m, Some d =>
      if (charAt 4 s =? "-")%string && (charAt 7 s =? "-")%string
         && (1 <=? m)%Z && (m <=? 12)%Z && (1 <=? d)%Z && (d <=? 31)%Z
      then Some (daysFromCivil y m d * 86400000)%Z else None
  | _, _, _ => None
  end.

(** The time value of [YYYY-MM-DD] or of [YYYY-MM-DDTHH:MM:SS.mmmZ], the two
    forms the code itself produces and the seeded data uses; any other text
    is taken as an invalid date. *)
Definition parse (s : string) : option Z :=
  if (String.length s =? 10)%nat then dateOnly s
  else if (String.length s =? 24)%nat then
    match dateOnly (substring 0 10 s),
          field 11 2 s, field 14 2 s, field 17 2 s, field 20 3 s with
    | Some day, Some h, Some mi, Some sec, Some ms =>
        if (charAt 10 s =? "T")%string && (charAt 13 s =? ":")%string
           && (charAt 16 s =? ":")%string && (charAt 19 s =? ".")%string
           && (charAt 23 s =? "Z")%string
           && (h <? 24)%Z && (mi <? 60)%Z && (sec <? 60)%Z
        then Some (day + h * 3600000 + mi * 60000 + sec * 1000 + ms)%Z else None
    | _, _, _, _, _ => None
    end
  else None.

End IsoDate.

(** The hour of day that [getAvailableSlots] reads off a 12-hour label:
    [parseInt(time.split(':')[0])] adjusted by the [PM] marker. *)
Definition hour24 (time : string) : option nat :=
  match Js.parseInt (Js.beforeChar ":" time) with
  | None => None
  | Some hour =>
      let isPM := Js.includesStr "PM" time in
      Some (if isPM && negb (hour =? 12)%nat then hour + 12
            else if (hour =? 12)%nat && negb isPM then 0 else hour)
  end.

Section WithDates.

(** [new Date(text).getTime()]; [None] is an invalid date ([NaN]). *)
Variable Date_parse : string -> option Z.

(** [new Date(a) > new Date(b)]: false as soon as one side is invalid. *)
Definition laterThan (a b : string) : bool :=
  match Date_parse a, Date_parse b with
  | Some x, Some y => (y <? x)%Z
  | _, _ => false
  end.

(* ================================================================== *)
(** ** Emergency notifier *)
(* ================================================================== *)

Definition tenMinutes : Z := (10 * 60 * 1000)%Z.

Definition recentFor (c : Clock) (phone : string) (alert : EmergencyAlert) : bool :=
  (e_contactPhone alert =? phone)%string &&
  match Date_parse (e_alertedAt alert) with
  | Some t => (c_now c - tenMinutes <=? t)%Z
  | None => false
  end.

Definition newAlert (c : Clock) (name details phone : string) : EmergencyAlert :=
  {| e_id := "emg_" ++ Js.String_Z (c_now c);
     e_patientName := name;
     e_emergencyDetails := details;
     e_contactPhone := phone;
     e_timestamp := c_locale c;
     e_status := "pending";
     e_alertedAt := c_iso c |}.

(** The pictograph that opens both success messages in the source is left
    out of the literals. *)
Definition notifyStaffEmergency_body (c : Clock)
    (patientName emergencyDetails contactPhone : string) (db : Db) : Exit :=
  match validatePatientName patientName with
  | Invalid message => Returned (Fail message) db
  | Valid nameN =>
  match validatePhoneNumber contactPhone with
  | Invalid message => Returned (Fail message) db
  | Valid phoneN =>
      if (String.length (Js.trim emergencyDetails) <? 5)%nat
      then Returned
             (Fail "Please provide details about the emergency (at least 5 characters)") db
      else if existsb (recentFor c phoneN) (emergencyAlerts db)
      then Returned (OkMessage "Emergency already reported recently. Our team is on it.") db
      else
        Written
          (OkMessage ("EMERGENCY ALERT: Our dental team has been notified about "
             ++ nameN ++ "'s emergency (" ++ Js.trim emergencyDetails
             ++ "). They are preparing to provide immediate care."))
          {| patients := patients db;
             appointments := appointments db;
             availableSlots := availableSlots db;
             emergencyAlerts :=
               emergencyAlerts db ++ [newAlert c nameN (Js.trim emergencyDetails) phoneN] |}
  end end.

Definition notifyStaffEmergency (c : Clock)
    (patientName emergencyDetails contactPhone : string) (disk : Db) : Result * Db :=
  commit disk
    (notifyStaffEmergency_body c patientName emergencyDetails contactPhone
       (readDatabase disk)).

(* ================================================================== *)
(** ** Family booking coordinator *)
(* ================================================================== *)

Definition memberError (m : FamilyMember) : option string :=
  if (String.length (Js.trim (m_name m)) <? 2)%nat
  then Some ("Invalid name for family member: "
             ++ (if (m_name m =? "")%string then "unnamed" else m_name m))%string
  else if (String.length (Js.trim (m_relationship m)) <? 2)%nat
  then Some ("Invalid relationship for " ++ m_name m)%string
  else if (String.length (Js.trim (m_appointmentType m)) <? 2)%nat
  then Some ("Invalid appointment type for " ++ m_name m)%string
  else None.

(** The validation loop: the message of the first entry that fails. *)
Fixpoint firstMemberError (ms : list FamilyMember) : option string :=
  match ms with
  | [] => None
  | m :: rest =>
      match memberError m with
      | Some message => Some message
      | None => firstMemberError rest
      end
  end.

(** A stored patient that stands for the family member: same name up to
    case, and the primary patient's phone. *)
Definition isMemberRecord (primary : Patient) (m : FamilyMember) (p : Patient) : bool :=
  (Js.toLowerCase (p_fullName p) =? Js.toLowerCase (m_name m))%string
  && (p_phone p =? p_phone primary)%string.

(** The set [candidatesToOverwrite], as the list of its insertions. *)
Definition candidatesToOverwrite (primaryPatientId : string) (primary : Patient)
    (familyMembers : list FamilyMember) (ps : list Patient) : list string :=
  primaryPatientId ::
  flat_map (fun m => match find (isMemberRecord primary m) ps with
                     | Some existing => [p_id existing]
                     | None => []
                     end) familyMembers.

Definition preempted (candidates : list string) (preferredDate : string)
    (a : Appointment) : bool :=
  (a_date a =? preferredDate)%string && isActive a
  && Js.includes (a_patientId a) candidates.

Definition initFamilyMembers (p : Patient) : Patient :=
  {| p_id := p_id p; p_fullName := p_fullName p; p_phone := p_phone p;
     p_dateOfBirth := p_dateOfBirth p; p_insurance := p_insurance p;
     p_registeredDate := p_registeredDate p;
     p_familyMembers := match p_familyMembers p with
                        | Some l => Some l
                        | None => Some []
                        end |}.

Definition setFamilyMembers (refs : list FamilyMemberRef) (p : Patient) : Patient :=
  {| p_id := p_id p; p_fullName := p_fullName p; p_phone := p_phone p;
     p_dateOfBirth := p_dateOfBirth p; p_insurance := p_insurance p;
     p_registeredDate := p_registeredDate p;
     p_familyMembers := Some refs |}.

(** The working copy after the family-member array has been initialised and
    the party's same-day appointments have been overwritten. *)
Definition preemptFamily (c : Clock) (primaryPatientId : string) (primary : Patient)
    (familyMembers : list FamilyMember) (preferredDate : string) (db : Db) : Db :=
  let candidates :=
    candidatesToOverwrite primaryPatientId primary familyMembers (patients db) in
  let sameDayAppointments :=
    filter (preempted candidates preferredDate) (appointments db) in
  {| patients :=
       updateFirst (fun p => (p_id p =? primaryPatientId)%string) initFamilyMembers
         (patients db);
     appointments :=
       updateAll (preempted candidates preferredDate)
         (setCancelled (c_iso c) (Some "overwritten_by_family_booking"))
         (appointments db);
     availableSlots :=
       fold_left (fun ds a => release preferredDate (a_time a) ds) sameDayAppointments
         (availableSlots db);
     emergencyAlerts := emergencyAlerts db |}.

(** The variables the allocation loop updates. *)
Record FamilyLoop := mkFamilyLoop {
  fl_patients : list Patient;
  fl_appointments : list Appointment;
  fl_refs : list FamilyMemberRef;
  fl_booked : list Appointment;
  fl_index : nat
}.

(** [member.appointmentType || 'General Checkup'] *)
Definition bookedType (m : FamilyMember) : string :=
  if (m_appointmentType m =? "")%string then "General Checkup" else m_appointmentType m.

Definition familyAppointment (c : Clock) (index : nat) (patientId : string)
    (m : FamilyMember) (preferredDate time : string) : Appointment :=
  {| a_id := "a" ++ Js.String_Z (c_now c) ++ "_" ++ Js.String_nat index;
     a_patientId := patientId; a_patientName := m_name m;
     a_relationship := Some (m_relationship m);
     a_date := preferredDate; a_time := time;
     a_type := bookedType m;
     a_status := "confirmed";
     a_emergencyDetails := None; a_createdAt := None; a_bookedAt := Some (c_iso c);
     a_cancelledAt := None; a_cancelReason := None;
     a_rescheduledFrom := None; a_rescheduledAt := None |}.

Definition memberPatient (c : Clock) (primary : Patient) (m : FamilyMember)
    (ps : list Patient) : Patient :=
  {| p_id := "p" ++ Js.padStart0 3 (Js.String_nat (length ps + 1));
     p_fullName := m_name m; p_phone := p_phone primary;
     p_dateOfBirth := p_dateOfBirth primary; p_insurance := p_insurance primary;
     p_registeredDate := c_day c; p_familyMembers := Some [] |}.

Definition addRef (c : Clock) (m : FamilyMember) (refs : list FamilyMemberRef)
  : list FamilyMemberRef :=
  if existsb (fun fm => (fm_name fm =? m_name m)%string) refs then refs
  else refs ++ [ {| fm_name := m_name m;
                    fm_relationship := if (m_relationship m =? "")%string then "family"
                                       else m_relationship m;
                    fm_addedDate := c_day c |} ].

(** [for (const member of familyMembers) { if (index >= slots.length) break; ... }] *)
Fixpoint familyLoop (c : Clock) (primary : Patient) (preferredDate : string)
    (slots : list string) (members : list FamilyMember) (st : FamilyLoop) : FamilyLoop :=
  match members with
  | [] => st
  | member :: rest =>
      match nth_error slots (fl_index st) with
      | None => st
      | Some time =>
          let ps :=
            match find (isMemberRecord primary member) (fl_patients st) with
            | Some _ => fl_patients st
            | None => fl_patients st ++ [memberPatient c primary member (fl_patients st)]
            end in
          let familyMemberPatientId :=
            match find (isMemberRecord primary member) (fl_patients st) with
            | Some existing => p_id existing
            | None => p_id (memberPatient c primary member (fl_patients st))
            end in
          let appointment :=
            familyAppointment c (fl_index st) familyMemberPatientId member
              preferredDate time in
          familyLoop c primary preferredDate slots rest
            {| fl_patients := ps;
               fl_appointments := fl_appointments st ++ [appointment];
               fl_refs := addRef c member (fl_refs st);
               fl_booked := fl_booked st ++ [appointment];
               fl_index := S (fl_index st) |}
      end
  end.

Definition primaryAppointment (c : Clock) (primaryPatientId : string) (primary : Patient)
    (preferredDate time type : string) : Appointment :=
  {| a_id := "a" ++ Js.String_Z (c_now c) ++ "_primary";
     a_patientId := primaryPatientId; a_patientName := p_fullName primary;
     a_relationship := None; a_date := preferredDate; a_time := time;
     a_type := type; a_status := "confirmed";
     a_emergencyDetails := None; a_createdAt := None; a_bookedAt := Some (c_iso c);
     a_cancelledAt := None; a_cancelReason := None;
     a_rescheduledFrom := None; a_rescheduledAt := None |}.

Definition detailLine (a : Appointment) : string :=
  a_patientName a ++ " - " ++ a_date a ++ " at " ++ a_time a ++ " - " ++ a_type a.

Definition genericCapacityMessage : string :=
  "Not enough consecutive slots available. Please book earlier times or contact us at 555-DENTAL.".

(** The answer when the preferred day cannot hold the party. *)
Definition insufficient (familyMembers : list FamilyMember) (preferredDate : string)
    (dateSlots : option SlotDay) (db1 : Db) : Exit :=
  let totalSlotsNeeded := length familyMembers + 1 in
  let open := match dateSlots with Some d => s_slots d | None => [] end in
  match find (fun s => laterThan (s_date s) preferredDate
                       && (totalSlotsNeeded <=? length (s_slots s))%nat)
             (availableSlots db1) with
  | Some nextAvailable =>
      Returned
        (FailInsufficient open (s_date nextAvailable)
           (firstn totalSlotsNeeded (s_slots nextAvailable))
           ("Only " ++ Js.String_nat (length open) ++ " slot(s) available on "
            ++ preferredDate ++ ". Need " ++ Js.String_nat totalSlotsNeeded
            ++ " slots for you and " ++ Js.String_nat (length familyMembers)
            ++ " family members. Next available date is " ++ s_date nextAvailable ++ "."))
        db1
  | None => Returned (Fail genericCapacityMessage) db1
  end.

(** The allocation once the preferred day is known to hold the party. *)
Definition allocate (c : Clock) (primaryPatientId : string) (primary : Patient)
    (familyMembers : list FamilyMember) (preferredDate primaryType : string)
    (dateSlots : SlotDay) (db1 : Db) : Exit :=
  let primaryAppt :=
    primaryAppointment c primaryPatientId primary preferredDate
      (nth 0 (s_slots dateSlots) "") primaryType in
  let refs0 :=
    match find (fun p => (p_id p =? primaryPatientId)%string) (patients db1) with
    | Some p => match p_familyMembers p with Some l => l | None => [] end
    | None => []
    end in
  let st :=
    familyLoop c primary preferredDate (s_slots dateSlots) familyMembers
      {| fl_patients := patients db1;
         fl_appointments := appointments db1 ++ [primaryAppt];
         fl_refs := refs0;
         fl_booked := [primaryAppt];
         fl_index := 1 |} in
  Written
    (OkFamily (fl_booked st) (length familyMembers)
       ("Successfully booked " ++ Js.String_nat (length (fl_booked st))
        ++ " appointments for you and your family!")
       (map detailLine (fl_booked st)))
    {| patients :=
         updateFirst (fun p => (p_id p =? primaryPatientId)%string)
           (setFamilyMembers (fl_refs st)) (fl_patients st);
       appointments := fl_appointments st;
       availableSlots :=
         updateDay preferredDate (skipn (length (fl_booked st))) (availableSlots db1);
       emergencyAlerts := emergencyAlerts db1 |}.

(** [timing] is accepted and never read. *)
Definition bookFamilyAppointments_body (c : Clock) (primaryPatientId : string)
    (familyMembers : list FamilyMember) (preferredDate timing primaryType : string)
    (db : Db) : Exit :=
  match find (fun p => (p_id p =? primaryPatientId)%string) (patients db) with
  | None => Returned (Fail "Primary patient not found") db
  | Some primaryPatient =>
      if (length familyMembers =? 0)%nat
      then Returned (Fail "Family members information is required") db
      else
        match firstMemberError familyMembers with
        | Some message => Returned (Fail message) db
        | None =>
            let db1 :=
              preemptFamily c primaryPatientId primaryPatient familyMembers
                preferredDate db in
            let dateSlots := findDay preferredDate (availableSlots db1) in
            match dateSlots with
            | None => insufficient familyMembers preferredDate dateSlots db1
            | Some d =>
                if (length (s_slots d) <? length familyMembers + 1)%nat
                then insufficient familyMembers preferredDate dateSlots db1
                else allocate c primaryPatientId primaryPatient familyMembers
                       preferredDate primaryType d db1
            end
        end
  end.

Definition bookFamilyAppointments (c : Clock) (primaryPatientId : string)
    (familyMembers : list FamilyMember) (preferredDate timing primaryType : string)
    (disk : Db) : Result * Db :=
  commit disk
    (bookFamilyAppointments_body c primaryPatientId familyMembers preferredDate
       timing primaryType (readDatabase disk)).

End WithDates.

(* ================================================================== *)
(** ** Dispatch and consistency predicates *)
(* ================================================================== *)

(** The store-mutating entries of the action table of
    [executeFunctionCall], with their argument objects. *)
Inductive Call :=
  | book_appointment (patientId patientName date time type emergencyDetails : string)
  | register_new_patient (fullName phone dateOfBirth insurance : string)
  | cancel_appointment (appointmentId : string)
  | cancel_all_appointments (patientId : string)
  | reschedule_appointment (appointmentId newDate newTime : string)
  | notify_staff_emergency (patientName emergencyDetails contactPhone : string)
  | book_family_appointments (primaryPatientId : string)
      (familyMembers : list FamilyMember)
      (preferredDate timing primaryPatientAppointmentType : string).

Definition executeFunctionCall (Date_parse : string -> option Z) (c : Clock)
    (call : Call) (disk : Db) : Result * Db :=
  match call with
  | book_appointment patientId patientName date time type emergencyDetails =>
      bookAppointment c patientId patientName date time type emergencyDetails disk
  | register_new_patient fullName phone dateOfBirth insurance =>
      registerNewPatient c fullName phone dateOfBirth insurance disk
  | cancel_appointment appointmentId => cancelAppointment c appointmentId disk
  | cancel_all_appointments patientId => cancelAllAppointments c patientId disk
  | reschedule_appointment appointmentId newDate newTime =>
      rescheduleAppointment c appointmentId newDate newTime disk
  | notify_staff_emergency patientName emergencyDetails contactPhone =>
      notifyStaffEmergency Date_parse c patientName emergencyDetails contactPhone disk
  | book_family_appointments primaryPatientId familyMembers preferredDate timing type =>
      bookFamilyAppointments Date_parse c primaryPatientId familyMembers preferredDate
        timing type disk
  end.

(** A body that reaches [writeDatabase] answers with a success. *)
Definition writesOnlyOnSuccess (e : Exit) : Prop :=
  match e with
  | Written r _ => success r = true
  | Returned _ _ => True
  end.

(** An active appointment's time is not offered on its day. *)
Definition slotTaken (days : list SlotDay) (a : Appointment) : bool :=
  negb (isActive a) ||
  match findDay (a_date a) days with
  | Some d => negb (Js.includes (a_time a) (s_slots d))
  | None => true
  end.

(** Cross-entity consistency: no active appointment's (date, time) is in
    the corresponding day's list of open slots. *)
Definition consistent (db : Db) : bool :=
  forallb (slotTaken (availableSlots db)) (appointments db).

(** The slot of an appointment, and the slots the active appointments of a
    ledger hold (one entry per active appointment). *)
Definition slotOf (a : Appointment) : string * string := (a_date a, a_time a).

Definition heldSlots (appts : list Appointment) : list (string * string) :=
  map slotOf (filter isActive appts).

(** The slot store offers the slot: its date has an entry and the time is in
    the list of the first such entry. *)
Definition offered (days : list SlotDay) (slot : string * string) : Prop :=
  exists l, openSlots (fst slot) days = Some l /\ In (snd slot) l.

(** The state the coordinator keeps, over the slots held: no slot is held
    twice, no held slot is offered, and no day lists a time twice. *)
Definition keptSlots (held : list (string * string)) (days : list SlotDay) : Prop :=
  NoDup held
  /\ (forall slot, In slot held -> ~ offered days slot)
  /\ Forall (fun d => NoDup (s_slots d)) days.

Definition kept (db : Db) : Prop :=
  keptSlots (heldSlots (appointments db)) (availableSlots db).

(** The slot store lists its days in ascending date order. *)
Definition datesAscending (Date_parse : string -> option Z) (days : list SlotDay) : Prop :=
  StronglySorted (fun a b => laterThan Date_parse (s_date b) (s_date a) = true) days.

(** A day that can take a party of [needed] after [preferredDate]. *)
Definition isAlternative (Date_parse : string -> option Z) (needed : nat)
    (preferredDate : string) (s : SlotDay) : bool :=
  laterThan Date_parse (s_date s) preferredDate && (needed <=? length (s_slots s))%nat.

(** [s] is an alternative of the store, and no alternative of the store has
    an earlier date. *)
Definition nearestAlternative (Date_parse : string -> option Z) (needed : nat)
    (preferredDate : string) (days : list SlotDay) (s : SlotDay) : Prop :=
  In s days /\ isAlternative Date_parse needed preferredDate s = true /\
  forall s', In s' days -> isAlternative Date_parse needed preferredDate s' = true ->
             laterThan Date_parse (s_date s) (s_date s') = false.

(* ================================================================== *)
(** ** Sample data *)
(* ================================================================== *)

Module Sample.

Definition clock : Clock :=
  {| c_now := 1760875200000; c_iso := "2025-10-19T12:00:00.000Z";
     c_day := "2025-10-19"; c_locale := "10/19/2025, 12:00:00 PM"; c_year := 2025 |}.

(** Five minutes after [clock]. *)
Definition clockLater : Clock :=
  {| c_now := 1760875500000; c_iso := "2025-10-19T12:05:00.000Z";
     c_day := "2025-10-19"; c_locale := "10/19/2025, 12:05:00 PM"; c_year := 2025 |}.

Definition john : Patient :=
  {| p_id := "p001"; p_fullName := "John Doe"; p_phone := "1234567890";
     p_dateOfBirth := "01151990"; p_insurance := "Blue Cross";
     p_registeredDate := "2025-10-01"; p_familyMembers := Some [] |}.

Definition mary : Patient :=
  {| p_id := "p002"; p_fullName := "Mary Major"; p_phone := "5551234567";
     p_dateOfBirth := "03031985"; p_insurance := "Aetna";
     p_registeredDate := "2025-10-02"; p_familyMembers := Some [] |}.

Definition visit (id patientId patientName date time status : string) : Appointment :=
  {| a_id := id; a_patientId := patientId; a_patientName := patientName;
     a_relationship := None; a_date := date; a_time := time; a_type := "Cleaning";
     a_status := status; a_emergencyDetails := None;
     a_createdAt := Some "2025-10-18T09:00:00.000Z"; a_bookedAt := None;
     a_cancelledAt := None; a_cancelReason := None; a_rescheduledFrom := None;
     a_rescheduledAt := None |}.

Definition jane : FamilyMember :=
  {| m_name := "Jane Doe"; m_relationship := "spouse"; m_appointmentType := "Cleaning" |}.

(** Two patients, no appointment, two seeded days. *)
Definition fresh : Db :=
  {| patients := [john; mary];
     appointments := [];
     availableSlots :=
       [ {| s_date := "2025-10-25"; s_slots := ["9:00 AM"; "10:00 AM"; "2:00 PM"] |};
         {| s_date := "2025-10-26"; s_slots := ["9:00 AM"; "10:00 AM"] |} ];
     emergencyAlerts := [] |}.

(** John holds 2:00 PM on the 25th; 9:00 AM is open, 3:00 PM is not offered. *)
Definition johnBooked : Db :=
  {| patients := [john; mary];
     appointments := [visit "a001" "p001" "John Doe" "2025-10-25" "2:00 PM" "scheduled"];
     availableSlots :=
       [ {| s_date := "2025-10-25"; s_slots := ["10:00 AM"; "9:00 AM"] |};
         {| s_date := "2025-10-26"; s_slots := ["9:00 AM"; "10:00 AM"] |} ];
     emergencyAlerts := [] |}.

(** John's appointment at 2:00 PM was cancelled and Mary then booked that
    slot; 9:00 AM and 10:00 AM are open. *)
Definition rebooked : Db :=
  {| patients := [john; mary];
     appointments :=
       [ visit "a001" "p001" "John Doe" "2025-10-25" "2:00 PM" "cancelled";
         visit "a002" "p002" "Mary Major" "2025-10-25" "2:00 PM" "scheduled" ];
     availableSlots :=
       [ {| s_date := "2025-10-25"; s_slots := ["10:00 AM"; "9:00 AM"] |} ];
     emergencyAlerts := [] |}.

(** The 25th has one open slot; the later days are stored out of date
    order. *)
Definition unordered : Db :=
  {| patients := [john; mary];
     appointments := [];
     availableSlots :=
       [ {| s_date := "2025-10-25"; s_slots := ["9:00 AM"] |};
         {| s_date := "2025-10-30"; s_slots := ["9:00 AM"; "10:00 AM"] |};
         {| s_date := "2025-10-26"; s_slots := ["9:00 AM"; "10:00 AM"] |} ];
     emergencyAlerts := [] |}.

(** John holds 11:00 AM on the 25th; the open slots of that day are in
    clock order. *)
Definition morning : Db :=
  {| patients := [john; mary];
     appointments := [visit "a001" "p001" "John Doe" "2025-10-25" "11:00 AM" "scheduled"];
     availableSlots :=
       [ {| s_date := "2025-10-25"; s_slots := ["9:00 AM"; "10:00 AM"] |} ];
     emergencyAlerts := [] |}.

End Sample.

(* ================================================================== *)
(** ** Listing open slots *)
(* ================================================================== *)

Module JsNum.

(** Value of a character as a digit of some radix up to 16. *)
Definition digitValue (c : ascii) : option nat :=
  let n := Js.code c in
  if Js.isDigit c then Some (n - 48)
  else if (97 <=? n)%nat && (n <=? 102)%nat then Some (n - 87)
  else if (65 <=? n)%nat && (n <=? 70)%nat then Some (n - 55)
  else None.

(** The longest run of digits of the radix in front of the text, as a
    number; [None] when the run is empty. *)
Fixpoint digitsIn (radix : nat) (acc : Z) (seen : bool) (s : string) : option Z :=
  match s with
  | EmptyString => if seen then Some acc else None
  | String c r =>
      match digitValue c with
      | Some v =>
          if (v <? radix)%nat
          then digitsIn radix (acc * Z.of_nat radix + Z.of_nat v)%Z true r
          else if seen then Some acc else None
      | None => if seen then Some acc else None
      end
  end.

(** [parseInt(s)] without a radix argument: leading white space, a sign, a
    [0x] prefix for radix 16, then the longest run of digits; [None] is
    [NaN].  The result is the exact integer; the code only compares it with
    12 and 17 and adds 12, where the rounding of large values to a double
    makes no difference. *)
Definition parseInt (s : string) : option Z :=
  let t := Js.trimStart s in
  let negative := prefix "-" t in
  let u := if prefix "-" t || prefix "+" t then Js.dropFirst t else t in
  let hex := prefix "0x" u || prefix "0X" u in
  let digits := if hex then Js.dropFirst (Js.dropFirst u) else u in
  option_map (fun z => if negative then (- z)%Z else z)
    (digitsIn (if hex then 16 else 10) 0 false digits).

End JsNum.

(** [hour24] of the filter of [getAvailableSlots], for any label. *)
Definition hourOfLabel (time : string) : option Z :=
  match JsNum.parseInt (Js.beforeChar ":" time) with
  | None => None
  | Some hour =>
      let isPM := Js.includesStr "PM" time in
      Some (if isPM && negb (hour =? 12)%Z then (hour + 12)%Z
            else if (hour =? 12)%Z && negb isPM then 0%Z else hour)
  end.

(** The test of the inner [filter]: the label falls in one of the preferred
    parts of the day.  Every comparison with [NaN] is false. *)
Definition inPreferredTimes (preferredTimes : list string) (time : string) : bool :=
  match hourOfLabel time with
  | None => false
  | Some h =>
      (Js.includes "morning" preferredTimes && (h <? 12)%Z)
      || (Js.includes "afternoon" preferredTimes && (12 <=? h)%Z && (h <? 17)%Z)
      || (Js.includes "evening" preferredTimes && (17 <=? h)%Z)
  end.

(** [getAvailableSlots] of [server.js] from the point where [start] and
    [end] have been set from the arguments (the local-time calendar
    arithmetic before that point is not modelled): the fall-back range for
    invalid dates, the range filter and the time-of-day filter.  [None] is an
    invalid date. *)
Definition getAvailableSlots (Date_parse : string -> option Z) (start end_ : option Z)
    (preferredTimes : list string) (disk : Db) : list SlotDay :=
  let start := match start with Some s => Some s | None => Date_parse "2025-10-21" end in
  let end_ := match end_ with Some e => Some e | None => Date_parse "2025-11-05" end in
  let availableSlots :=
    filter (fun slot =>
              match Date_parse (s_date slot), start, end_ with
              | Some d, Some s, Some e =>
                  (s <=? d)%Z && (d <=? e)%Z && (0 <? length (s_slots slot))%nat
              | _, _, _ => false
              end) (availableSlots disk) in
  if (0 <? length preferredTimes)%nat && negb (Js.includes "any" preferredTimes)
  then
    filter (fun slot => (0 <? length (s_slots slot))%nat)
      (map (fun slot =>
              {| s_date := s_date slot;
                 s_slots := filter (inPreferredTimes preferredTimes) (s_slots slot) |})
         availableSlots)
  else availableSlots.

(* ================================================================== *)
(** ** The database manager *)
(* ================================================================== *)

Record LogEntry := mkLogEntry {
  l_conversationId : string;
  l_role : string;
  (** [None]: the entry has no [message]. *)
  l_message : option string;
  l_timestamp : string
}.

Record ConversationSummary := mkConversationSummary {
  cs_conversationId : string;
  cs_startTime : option string;
  cs_endTime : option string;
  cs_totalMessages : nat;
  cs_userMessages : nat;
  cs_assistantMessages : nat;
  cs_errors : nat;
  cs_hasErrors : bool;
  cs_lastMessage : option string
}.

Module DatabaseManager.

Definition findPatientById (patientId : string) (disk : Db) : option Patient :=
  find (fun p => (p_id p =? patientId)%string) (patients disk).

Definition addAppointment (appointment : Appointment) (disk : Db) : Db :=
  {| patients := patients disk;
     appointments := appointments disk ++ [appointment];
     availableSlots := availableSlots disk;
     emergencyAlerts := emergencyAlerts disk |}.

(** Strings are compared by code units. *)
Definition getAvailableSlots (startDate endDate : string) (disk : Db) : list SlotDay :=
  filter (fun slot => (startDate <=? s_date slot)%string
                      && (s_date slot <=? endDate)%string)
         (availableSlots disk).

(** The file is written only when the date has an entry. *)
Definition removeTimeSlot (date time : string) (disk : Db) : Db :=
  match findDay date (availableSlots disk) with
  | Some _ =>
      {| patients := patients disk;
         appointments := appointments disk;
         availableSlots := updateDay date (removeSlot time) (availableSlots disk);
         emergencyAlerts := emergencyAlerts disk |}
  | None => disk
  end.

Definition addEmergencyAlert (alert : EmergencyAlert) (disk : Db) : Db :=
  {| patients := patients disk;
     appointments := appointments disk;
     availableSlots := availableSlots disk;
     emergencyAlerts := emergencyAlerts disk ++ [alert] |}.

(** [status] empty stands for the default [null]. *)
Definition getEmergencyAlerts (status : string) (disk : Db) : list EmergencyAlert :=
  if (status =? "")%string then emergencyAlerts disk
  else filter (fun alert => (e_status alert =? status)%string) (emergencyAlerts disk).

(** The conversation log file after [addConversationLog]. *)
Definition addConversationLog (logEntry : LogEntry) (logs : list LogEntry)
  : list LogEntry :=
  logs ++ [logEntry].

Definition getConversationLogs (conversationId : string) (logs : list LogEntry)
  : list LogEntry :=
  filter (fun log => (l_conversationId log =? conversationId)%string) logs.

Definition hasRole (role : string) (l : LogEntry) : bool := (l_role l =? role)%string.

(** [l.role === 'system' && l.message?.includes('ERROR')] *)
Definition isErrorLog (l : LogEntry) : bool :=
  hasRole "system" l &&
  match l_message l with
  | Some m => Js.includesStr "ERROR" m
  | None => false
  end.

(** [None] is the [null] returned for a conversation without entries. *)
Definition getConversationSummary (conversationId : string) (allLogs : list LogEntry)
  : option ConversationSummary :=
  let logs := getConversationLogs conversationId allLogs in
  if (length logs =? 0)%nat then None
  else
    let errors := filter isErrorLog logs in
    Some {| cs_conversationId := conversationId;
            cs_startTime := option_map l_timestamp (hd_error logs);
            cs_endTime := option_map l_timestamp (last (map Some logs) None);
            cs_totalMessages := length logs;
            cs_userMessages := length (filter (hasRole "user") logs);
            cs_assistantMessages := length (filter (hasRole "assistant") logs);
            cs_errors := length errors;
            cs_hasErrors := (0 <? length errors)%nat;
            cs_lastMessage :=
              match last (map Some logs) None with
              | Some l => l_message l
              | None => None
              end |}.

End DatabaseManager.

(* ================================================================== *)
(** ** The session manager *)
(* ================================================================== *)

Module SessionManager.

Section Sessions.

(** The conversation history and the pending appointment details are
    objects the session manager stores and hands back without looking
    inside. *)
Variables Context Details : Type.

Record Session := mkSession {
  createdAt : option string;
  lastUpdated : option string;
  context : option Context;
  pendingAppointment : option Details;
  patientId : option string;
  patientName : option string
}.

(** The [Map] of sessions, in insertion order. *)
Definition Cache := list (string * Session).

(** [sessionCache.get(conversationId) || null] *)
Definition getSession (conversationId : string) (cache : Cache) : option Session :=
  option_map snd (find (fun kv => (fst kv =? conversationId)%string) cache).

(** [Map.prototype.set]: the value of a present key is replaced where it
    stands, a new key goes last. *)
Fixpoint cacheSet (conversationId : string) (v : Session) (cache : Cache) : Cache :=
  match cache with
  | [] => [(conversationId, v)]
  | kv :: rest =>
      if (fst kv =? conversationId)%string then (conversationId, v) :: rest
      else kv :: cacheSet conversationId v rest
  end.

Definition touch (c : Clock) (s : Session) : Session :=
  {| createdAt := createdAt s; lastUpdated := Some (c_iso c); context := context s;
     pendingAppointment := pendingAppointment s; patientId := patientId s;
     patientName := patientName s |}.

Definition setSession (c : Clock) (conversationId : string) (sessionData : Session)
    (cache : Cache) : Cache :=
  cacheSet conversationId (touch c sessionData) cache.

(** [getSession(id) || { createdAt: new Date().toISOString() }] *)
Definition sessionOrNew (c : Clock) (conversationId : string) (cache : Cache) : Session :=
  match getSession conversationId cache with
  | Some s => s
  | None =>
      {| createdAt := Some (c_iso c); lastUpdated := None; context := None;
         pendingAppointment := None; patientId := None; patientName := None |}
  end.

Definition updateSessionContext (c : Clock) (conversationId : string) (ctx : Context)
    (cache : Cache) : Cache :=
  let session := sessionOrNew c conversationId cache in
  setSession c conversationId
    {| createdAt := createdAt session; lastUpdated := Some (c_iso c);
       context := Some ctx; pendingAppointment := pendingAppointment session;
       patientId := patientId session; patientName := patientName session |}
    cache.

Definition setPendingAppointment (c : Clock) (conversationId : string)
    (appointmentDetails : Details) (cache : Cache) : Cache :=
  let session := sessionOrNew c conversationId cache in
  setSession c conversationId
    {| createdAt := createdAt session; lastUpdated := Some (c_iso c);
       context := context session; pendingAppointment := Some appointmentDetails;
       patientId := patientId session; patientName := patientName session |}
    cache.

(** [session?.pendingAppointment || null] *)
Definition getPendingAppointment (conversationId : string) (cache : Cache)
  : option Details :=
  match getSession conversationId cache with
  | Some s => pendingAppointment s
  | None => None
  end.

Definition clearPendingAppointment (c : Clock) (conversationId : string) (cache : Cache)
  : Cache :=
  match getSession conversationId cache with
  | Some session =>
      setSession c conversationId
        {| createdAt := createdAt session; lastUpdated := lastUpdated session;
           context := context session; pendingAppointment := None;
           patientId := patientId session; patientName := patientName session |}
        cache
  | None => cache
  end.

Definition setSessionPatient (c : Clock) (conversationId id name : string)
    (cache : Cache) : Cache :=
  let session := sessionOrNew c conversationId cache in
  setSession c conversationId
    {| createdAt := createdAt session; lastUpdated := Some (c_iso c);
       context := context session; pendingAppointment := pendingAppointment session;
       patientId := Some id; patientName := Some name |}
    cache.

Definition getSessionPatient (conversationId : string) (cache : Cache)
  : option (option string * option string) :=
  match getSession conversationId cache with
  | Some s => Some (patientId s, patientName s)
  | None => None
  end.

Variable Date_parse : string -> option Z.

(** [new Date(session.lastUpdated) < limit]; a missing or invalid time
    stamp compares false.  [> limit] is [updatedAfter]. *)
Definition updatedBefore (limit : Z) (s : Session) : bool :=
  match lastUpdated s with
  | Some text =>
      match Date_parse text with
      | Some t => (t <? limit)%Z
      | None => false
      end
  | None => false
  end.

Definition updatedAfter (limit : Z) (s : Session) : bool :=
  match lastUpdated s with
  | Some text =>
      match Date_parse text with
      | Some t => (limit <? t)%Z
      | None => false
      end
  | None => false
  end.

Definition oneDay : Z := (24 * 60 * 60 * 1000)%Z.

(** The cache after [cleanupOldSessions] (the file is rewritten when an
    entry was removed). *)
Definition cleanupOldSessions (c : Clock) (cache : Cache) : Cache :=
  filter (fun kv => negb (updatedBefore (c_now c - oneDay) (snd kv))) cache.

Record SessionStats := mkSessionStats {
  totalSessions : nat;
  activeLast5Min : nat;
  activeLast1Hour : nat
}.

Definition getSessionStats (c : Clock) (cache : Cache) : SessionStats :=
  {| totalSessions := length cache;
     activeLast5Min :=
       length (filter (fun kv => updatedAfter (c_now c - 5 * 60 * 1000) (snd kv)) cache);
     activeLast1Hour :=
       length (filter (fun kv => updatedAfter (c_now c - 60 * 60 * 1000) (snd kv)) cache) |}.

End Sessions.

End SessionManager.

(* ================================================================== *)
(** ** Predicates of the further properties *)
(* ================================================================== *)

(** No two stored patients have the same phone up to formatting. *)
Definition phonesUnique (disk : Db) : Prop :=
  NoDup (map (fun p => normalizePhone (p_phone p)) (patients disk)).

(** The patient holds an active appointment at that date and time. *)
Definition holdsSlot (patientId date time : string) (a : Appointment) : bool :=
  sameDayOf patientId date a && (a_time a =? time)%string.

(* ================================================================== *)
(** ** Lists of slots *)
(* ================================================================== *)

Lemma includes_In (x : string) (l : list string) :
  Js.includes x l = true <-> In x l.
Proof.
  unfold Js.includes. rewrite existsb_exists. split.
  - intros [y [Hy He]]. apply String.eqb_eq in He. now subst.
  - intros H. exists x. split; [exact H | apply String.eqb_refl].
Qed.

Lemma includes_false (x : string) (l : list string) :
  Js.includes x l = false <-> ~ In x l.
Proof.
  rewrite <- includes_In. destruct (Js.includes x l); split; congruence.
Qed.

Lemma insertSorted_perm (x : string) (l : list string) :
  Permutation (Js.insertSorted x l) (x :: l).
Proof.
  induction l as [|y r IH]; simpl.
  - apply Permutation_refl.
  - destruct (x <=? y)%string.
    + apply Permutation_refl.
    + eapply perm_trans; [apply perm_skip, IH | apply perm_swap].
Qed.

Lemma sort_perm (l : list string) : Permutation (Js.sort l) l.
Proof.
  induction l as [|x r IH]; simpl.
  - apply perm_nil.
  - eapply perm_trans; [apply insertSorted_perm | apply perm_skip, IH].
Qed.

Lemma sort_In (x : string) (l : list string) : In x (Js.sort l) <-> In x l.
Proof.
  split; apply Permutation_in; [apply sort_perm | apply Permutation_sym, sort_perm].
Qed.

Lemma pushSorted_perm (t : string) (l : list string) :
  ~ In t l -> Permutation (pushSorted t l) (t :: l).
Proof.
  intros H. unfold pushSorted. apply includes_false in H. rewrite H.
  eapply perm_trans; [apply sort_perm |].
  apply Permutation_sym, Permutation_cons_append.
Qed.

Lemma pushSorted_In (t x : string) (l : list string) :
  In x (pushSorted t l) <-> x = t \/ In x l.
Proof.
  unfold pushSorted. destruct (Js.includes t l) eqn:E.
  - apply includes_In in E. split; [now right | intros [->|H]; assumption].
  - rewrite sort_In, in_app_iff. simpl. intuition.
Qed.

Lemma pushSorted_has (t : string) (l : list string) : In t (pushSorted t l).
Proof. apply pushSorted_In. now left. Qed.

Lemma pushSorted_NoDup (t : string) (l : list string) :
  NoDup l -> NoDup (pushSorted t l).
Proof.
  intros H. destruct (Js.includes t l) eqn:E.
  - unfold pushSorted. now rewrite E.
  - apply includes_false in E.
    eapply Permutation_NoDup; [apply Permutation_sym, pushSorted_perm, E |].
    now constructor.
Qed.

Lemma removeSlot_In (t x : string) (l : list string) :
  In x (removeSlot t l) <-> In x l /\ x <> t.
Proof.
  unfold removeSlot. rewrite filter_In.
  destruct (String.eqb_spec x t); simpl; intuition congruence.
Qed.

Lemma removeSlot_gone (t : string) (l : list string) : ~ In t (removeSlot t l).
Proof. rewrite removeSlot_In. tauto. Qed.

(** A released label is in the list exactly once when it was absent. *)
Lemma count_occ_pushSorted (t : string) (l : list string) :
  ~ In t l -> count_occ string_dec (pushSorted t l) t = 1.
Proof.
  intros H.
  pose proof (pushSorted_perm t l H) as P.
  rewrite (Permutation_count_occ string_dec) in P. rewrite P.
  simpl. destruct (string_dec t t); [|congruence].
  f_equal. now apply count_occ_not_In.
Qed.

(* ================================================================== *)
(** ** Days and ledger entries *)
(* ================================================================== *)

Lemma openSlots_updateDay_same (date : string) (f : list string -> list string)
    (days : list SlotDay) :
  openSlots date (updateDay date f days) = option_map f (openSlots date days).
Proof.
  unfold openSlots, findDay.
  induction days as [|d rest IH]; simpl; [reflexivity|].
  destruct (s_date d =? date)%string eqn:E; simpl; rewrite E; [reflexivity | exact IH].
Qed.

Lemma openSlots_updateDay_other (date date' : string) (f : list string -> list string)
    (days : list SlotDay) :
  date <> date' -> openSlots date' (updateDay date f days) = openSlots date' days.
Proof.
  intros Hne. unfold openSlots, findDay.
  induction days as [|d rest IH]; simpl; [reflexivity|].
  destruct (s_date d =? date)%string eqn:E; simpl.
  - apply String.eqb_eq in E.
    destruct (String.eqb_spec (s_date d) date'); [congruence | reflexivity].
  - destruct (s_date d =? date')%string; [reflexivity | exact IH].
Qed.

Lemma openSlots_findDay (date : string) (days : list SlotDay) (d : SlotDay) :
  findDay date days = Some d -> openSlots date days = Some (s_slots d).
Proof. unfold openSlots. now intros ->. Qed.

Lemma findDay_openSlots (date : string) (days : list SlotDay) (l : list string) :
  openSlots date days = Some l -> exists d, findDay date days = Some d /\ s_slots d = l.
Proof.
  unfold openSlots. destruct (findDay date days) as [d|]; simpl; [|discriminate].
  intros [= <-]. now exists d.
Qed.

Lemma openSlots_release_same (date time : string) (days : list SlotDay) :
  openSlots date (release date time days) = option_map (pushSorted time) (openSlots date days).
Proof. apply openSlots_updateDay_same. Qed.

(** Releasing any slot keeps what a day already offers. *)
Lemma openSlots_release_keeps (date date' time x : string) (days : list SlotDay)
    (l : list string) :
  openSlots date' days = Some l -> In x l ->
  exists l', openSlots date' (release date time days) = Some l' /\ In x l'.
Proof.
  intros Hl Hx. destruct (String.eqb_spec date date') as [->|Hne].
  - rewrite openSlots_release_same, Hl. simpl. eexists. split; [reflexivity|].
    apply pushSorted_In. now right.
  - unfold release. rewrite openSlots_updateDay_other by exact Hne. now exists l.
Qed.

Lemma find_updateFirst {A : Type} (p : A -> bool) (f : A -> A) (l : list A) :
  (forall x, p x = true -> p (f x) = true) ->
  find p (updateFirst p f l) = option_map f (find p l).
Proof.
  intros Hp. induction l as [|x r IH]; simpl; [reflexivity|].
  destruct (p x) eqn:E; simpl.
  - now rewrite (Hp x E).
  - now rewrite E.
Qed.

Lemma length_updateAll {A : Type} (p : A -> bool) (f : A -> A) (l : list A) :
  length (updateAll p f l) = length l.
Proof. apply length_map. Qed.

Lemma nth_error_updateAll {A : Type} (p : A -> bool) (f : A -> A) (l : list A) (i : nat) :
  nth_error (updateAll p f l) i =
  option_map (fun x => if p x then f x else x) (nth_error l i).
Proof. apply nth_error_map. Qed.

Lemma isActive_setCancelled (at_ : string) (reason : option string) (a : Appointment) :
  isActive (setCancelled at_ reason a) = false.
Proof. reflexivity. Qed.

(* ================================================================== *)
(** ** Cancel *)
(* ================================================================== *)

(** C7.  [cancelAppointment] answers "Appointment not found" when no
    appointment has the identifier and "Appointment is already cancelled"
    when the one found is cancelled, and in both cases leaves the stores as
    they were, so no slot is released a second time.  Otherwise it succeeds:
    the appointment found is marked cancelled in place, nothing else in the
    ledger, the patients or the alerts changes, and the appointment's time is
    in its day's list of open slots afterwards (the slot store is left alone
    when it has no entry for that date). *)
Theorem cancel_outcomes (c : Clock) (appointmentId : string) (disk : Db) :
  (find (hasId appointmentId) (appointments disk) = None ->
   cancelAppointment c appointmentId disk = (Fail "Appointment not found", disk))
  /\
  (forall a, find (hasId appointmentId) (appointments disk) = Some a ->
   a_status a = "cancelled" ->
   cancelAppointment c appointmentId disk
   = (Fail "Appointment is already cancelled", disk))
  /\
  (forall a, find (hasId appointmentId) (appointments disk) = Some a ->
   a_status a <> "cancelled" ->
   exists disk',
     cancelAppointment c appointmentId disk
     = (OkCancelled "Appointment cancelled successfully"
          (summary true (setCancelled (c_iso c) None a)), disk')
     /\ find (hasId appointmentId) (appointments disk')
        = Some (setCancelled (c_iso c) None a)
     /\ a_status (setCancelled (c_iso c) None a) = "cancelled"
     /\ appointments disk'
        = updateFirst (hasId appointmentId) (setCancelled (c_iso c) None)
            (appointments disk)
     /\ patients disk' = patients disk
     /\ emergencyAlerts disk' = emergencyAlerts disk
     /\ (forall l, openSlots (a_date a) (availableSlots disk) = Some l ->
         exists l', openSlots (a_date a) (availableSlots disk') = Some l'
                    /\ In (a_time a) l'
                    /\ (forall x, In x l' <-> x = a_time a \/ In x l))
     /\ (openSlots (a_date a) (availableSlots disk) = None ->
         openSlots (a_date a) (availableSlots disk') = None)).
Proof.
  unfold cancelAppointment, cancelAppointment_body, readDatabase.
  split; [|split].
  - intros ->. reflexivity.
  - intros a -> Hs. rewrite Hs. reflexivity.
  - intros a Hf Hs. rewrite Hf.
    destruct (String.eqb_spec (a_status a) "cancelled") as [E|_]; [contradiction|].
    simpl. eexists. split; [reflexivity|]. simpl.
    repeat split.
    + rewrite find_updateFirst, Hf; [reflexivity | intros x Hx; exact Hx].
    + intros l Hl. rewrite openSlots_release_same, Hl. simpl.
      eexists. split; [reflexivity|]. split; [apply pushSorted_has|].
      intros x. apply pushSorted_In.
    + intros Hn. now rewrite openSlots_release_same, Hn.
Qed.

Lemma cancel_outcomes_witness :
  exists disk',
    cancelAppointment Sample.clock "a001" Sample.johnBooked
    = (OkCancelled "Appointment cancelled successfully"
         (summary true
            (setCancelled (c_iso Sample.clock) None
               (Sample.visit "a001" "p001" "John Doe" "2025-10-25" "2:00 PM" "scheduled"))),
       disk')
    /\ openSlots "2025-10-25" (availableSlots disk')
       = Some ["10:00 AM"; "2:00 PM"; "9:00 AM"]
    /\ cancelAppointment Sample.clock "a001" disk'
       = (Fail "Appointment is already cancelled", disk')
    /\ cancelAppointment Sample.clock "a009" disk'
       = (Fail "Appointment not found", disk').
Proof.
  destruct (cancel_outcomes Sample.clock "a001" Sample.johnBooked) as (_ & _ & H).
  destruct (H (Sample.visit "a001" "p001" "John Doe" "2025-10-25" "2:00 PM" "scheduled"))
    as (disk' & Hrun & _).
  - reflexivity.
  - discriminate.
  - exists disk'. split; [exact Hrun|].
    injection Hrun as <-.
    split; [reflexivity|]. split.
    + refine (proj1 (proj2 (cancel_outcomes Sample.clock "a001" _)) _ _ _);
        reflexivity.
    + refine (proj1 (cancel_outcomes Sample.clock "a009" _) _). reflexivity.
Defined.

(* ================================================================== *)
(** ** Reschedule *)
(* ================================================================== *)

Lemma openSlots_release_some (date date' time : string) (days : list SlotDay)
    (l : list string) :
  openSlots date' days = Some l ->
  exists l', openSlots date' (release date time days) = Some l' /\
             (forall x, In x l -> In x l').
Proof.
  intros Hl. destruct (String.eqb_spec date date') as [->|Hne].
  - rewrite openSlots_release_same, Hl. simpl. eexists. split; [reflexivity|].
    intros x Hx. apply pushSorted_In. now right.
  - unfold release. rewrite openSlots_updateDay_other by exact Hne.
    exists l. split; [exact Hl | auto].
Qed.

(** C10.  [rescheduleAppointment] never reads the status of the appointment
    it finds.  Whatever that status is, and so also when it is "cancelled",
    a request for an open slot succeeds: the appointment is updated in place
    to the new date and time with its status as it was, its prior date and
    time are recorded, the new time is no longer in the new day's list, and
    the old time is in the old day's list whenever it was absent from it. *)
Theorem reschedule_ignores_status (c : Clock) (appointmentId newDate newTime : string)
    (disk : Db) (a : Appointment) (l : list string) :
  find (hasId appointmentId) (appointments disk) = Some a ->
  openSlots newDate (availableSlots disk) = Some l ->
  In newTime l ->
  let a' := setRescheduled newDate newTime (c_iso c) a in
  exists disk',
    rescheduleAppointment c appointmentId newDate newTime disk
    = (OkRescheduled "Appointment rescheduled successfully" a', disk')
    /\ find (hasId appointmentId) (appointments disk') = Some a'
    /\ appointments disk'
       = updateFirst (hasId appointmentId) (setRescheduled newDate newTime (c_iso c))
           (appointments disk)
    /\ a_date a' = newDate /\ a_time a' = newTime
    /\ a_status a' = a_status a
    /\ (a_status a = "cancelled" -> a_status a' = "cancelled")
    /\ a_rescheduledFrom a' = Some (a_date a, a_time a)
    /\ (exists l', openSlots newDate (availableSlots disk') = Some l'
                   /\ ~ In newTime l')
    /\ (forall lo, openSlots (a_date a) (availableSlots disk) = Some lo ->
        ~ In (a_time a) lo ->
        exists lo', openSlots (a_date a) (availableSlots disk') = Some lo'
                    /\ In (a_time a) lo').
Proof.
  intros Hf Hl Hin a'.
  unfold rescheduleAppointment, rescheduleAppointment_body, readDatabase.
  rewrite Hf.
  destruct (findDay_openSlots _ _ _ Hl) as (d & Hd & Hsl). rewrite Hd.
  assert (Hinc : Js.includes newTime (s_slots d) = true)
    by (apply includes_In; now rewrite Hsl).
  rewrite Hinc. simpl.
  eexists. split; [reflexivity|]. simpl.
  split; [rewrite find_updateFirst, Hf; [reflexivity | intros x Hx; exact Hx]|].
  repeat split.
  - exact (fun H => H).
  - destruct (openSlots_release_some (a_date a) newDate (a_time a) _ _ Hl)
      as (l1 & Hl1 & _).
    rewrite openSlots_updateDay_same, Hl1. simpl.
    eexists. split; [reflexivity | apply removeSlot_gone].
  - intros lo Hlo Hno.
    destruct (String.eqb_spec newDate (a_date a)) as [E|Hne].
    + rewrite <- E in *. rewrite openSlots_updateDay_same, openSlots_release_same, Hl.
      simpl. eexists. split; [reflexivity|].
      apply removeSlot_In. split; [apply pushSorted_has|].
      intros Heq. apply Hno. rewrite Hl in Hlo. injection Hlo as <-.
      now rewrite Heq.
    + rewrite openSlots_updateDay_other by exact Hne.
      rewrite openSlots_release_same, Hlo. simpl.
      eexists. split; [reflexivity | apply pushSorted_has].
Qed.

Lemma reschedule_ignores_status_witness :
  exists disk',
    rescheduleAppointment Sample.clock "a001" "2025-10-25" "9:00 AM" Sample.rebooked
    = (OkRescheduled "Appointment rescheduled successfully"
         (setRescheduled "2025-10-25" "9:00 AM" (c_iso Sample.clock)
            (Sample.visit "a001" "p001" "John Doe" "2025-10-25" "2:00 PM" "cancelled")),
       disk')
    /\ openSlots "2025-10-25" (availableSlots disk') = Some ["10:00 AM"; "2:00 PM"].
Proof.
  destruct (reschedule_ignores_status Sample.clock "a001" "2025-10-25" "9:00 AM"
              Sample.rebooked
              (Sample.visit "a001" "p001" "John Doe" "2025-10-25" "2:00 PM" "cancelled")
              ["10:00 AM"; "9:00 AM"])
    as (disk' & Hrun & _).
  - reflexivity.
  - reflexivity.
  - simpl. right. left. reflexivity.
  - exists disk'. split; [exact Hrun|].
    injection Hrun as <-. reflexivity.
Defined.

(* ================================================================== *)
(** ** Failure leaves the files alone *)
(* ================================================================== *)

Lemma commit_failure (disk : Db) (e : Exit) :
  writesOnlyOnSuccess e ->
  success (fst (commit disk e)) = false -> snd (commit disk e) = disk.
Proof.
  destruct e as [r w|r w]; simpl; [reflexivity|].
  intros -> H. discriminate H.
Qed.

Ltac split_body :=
  repeat match goal with
         | |- writesOnlyOnSuccess (match ?x with _ => _ end) => destruct x
         | |- writesOnlyOnSuccess (if ?x then _ else _) => destruct x
         end;
  simpl; auto.

Lemma bookAppointment_writes (c : Clock)
    (patientId patientName date time type emergencyDetails : string) (db : Db) :
  writesOnlyOnSuccess
    (bookAppointment_body c patientId patientName date time type emergencyDetails db).
Proof. unfold bookAppointment_body. split_body. Qed.

Lemma cancelAppointment_writes (c : Clock) (appointmentId : string) (db : Db) :
  writesOnlyOnSuccess (cancelAppointment_body c appointmentId db).
Proof. unfold cancelAppointment_body. split_body. Qed.

Lemma cancelAllAppointments_writes (c : Clock) (patientId : string) (db : Db) :
  writesOnlyOnSuccess (cancelAllAppointments_body c patientId db).
Proof. unfold cancelAllAppointments_body. split_body. Qed.

Lemma rescheduleAppointment_writes (c : Clock) (appointmentId newDate newTime : string)
    (db : Db) :
  writesOnlyOnSuccess (rescheduleAppointment_body c appointmentId newDate newTime db).
Proof. unfold rescheduleAppointment_body. split_body. Qed.

Lemma notifyStaffEmergency_writes (Date_parse : string -> option Z) (c : Clock)
    (patientName emergencyDetails contactPhone : string) (db : Db) :
  writesOnlyOnSuccess
    (notifyStaffEmergency_body Date_parse c patientName emergencyDetails contactPhone db).
Proof. unfold notifyStaffEmergency_body. split_body. Qed.

Lemma bookFamilyAppointments_writes (Date_parse : string -> option Z) (c : Clock)
    (primaryPatientId : string) (familyMembers : list FamilyMember)
    (preferredDate timing primaryType : string) (db : Db) :
  writesOnlyOnSuccess
    (bookFamilyAppointments_body Date_parse c primaryPatientId familyMembers
       preferredDate timing primaryType db).
Proof.
  unfold bookFamilyAppointments_body, insufficient, allocate. split_body.
Qed.

Lemma registerNewPatient_failure (c : Clock)
    (fullName phone dateOfBirth insurance : string) (disk : Db) :
  success (fst (registerNewPatient c fullName phone dateOfBirth insurance disk)) = false ->
  snd (registerNewPatient c fullName phone dateOfBirth insurance disk) = disk.
Proof.
  unfold registerNewPatient.
  destruct (validatePatientName fullName); [reflexivity|].
  destruct (validatePhoneNumber phone); [reflexivity|].
  destruct (validateDateOfBirth (c_year c) dateOfBirth); [reflexivity|].
  destruct (validateInsurance insurance); [reflexivity|].
  destruct (searchPatient _ _ disk); simpl; intros H; try discriminate H; reflexivity.
Qed.

(** C1.  Whatever the stored state, an operation of the booking core
    (book, register, cancel, cancel all, reschedule, emergency notify, family
    booking) that answers with a failure leaves the four persisted
    collections exactly as they were: every failure is returned before the
    working copy is written, so what was changed in the working copy up to
    then (the same-day soft-cancellations and slot releases included) is
    dropped with it. *)
Theorem failure_leaves_stores_unchanged (Date_parse : string -> option Z) (c : Clock)
    (call : Call) (disk : Db) :
  success (fst (executeFunctionCall Date_parse c call disk)) = false ->
  snd (executeFunctionCall Date_parse c call disk) = disk.
Proof.
  destruct call; simpl.
  - apply commit_failure, bookAppointment_writes.
  - apply registerNewPatient_failure.
  - apply commit_failure, cancelAppointment_writes.
  - apply commit_failure, cancelAllAppointments_writes.
  - apply commit_failure, rescheduleAppointment_writes.
  - apply commit_failure, notifyStaffEmergency_writes.
  - apply commit_failure, bookFamilyAppointments_writes.
Qed.

(** John holds 2:00 PM and asks for 3:00 PM, which the day does not offer.
    The working copy has his 2:00 PM appointment cancelled and its slot
    released when the availability check fails; the files keep the
    appointment scheduled and the slot taken. *)
Lemma failure_leaves_stores_unchanged_witness :
  let call := book_appointment "p001" "John Doe" "2025-10-25" "3:00 PM" "Cleaning" "" in
  (exists working,
     bookAppointment_body Sample.clock "p001" "John Doe" "2025-10-25" "3:00 PM"
       "Cleaning" "" Sample.johnBooked
     = Returned (Fail "This time slot is no longer available") working
     /\ map a_status (appointments working) = ["cancelled"]
     /\ openSlots "2025-10-25" (availableSlots working)
        = Some ["10:00 AM"; "2:00 PM"; "9:00 AM"])
  /\ snd (executeFunctionCall IsoDate.parse Sample.clock call Sample.johnBooked)
     = Sample.johnBooked.
Proof.
  split.
  - eexists. split; [reflexivity|]. split; reflexivity.
  - apply (failure_leaves_stores_unchanged IsoDate.parse Sample.clock
             (book_appointment "p001" "John Doe" "2025-10-25" "3:00 PM" "Cleaning" "")
             Sample.johnBooked).
    reflexivity.
Defined.

(* ================================================================== *)
(** ** Consistency of slots and ledger *)
(* ================================================================== *)

(** C2.  Rescheduling a cancelled appointment breaks the consistency of
    ledger and slot store.  In the starting state John's appointment at
    2:00 PM is cancelled and Mary holds that slot; no active appointment's
    time is offered and no slot is held twice.  Rescheduling John's
    cancelled appointment to 9:00 AM succeeds and puts 2:00 PM back into the
    day's list while Mary's active appointment still holds it; 9:00 AM leaves
    the list although no active appointment holds it. *)
Theorem reschedule_cancelled_breaks_consistency :
  consistent Sample.rebooked = true
  /\ NoDup (heldSlots (appointments Sample.rebooked))
  /\ exists a' disk',
       rescheduleAppointment Sample.clock "a001" "2025-10-25" "9:00 AM" Sample.rebooked
       = (OkRescheduled "Appointment rescheduled successfully" a', disk')
       /\ a_status a' = "cancelled"
       /\ consistent disk' = false
       /\ heldSlots (appointments disk') = [("2025-10-25", "2:00 PM")]
       /\ openSlots "2025-10-25" (availableSlots disk') = Some ["10:00 AM"; "2:00 PM"].
Proof.
  split; [reflexivity|]. split.
  - simpl. constructor; [intros [] | constructor].
  - eexists. eexists. split; [reflexivity|]. repeat split; reflexivity.
Qed.

(* ================================================================== *)
(** ** Phone normalisation *)
(* ================================================================== *)

Lemma filterChars_all (keep : ascii -> bool) (s : string) :
  Js.allChars keep (Js.filterChars keep s) = true.
Proof.
  induction s as [|ch r IH]; simpl; [reflexivity|].
  destruct (keep ch) eqn:E; simpl; [now rewrite E | exact IH].
Qed.

(** What [filterChars] keeps is exactly the kept characters, in order. *)
Lemma filterChars_list (keep : ascii -> bool) (s : string) :
  list_ascii_of_string (Js.filterChars keep s)
  = filter keep (list_ascii_of_string s).
Proof.
  induction s as [|ch r IH]; simpl; [reflexivity|].
  destruct (keep ch); simpl; now rewrite IH.
Qed.

Lemma allChars_dropFirst (p : ascii -> bool) (s : string) :
  Js.allChars p s = true -> Js.allChars p (Js.dropFirst s) = true.
Proof.
  destruct s as [|ch r]; simpl; [auto|].
  intros H. now apply andb_true_iff in H.
Qed.

Lemma length_dropFirst_11 (s : string) :
  String.length s = 11 -> String.length (Js.dropFirst s) = 10.
Proof. destruct s; simpl; [discriminate | now intros [= ->]]. Qed.

(** [validatePhoneNumber] accepts exactly the phones that [normalizePhone]
    brings to ten characters, and answers with that normal form. *)
Lemma validatePhoneNumber_normalizePhone (phone : string) :
  validatePhoneNumber phone =
  if (String.length (normalizePhone phone) =? 10)%nat
  then Valid (normalizePhone phone)
  else if (phone =? "")%string then Invalid "Phone number is required"
  else Invalid "Please provide a valid 10-digit US phone number".
Proof.
  unfold validatePhoneNumber, normalizePhone.
  destruct (String.eqb_spec phone "") as [->|Hne]; [reflexivity|].
  set (cl := Js.stripNonDigits phone).
  destruct (String.length cl =? 10)%nat eqn:E10.
  - apply Nat.eqb_eq in E10.
    replace (String.length cl =? 11)%nat with false
      by (symmetry; apply Nat.eqb_neq; lia).
    simpl. apply Nat.eqb_eq in E10. now rewrite E10.
  - destruct (String.length cl =? 11)%nat eqn:E11; simpl.
    + destruct (Js.startsWith "1" cl) eqn:Es.
      * apply Nat.eqb_eq in E11.
        now rewrite (length_dropFirst_11 cl E11).
      * now rewrite E10.
    + now rewrite E10.
Qed.

(** C9.  Phone normalisation keeps the digits of the text in order and drops
    everything else, then drops a leading "1" from an 11-digit result.
    [validatePhoneNumber] accepts a phone exactly when that normal form has
    ten digits and answers with it; every other phone is a validation
    failure, which [searchPatient] reports as such for a phone that was
    supplied.  "555-123-4567" and "15551234567" both give the key
    "5551234567", and [searchPatient] runs the same lookup with that key for
    both, on every store. *)
Theorem phone_normalization :
  (forall phone,
     let digits := Js.stripNonDigits phone in
     list_ascii_of_string digits = filter Js.isDigit (list_ascii_of_string phone)
     /\ normalizePhone phone
        = (if (String.length digits =? 11)%nat && prefix "1" digits
           then Js.dropFirst digits else digits)
     /\ Js.allChars Js.isDigit (normalizePhone phone) = true)
  /\ (forall phone,
        String.length (normalizePhone phone) = 10 ->
        validatePhoneNumber phone = Valid (normalizePhone phone))
  /\ (forall phone,
        String.length (normalizePhone phone) <> 10 ->
        (exists message, validatePhoneNumber phone = Invalid message)
        /\ (phone <> "" ->
            forall name disk, exists message,
              searchPatient phone name disk = SearchInvalid message))
  /\ validatePhoneNumber "555-123-4567" = Valid "5551234567"
  /\ validatePhoneNumber "15551234567" = Valid "5551234567"
  /\ (forall name disk,
        searchPatient "555-123-4567" name disk
        = searchByName disk (findPatientByPhone "5551234567" disk) name
        /\ searchPatient "15551234567" name disk
           = searchByName disk (findPatientByPhone "5551234567" disk) name).
Proof.
  split; [|split; [|split; [|split; [|split]]]].
  - intros phone digits. split; [apply filterChars_list|]. split; [reflexivity|].
    unfold normalizePhone. fold digits.
    assert (Hd : Js.allChars Js.isDigit digits = true) by apply filterChars_all.
    destruct ((String.length digits =? 11)%nat && Js.startsWith "1" digits);
      [now apply allChars_dropFirst | exact Hd].
  - intros phone H. rewrite validatePhoneNumber_normalizePhone.
    apply Nat.eqb_eq in H. now rewrite H.
  - intros phone H.
    assert (Hv : exists message, validatePhoneNumber phone = Invalid message).
    { rewrite validatePhoneNumber_normalizePhone.
      apply Nat.eqb_neq in H. rewrite H.
      destruct (phone =? "")%string; eexists; reflexivity. }
    split; [exact Hv|].
    intros Hne name disk. unfold searchPatient.
    destruct (String.eqb_spec phone "") as [E|_]; [contradiction|].
    destruct Hv as (message & ->). now exists message.
  - reflexivity.
  - reflexivity.
  - intros name disk. split; reflexivity.
Qed.

Lemma phone_normalization_witness :
  normalizePhone "+1 (555) 123-4567" = "5551234567"
  /\ validatePhoneNumber "+1 (555) 123-4567" = Valid "5551234567"
  /\ (exists message, validatePhoneNumber "555-1234" = Invalid message)
  /\ (exists message, searchPatient "555-1234" "John" Sample.fresh = SearchInvalid message).
Proof.
  destruct phone_normalization as (_ & Hok & Hbad & _).
  split; [reflexivity|]. split.
  - apply (Hok "+1 (555) 123-4567"). reflexivity.
  - destruct (Hbad "555-1234") as (Hv & Hs).
    + vm_compute. discriminate.
    + split; [exact Hv|]. apply Hs. discriminate.
Defined.

(* ================================================================== *)
(** ** Book *)
(* ================================================================== *)

(** The releases of the overwrite loop all go to one day: its list keeps
    what it had and gains the times of the overwritten appointments. *)
Lemma openSlots_overwrite_loop (date : string) (chosen : list Appointment) :
  forall (days : list SlotDay) (l : list string),
    openSlots date days = Some l ->
    exists l',
      openSlots date (fold_left (fun ds a => release date (a_time a) ds) chosen days)
      = Some l'
      /\ (forall x, In x l' <-> In x l \/ In x (map a_time chosen))
      /\ (NoDup l -> NoDup l').
Proof.
  induction chosen as [|a rest IH]; intros days l Hl; simpl.
  - exists l. split; [exact Hl|]. split; [intuition | auto].
  - destruct (IH (release date (a_time a) days) (pushSorted (a_time a) l))
      as (l' & Hl' & Hin & Hnd).
    + now rewrite openSlots_release_same, Hl.
    + exists l'. split; [exact Hl'|]. split.
      * intros x. rewrite Hin, pushSorted_In. intuition.
      * intros H. apply Hnd, pushSorted_NoDup, H.
Qed.

Lemma openSlots_overwrite_loop_none (date : string) (chosen : list Appointment) :
  forall (days : list SlotDay),
    openSlots date days = None ->
    fold_left (fun ds a => release date (a_time a) ds) chosen days = days.
Proof.
  induction chosen as [|a rest IH]; intros days Hn; simpl; [reflexivity|].
  assert (E : release date (a_time a) days = days).
  { clear IH. unfold release, openSlots, findDay in *.
    induction days as [|d r IHr]; simpl in *; [reflexivity|].
    destruct (s_date d =? date)%string; [discriminate|].
    now rewrite IHr. }
  rewrite E. now apply IH.
Qed.

(** Releases on one day leave the other days as they are. *)
Lemma openSlots_overwrite_loop_other (date date' : string) (chosen : list Appointment) :
  date <> date' ->
  forall (days : list SlotDay),
    openSlots date' (fold_left (fun ds a => release date (a_time a) ds) chosen days)
    = openSlots date' days.
Proof.
  intros Hne. induction chosen as [|a rest IH]; intros days; simpl; [reflexivity|].
  rewrite IH. unfold release. now apply openSlots_updateDay_other.
Qed.

Lemma find_app_none {A : Type} (p : A -> bool) (l1 l2 : list A) :
  find p l1 = None -> find p (l1 ++ l2) = find p l2.
Proof.
  induction l1 as [|x r IH]; simpl; [reflexivity|].
  destruct (p x); [discriminate | exact IH].
Qed.

Lemma find_none_iff {A : Type} (p : A -> bool) (l : list A) :
  find p l = None <-> forall x, In x l -> p x = false.
Proof.
  split.
  - intros H x Hx. exact (find_none p l H x Hx).
  - induction l as [|y r IH]; simpl; [reflexivity|].
    intros H. rewrite (H y (or_introl eq_refl)). apply IH.
    intros x Hx. apply H. now right.
Qed.

Lemma find_hasId_updateAll (id : string) (p : Appointment -> bool)
    (f : Appointment -> Appointment) (l : list Appointment) :
  (forall a, a_id (f a) = a_id a) ->
  find (hasId id) l = None -> find (hasId id) (updateAll p f l) = None.
Proof.
  intros Hid. rewrite !find_none_iff. intros H x Hx.
  unfold updateAll in Hx. apply in_map_iff in Hx. destruct Hx as (a & <- & Ha).
  specialize (H a Ha). unfold hasId in *.
  destruct (p a); [now rewrite Hid | exact H].
Qed.

(** C6.  A booking for a stored patient under the stored name, for a time
    the day offers, succeeds and the time is then absent from the day's
    list; cancelling the appointment just created (the identifier it was
    given reaches it when no stored appointment carries that identifier
    already) succeeds and the time is in the day's list again, once. *)
Theorem book_cancel_roundtrip (c c2 : Clock)
    (patientId patientName date time type emergencyDetails : string) (disk : Db)
    (patient : Patient) (l : list string) :
  find (fun p => (p_id p =? patientId)%string) (patients disk) = Some patient ->
  p_fullName patient = patientName ->
  openSlots date (availableSlots disk) = Some l ->
  In time l ->
  (forall a, In a (appointments disk) ->
     a_id a <> ("a" ++ Js.padStart0 3 (Js.String_nat (length (appointments disk) + 1)))%string) ->
  exists appointment disk1,
    bookAppointment c patientId patientName date time type emergencyDetails disk
    = (OkAppointment appointment, disk1)
    /\ a_patientId appointment = patientId
    /\ a_date appointment = date /\ a_time appointment = time
    /\ a_status appointment = "scheduled"
    /\ (exists l1, openSlots date (availableSlots disk1) = Some l1 /\ ~ In time l1)
    /\ exists disk2,
         cancelAppointment c2 (a_id appointment) disk1
         = (OkCancelled "Appointment cancelled successfully"
              (summary true (setCancelled (c_iso c2) None appointment)), disk2)
         /\ exists l2, openSlots date (availableSlots disk2) = Some l2
                       /\ In time l2
                       /\ count_occ string_dec l2 time = 1.
Proof.
  intros Hp Hname Hl Hin Hfresh.
  unfold bookAppointment, bookAppointment_body, readDatabase.
  rewrite Hp, Hname, String.eqb_refl. simpl negb. cbv iota.
  set (db1 := overwriteSameDay c patientId date disk).
  destruct (openSlots_overwrite_loop date
              (filter (sameDayOf patientId date) (appointments disk))
              (availableSlots disk) l Hl) as (l' & Hl' & Hin' & _).
  change (openSlots date (availableSlots db1) = Some l') in Hl'.
  destruct (findDay_openSlots _ _ _ Hl') as (d & Hd & Hsl).
  rewrite Hd.
  assert (Hinc : Js.includes time (s_slots d) = true).
  { apply includes_In. rewrite Hsl. apply Hin'. now left. }
  rewrite Hinc. simpl negb. cbv iota.
  set (appointment :=
         newAppointment c db1 patientId patientName date time type emergencyDetails).
  unfold commit, writeDatabase. cbn [patients appointments availableSlots emergencyAlerts].
  eexists. eexists. split; [reflexivity|].
  split; [reflexivity|]. split; [reflexivity|]. split; [reflexivity|].
  split; [reflexivity|]. split.
  - cbn [availableSlots]. rewrite openSlots_updateDay_same, Hl'. simpl.
    eexists. split; [reflexivity | apply removeSlot_gone].
  - assert (Hfind : find (hasId (a_id appointment)) (appointments db1 ++ [appointment])
                    = Some appointment).
    { rewrite find_app_none.
      - simpl. unfold hasId. now rewrite String.eqb_refl.
      - apply find_hasId_updateAll; [reflexivity|].
        apply find_none_iff. intros a Ha. unfold hasId.
        apply String.eqb_neq. subst appointment. simpl.
        unfold db1. simpl. rewrite length_updateAll. apply Hfresh, Ha. }
    unfold cancelAppointment, cancelAppointment_body, readDatabase.
    cbn [appointments]. rewrite Hfind.
    replace (a_status appointment =? "cancelled")%string with false by reflexivity.
    unfold commit, writeDatabase.
    cbn [patients appointments availableSlots emergencyAlerts].
    eexists. split; [reflexivity|].
    replace (a_date appointment) with date by reflexivity.
    replace (a_time appointment) with time by reflexivity.
    cbn [availableSlots].
    rewrite openSlots_release_same, openSlots_updateDay_same, Hl'. simpl.
    eexists. split; [reflexivity|]. split.
    + apply pushSorted_has.
    + apply count_occ_pushSorted, removeSlot_gone.
Qed.

Lemma book_cancel_roundtrip_witness :
  exists appointment disk1 disk2,
    bookAppointment Sample.clock "p001" "John Doe" "2025-10-25" "2:00 PM" "Cleaning" ""
      Sample.fresh
    = (OkAppointment appointment, disk1)
    /\ openSlots "2025-10-25" (availableSlots disk1) = Some ["9:00 AM"; "10:00 AM"]
    /\ cancelAppointment Sample.clockLater (a_id appointment) disk1
       = (OkCancelled "Appointment cancelled successfully"
            (summary true (setCancelled (c_iso Sample.clockLater) None appointment)),
          disk2)
    /\ openSlots "2025-10-25" (availableSlots disk2)
       = Some ["10:00 AM"; "2:00 PM"; "9:00 AM"].
Proof.
  destruct (book_cancel_roundtrip Sample.clock Sample.clockLater
              "p001" "John Doe" "2025-10-25" "2:00 PM" "Cleaning" "" Sample.fresh
              Sample.john ["9:00 AM"; "10:00 AM"; "2:00 PM"])
    as (appointment & disk1 & Hbook & _ & _ & _ & _ & _ & disk2 & Hcancel & _).
  - reflexivity.
  - reflexivity.
  - reflexivity.
  - simpl. right. right. left. reflexivity.
  - intros a [].
  - exists appointment, disk1, disk2.
    split; [exact Hbook|].
    injection Hbook as <- <-.
    split; [reflexivity|]. split; [exact Hcancel|].
    injection Hcancel as <-. reflexivity.
Defined.

Lemma filter_updateAll_sameDay (c : Clock) (patientId date : string) (reason : option string)
    (l : list Appointment) :
  filter (sameDayOf patientId date)
    (updateAll (sameDayOf patientId date) (setCancelled (c_iso c) reason) l) = [].
Proof.
  induction l as [|a r IH]; simpl; [reflexivity|].
  destruct (sameDayOf patientId date a) eqn:E.
  - replace (sameDayOf patientId date (setCancelled (c_iso c) reason a)) with false.
    + exact IH.
    + unfold sameDayOf. rewrite isActive_setCancelled. now rewrite andb_false_r.
  - rewrite E. exact IH.
Qed.

(** What a successful [bookAppointment] has run through. *)
Lemma bookAppointment_success (c : Clock)
    (patientId patientName date time type emergencyDetails : string)
    (disk : Db) (r : Result) (disk' : Db) :
  bookAppointment c patientId patientName date time type emergencyDetails disk = (r, disk') ->
  success r = true ->
  let db1 := overwriteSameDay c patientId date disk in
  let appointment :=
    newAppointment c db1 patientId patientName date time type emergencyDetails in
  r = OkAppointment appointment
  /\ disk' = {| patients := patients db1;
                appointments := appointments db1 ++ [appointment];
                availableSlots := updateDay date (removeSlot time) (availableSlots db1);
                emergencyAlerts := emergencyAlerts db1 |}
  /\ exists l1, openSlots date (availableSlots db1) = Some l1 /\ In time l1.
Proof.
  unfold bookAppointment, bookAppointment_body, readDatabase.
  destruct (find _ (patients disk)) as [patient|];
    [|simpl; intros [= <- _] H; discriminate H].
  destruct (negb (p_fullName patient =? patientName)%string);
    [simpl; intros [= <- _] H; discriminate H|].
  destruct (findDay date (availableSlots (overwriteSameDay c patientId date disk)))
    as [d|] eqn:Hd; [|simpl; intros [= <- _] H; discriminate H].
  destruct (Js.includes time (s_slots d)) eqn:Hinc;
    [|simpl; intros [= <- _] H; discriminate H].
  simpl. intros [= <- <-] _. split; [reflexivity|]. split; [reflexivity|].
  exists (s_slots d). split; [now apply openSlots_findDay | now apply includes_In].
Qed.

(** C3.  When [bookAppointment] succeeds, every appointment of that patient
    on that date that was not cancelled is, at its place in the ledger,
    cancelled with reason "overwritten_by_new_booking"; its time is in the
    day's list once the overwrite step is done, and still is in the end
    unless it is the time just booked.  All other appointments stay as they
    were, and afterwards the only non-cancelled appointment of the patient on
    that date is the new one, whose status is "scheduled". *)
Theorem book_overwrites_same_day (c : Clock)
    (patientId patientName date time type emergencyDetails : string)
    (disk : Db) (r : Result) (disk' : Db) :
  bookAppointment c patientId patientName date time type emergencyDetails disk = (r, disk') ->
  success r = true ->
  exists appointment,
    r = OkAppointment appointment
    /\ a_status appointment = "scheduled"
    /\ a_patientId appointment = patientId
    /\ a_date appointment = date /\ a_time appointment = time
    /\ (forall i a,
          nth_error (appointments disk) i = Some a ->
          sameDayOf patientId date a = true ->
          exists a',
            nth_error (appointments disk') i = Some a'
            /\ a_id a' = a_id a /\ a_date a' = a_date a /\ a_time a' = a_time a
            /\ a_status a' = "cancelled"
            /\ a_cancelReason a' = Some "overwritten_by_new_booking"
            /\ (exists l1,
                  openSlots date (availableSlots (overwriteSameDay c patientId date disk))
                  = Some l1 /\ In (a_time a) l1)
            /\ (a_time a <> time ->
                exists l', openSlots date (availableSlots disk') = Some l'
                           /\ In (a_time a) l'))
    /\ (forall i a,
          nth_error (appointments disk) i = Some a ->
          sameDayOf patientId date a = false ->
          nth_error (appointments disk') i = Some a)
    /\ filter (sameDayOf patientId date) (appointments disk') = [appointment].
Proof.
  intros Hrun Hs.
  destruct (bookAppointment_success _ _ _ _ _ _ _ _ _ _ Hrun Hs)
    as (-> & -> & l1 & Hl1 & Hin1).
  eexists. split; [reflexivity|].
  split; [reflexivity|]. split; [reflexivity|]. split; [reflexivity|].
  split; [reflexivity|].
  assert (Hnth : forall i a, nth_error (appointments disk) i = Some a ->
            nth_error (appointments (overwriteSameDay c patientId date disk) ++
                       [newAppointment c (overwriteSameDay c patientId date disk)
                          patientId patientName date time type emergencyDetails]) i
            = Some (if sameDayOf patientId date a
                    then setCancelled (c_iso c) (Some "overwritten_by_new_booking") a
                    else a)).
  { intros i a Ha. rewrite nth_error_app1.
    - cbn [overwriteSameDay appointments]. now rewrite nth_error_updateAll, Ha.
    - cbn [overwriteSameDay appointments]. rewrite length_updateAll.
      apply nth_error_Some. congruence. }
  split; [|split].
  - intros i a Ha Hsame. cbn [appointments availableSlots].
    eexists. split; [rewrite (Hnth i a Ha), Hsame; reflexivity|].
    repeat split.
    + (* the overwrite step has released the time *)
      destruct (openSlots date (availableSlots disk)) as [l0|] eqn:Hl0.
      * destruct (openSlots_overwrite_loop date
                    (filter (sameDayOf patientId date) (appointments disk))
                    (availableSlots disk) l0 Hl0) as (l' & Hl' & Hin' & _).
        exists l'. split; [exact Hl'|]. apply Hin'. right.
        apply in_map, filter_In. split; [|exact Hsame].
        eapply nth_error_In, Ha.
      * cbn [overwriteSameDay availableSlots] in Hl1.
        rewrite openSlots_overwrite_loop_none in Hl1 by exact Hl0. congruence.
    + intros Hne. rewrite openSlots_updateDay_same, Hl1. simpl.
      eexists. split; [reflexivity|]. apply removeSlot_In. split; [|exact Hne].
      destruct (openSlots date (availableSlots disk)) as [l0|] eqn:Hl0.
      * destruct (openSlots_overwrite_loop date
                    (filter (sameDayOf patientId date) (appointments disk))
                    (availableSlots disk) l0 Hl0) as (l' & Hl' & Hin' & _).
        cbn [overwriteSameDay availableSlots] in Hl1.
        rewrite Hl' in Hl1. injection Hl1 as <-.
        apply Hin'. right. apply in_map, filter_In. split; [|exact Hsame].
        eapply nth_error_In, Ha.
      * cbn [overwriteSameDay availableSlots] in Hl1.
        rewrite openSlots_overwrite_loop_none in Hl1 by exact Hl0. congruence.
  - intros i a Ha Hsame. cbn [appointments].
    now rewrite (Hnth i a Ha), Hsame.
  - cbn [appointments overwriteSameDay]. rewrite filter_app, filter_updateAll_sameDay.
    simpl. unfold sameDayOf, isActive. cbn [newAppointment a_patientId a_date a_status].
    now rewrite !String.eqb_refl.
Qed.

Lemma book_overwrites_same_day_witness :
  exists appointment disk',
    bookAppointment Sample.clock "p001" "John Doe" "2025-10-25" "9:00 AM" "Cleaning" ""
      Sample.johnBooked
    = (OkAppointment appointment, disk')
    /\ map (fun a => (a_time a, a_status a, a_cancelReason a)) (appointments disk')
       = [ ("2:00 PM", "cancelled", Some "overwritten_by_new_booking");
           ("9:00 AM", "scheduled", None) ]
    /\ openSlots "2025-10-25" (availableSlots disk') = Some ["10:00 AM"; "2:00 PM"]
    /\ filter (sameDayOf "p001" "2025-10-25") (appointments disk') = [appointment].
Proof.
  destruct (bookAppointment Sample.clock "p001" "John Doe" "2025-10-25" "9:00 AM"
              "Cleaning" "" Sample.johnBooked) as [r disk'] eqn:Hrun.
  destruct (book_overwrites_same_day Sample.clock "p001" "John Doe" "2025-10-25"
              "9:00 AM" "Cleaning" "" Sample.johnBooked r disk' Hrun)
    as (appointment & Hr & _ & _ & _ & _ & _ & _ & Hone).
  - injection Hrun as <- _. reflexivity.
  - exists appointment, disk'. split; [now rewrite Hr|].
    injection Hrun as _ <-. split; [reflexivity|]. split; [reflexivity | exact Hone].
Defined.

(* ================================================================== *)
(** ** Emergency notifier *)
(* ================================================================== *)

Section Emergency.

Variable Date_parse : string -> option Z.

Lemma existsb_recentFor (c : Clock) (phone : string) (alerts : list EmergencyAlert) :
  existsb (recentFor Date_parse c phone) alerts = true <->
  exists alert t,
    In alert alerts /\ e_contactPhone alert = phone
    /\ Date_parse (e_alertedAt alert) = Some t /\ (c_now c - tenMinutes <= t)%Z.
Proof.
  rewrite existsb_exists. unfold recentFor. split.
  - intros (alert & Hin & H). apply andb_true_iff in H. destruct H as [Hp Ht].
    apply String.eqb_eq in Hp.
    destruct (Date_parse (e_alertedAt alert)) as [t|] eqn:Hd; [|discriminate].
    exists alert, t. split; [exact Hin|]. split; [exact Hp|].
    split; [exact Hd | now apply Z.leb_le].
  - intros (alert & t & Hin & Hp & Hd & Ht). exists alert. split; [exact Hin|].
    rewrite Hd, Hp, String.eqb_refl. simpl. now apply Z.leb_le.
Qed.

(** C8.  For a notification that passes validation: when a stored alert
    carries the normalised contact phone and a timestamp in the trailing ten
    minutes, the answer is a success and the files are left as they were;
    when no stored alert does, exactly one alert is appended, with status
    "pending" and that phone.  Stored timestamps are taken not to lie after
    the clock reading.  Consequently a second notification for the same
    phone at most ten minutes after one that was stored stores nothing, so
    two such calls on an empty alert store leave exactly one alert. *)
Theorem emergency_dedup (c : Clock) (patientName emergencyDetails contactPhone : string)
    (nameN phoneN : string) (disk : Db) :
  validatePatientName patientName = Valid nameN ->
  validatePhoneNumber contactPhone = Valid phoneN ->
  5 <= String.length (Js.trim emergencyDetails) ->
  (forall alert t, In alert (emergencyAlerts disk) ->
     Date_parse (e_alertedAt alert) = Some t -> (t <= c_now c)%Z) ->
  let inWindow alert :=
    e_contactPhone alert = phoneN /\
    exists t, Date_parse (e_alertedAt alert) = Some t
              /\ (c_now c - 10 * 60 * 1000 <= t <= c_now c)%Z in
  ((exists alert, In alert (emergencyAlerts disk) /\ inWindow alert) ->
   exists message,
     notifyStaffEmergency Date_parse c patientName emergencyDetails contactPhone disk
     = (OkMessage message, disk))
  /\
  ((forall alert, In alert (emergencyAlerts disk) -> ~ inWindow alert) ->
   exists message alert disk',
     notifyStaffEmergency Date_parse c patientName emergencyDetails contactPhone disk
     = (OkMessage message, disk')
     /\ emergencyAlerts disk' = emergencyAlerts disk ++ [alert]
     /\ e_status alert = "pending"
     /\ e_contactPhone alert = phoneN
     /\ e_patientName alert = nameN
     /\ e_alertedAt alert = c_iso c
     /\ patients disk' = patients disk
     /\ appointments disk' = appointments disk
     /\ availableSlots disk' = availableSlots disk)
  /\
  (forall c2 contactPhone2,
     validatePhoneNumber contactPhone2 = Valid phoneN ->
     Date_parse (c_iso c) = Some (c_now c) ->
     (c_now c <= c_now c2 <= c_now c + 10 * 60 * 1000)%Z ->
     (forall alert, In alert (emergencyAlerts disk) -> ~ inWindow alert) ->
     let disk1 :=
       snd (notifyStaffEmergency Date_parse c patientName emergencyDetails contactPhone
              disk) in
     exists message,
       notifyStaffEmergency Date_parse c2 patientName emergencyDetails contactPhone2 disk1
       = (OkMessage message, disk1)
       /\ length (emergencyAlerts disk1) = S (length (emergencyAlerts disk))).
Proof.
  intros Hn Hp Hd Hpast inWindow.
  assert (Hrecent : existsb (recentFor Date_parse c phoneN) (emergencyAlerts disk) = true
                    <-> exists alert, In alert (emergencyAlerts disk) /\ inWindow alert).
  { rewrite existsb_recentFor. unfold inWindow, tenMinutes. split.
    - intros (alert & t & Hin & Hph & Ht & Hle). exists alert. split; [exact Hin|].
      split; [exact Hph|]. exists t. split; [exact Ht|].
      specialize (Hpast alert t Hin Ht). lia.
    - intros (alert & Hin & Hph & t & Ht & Hle). exists alert, t.
      split; [exact Hin|]. split; [exact Hph|]. split; [exact Ht | lia]. }
  assert (Hlen : (String.length (Js.trim emergencyDetails) <? 5)%nat = false)
    by (apply Nat.ltb_ge; exact Hd).
  assert (Hfirst :
    (forall alert, In alert (emergencyAlerts disk) -> ~ inWindow alert) ->
    notifyStaffEmergency Date_parse c patientName emergencyDetails contactPhone disk
    = (OkMessage ("EMERGENCY ALERT: Our dental team has been notified about "
                  ++ nameN ++ "'s emergency (" ++ Js.trim emergencyDetails
                  ++ "). They are preparing to provide immediate care."),
       {| patients := patients disk; appointments := appointments disk;
          availableSlots := availableSlots disk;
          emergencyAlerts :=
            emergencyAlerts disk
            ++ [newAlert c nameN (Js.trim emergencyDetails) phoneN] |})).
  { intros Hnone.
    unfold notifyStaffEmergency, notifyStaffEmergency_body, readDatabase.
    rewrite Hn, Hp, Hlen.
    destruct (existsb (recentFor Date_parse c phoneN) (emergencyAlerts disk)) eqn:E.
    - destruct (proj1 Hrecent eq_refl) as (alert & Hin & Hw).
      exfalso. exact (Hnone alert Hin Hw).
    - reflexivity. }
  split; [|split].
  - intros Hex. apply Hrecent in Hex.
    unfold notifyStaffEmergency, notifyStaffEmergency_body, readDatabase.
    rewrite Hn, Hp, Hlen, Hex. simpl. eexists. reflexivity.
  - intros Hnone. rewrite (Hfirst Hnone).
    eexists. eexists. eexists. split; [reflexivity|].
    cbn [emergencyAlerts patients appointments availableSlots].
    split; [reflexivity|]. repeat split.
  - intros c2 contactPhone2 Hp2 Hiso Hwin Hnone disk1.
    unfold disk1. rewrite (Hfirst Hnone). cbn [snd].
    unfold notifyStaffEmergency, notifyStaffEmergency_body, readDatabase.
    rewrite Hn, Hp2, Hlen. cbn [emergencyAlerts].
    replace (existsb (recentFor Date_parse c2 phoneN)
               (emergencyAlerts disk
                ++ [newAlert c nameN (Js.trim emergencyDetails) phoneN])) with true.
    + simpl. eexists. split; [reflexivity|].
      rewrite length_app. simpl. lia.
    + symmetry. rewrite existsb_app. apply orb_true_iff. right.
      simpl. unfold recentFor. cbn [newAlert e_contactPhone e_alertedAt].
      rewrite String.eqb_refl, Hiso. simpl. rewrite orb_false_r.
      apply Z.leb_le. unfold tenMinutes. lia.
Qed.

End Emergency.

Lemma emergency_dedup_witness :
  exists message1 message2 alert disk1,
    notifyStaffEmergency IsoDate.parse Sample.clock "Mary Major" "broken tooth"
      "5551234567" Sample.fresh
    = (OkMessage message1, disk1)
    /\ emergencyAlerts disk1 = [alert]
    /\ e_status alert = "pending"
    /\ notifyStaffEmergency IsoDate.parse Sample.clockLater "Mary Major" "broken tooth"
         "(555) 123-4567" disk1
       = (OkMessage message2, disk1).
Proof.
  destruct (emergency_dedup IsoDate.parse Sample.clock "Mary Major" "broken tooth"
              "5551234567" "Mary Major" "5551234567" Sample.fresh)
    as (_ & Hnew & Htwice).
  - reflexivity.
  - reflexivity.
  - vm_compute. lia.
  - intros alert t [].
  - destruct Hnew as (message1 & alert & disk1 & Hrun & Halerts & Hst & _).
    + intros alert [].
    + destruct (Htwice Sample.clockLater "(555) 123-4567") as (message2 & Hrun2 & _).
      * reflexivity.
      * reflexivity.
      * vm_compute. split; discriminate.
      * intros alert0 [].
      * rewrite Hrun in Hrun2. cbn [snd] in Hrun2.
        exists message1, message2, alert, disk1.
        split; [exact Hrun|]. split; [exact Halerts|]. split; [exact Hst | exact Hrun2].
Defined.

(* ================================================================== *)
(** ** Family booking: the party does not fit *)
(* ================================================================== *)

Section Family.

Variable Date_parse : string -> option Z.

Lemma laterThan_irrefl (d : string) : laterThan Date_parse d d = false.
Proof.
  unfold laterThan. destruct (Date_parse d); [apply Z.ltb_irrefl | reflexivity].
Qed.

Lemma laterThan_asym (a b : string) :
  laterThan Date_parse a b = true -> laterThan Date_parse b a = false.
Proof.
  unfold laterThan. destruct (Date_parse a), (Date_parse b); try discriminate.
  intros H. apply Z.ltb_lt in H. apply Z.ltb_ge. lia.
Qed.

Lemma isAlternative_preferred (needed : nat) (preferredDate : string) (s : SlotDay) :
  s_date s = preferredDate -> isAlternative Date_parse needed preferredDate s = false.
Proof.
  intros E. unfold isAlternative. now rewrite E, laterThan_irrefl.
Qed.

(** An assignment to the preferred day's list does not change which day the
    forward search finds: the preferred day is not later than itself. *)
Lemma find_alternative_updateDay (needed : nat) (preferredDate : string)
    (f : list string -> list string) (days : list SlotDay) :
  find (isAlternative Date_parse needed preferredDate) (updateDay preferredDate f days)
  = find (isAlternative Date_parse needed preferredDate) days.
Proof.
  induction days as [|d rest IH]; simpl; [reflexivity|].
  destruct (String.eqb_spec (s_date d) preferredDate) as [E|Hne]; simpl.
  - rewrite !isAlternative_preferred by (simpl; exact E). reflexivity.
  - now rewrite IH.
Qed.

Lemma find_alternative_preempt (c : Clock) (needed : nat) (primaryPatientId : string)
    (primary : Patient) (familyMembers : list FamilyMember) (preferredDate : string)
    (db : Db) :
  find (isAlternative Date_parse needed preferredDate)
    (availableSlots (preemptFamily c primaryPatientId primary familyMembers preferredDate db))
  = find (isAlternative Date_parse needed preferredDate) (availableSlots db).
Proof.
  cbn [preemptFamily availableSlots].
  generalize (availableSlots db).
  induction (filter _ (appointments db)) as [|a rest IH]; intros days; simpl;
    [reflexivity|].
  rewrite IH. apply find_alternative_updateDay.
Qed.

Lemma find_split {A : Type} (p : A -> bool) (l : list A) (x : A) :
  find p l = Some x ->
  exists l1 l2, l = l1 ++ x :: l2 /\ p x = true /\ forall y, In y l1 -> p y = false.
Proof.
  induction l as [|y r IH]; simpl; [discriminate|].
  destruct (p y) eqn:E.
  - intros [= ->]. exists [], r. split; [reflexivity|]. split; [exact E | intros ? []].
  - intros H. destruct (IH H) as (l1 & l2 & -> & Hx & Hl1).
    exists (y :: l1), l2. split; [reflexivity|]. split; [exact Hx|].
    intros z [<-|Hz]; [exact E | now apply Hl1].
Qed.

Lemma StronglySorted_after {A : Type} (R : A -> A -> Prop) (l1 l2 : list A) (x : A) :
  StronglySorted R (l1 ++ x :: l2) -> Forall (R x) l2.
Proof.
  induction l1 as [|y r IH]; simpl; intros H; inversion H; subst; auto.
Qed.

(** In a store kept in ascending date order the day the forward search finds
    is the nearest one. *)
Lemma first_alternative_nearest (needed : nat) (preferredDate : string)
    (days : list SlotDay) (s : SlotDay) :
  datesAscending Date_parse days ->
  find (isAlternative Date_parse needed preferredDate) days = Some s ->
  nearestAlternative Date_parse needed preferredDate days s.
Proof.
  intros Hsorted Hfind.
  destruct (find_split _ _ _ Hfind) as (l1 & l2 & -> & Hs & Hbefore).
  split; [apply in_elt|]. split; [exact Hs|].
  intros s' Hin Halt. apply in_app_or in Hin. destruct Hin as [Hin|[<-|Hin]].
  - rewrite (Hbefore s' Hin) in Halt. discriminate.
  - apply laterThan_irrefl.
  - apply laterThan_asym.
    pose proof (StronglySorted_after _ _ _ _ Hsorted) as Hall.
    rewrite Forall_forall in Hall. exact (Hall s' Hin).
Qed.

(** C4 (amended).  For a family booking request that passes validation
    (the primary patient is stored, there is at least one family member and
    every entry is well formed) with N members, when the preferred day has
    fewer than N+1 open slots after the pre-emption step: if the store has a
    day strictly later than the preferred date with at least N+1 open
    slots, the answer is the insufficient-slots failure carrying the first
    such day in stored order and that day's first N+1 slots, and this day is
    the nearest one when the store lists its days in ascending date order;
    if the store has no such day, the answer is the generic capacity
    failure.  In both cases nothing is booked and the files are unchanged. *)
Theorem family_insufficient_alternative (c : Clock) (primaryPatientId : string)
    (familyMembers : list FamilyMember) (preferredDate timing primaryType : string)
    (disk : Db) (primary : Patient) :
  find (fun p => (p_id p =? primaryPatientId)%string) (patients disk) = Some primary ->
  familyMembers <> [] ->
  firstMemberError familyMembers = None ->
  let needed := length familyMembers + 1 in
  let db1 := preemptFamily c primaryPatientId primary familyMembers preferredDate disk in
  let open :=
    match openSlots preferredDate (availableSlots db1) with Some l => l | None => [] end in
  length open < needed ->
  ((exists s, In s (availableSlots disk)
              /\ isAlternative Date_parse needed preferredDate s = true) ->
   exists s message,
     find (isAlternative Date_parse needed preferredDate) (availableSlots disk) = Some s
     /\ bookFamilyAppointments Date_parse c primaryPatientId familyMembers preferredDate
          timing primaryType disk
        = (FailInsufficient open (s_date s) (firstn needed (s_slots s)) message, disk)
     /\ In s (availableSlots disk)
     /\ isAlternative Date_parse needed preferredDate s = true
     /\ (datesAscending Date_parse (availableSlots disk) ->
         nearestAlternative Date_parse needed preferredDate (availableSlots disk) s))
  /\
  ((forall s, In s (availableSlots disk) ->
              isAlternative Date_parse needed preferredDate s = false) ->
   bookFamilyAppointments Date_parse c primaryPatientId familyMembers preferredDate
     timing primaryType disk
   = (Fail genericCapacityMessage, disk)).
Proof.
  intros Hp Hne Hvalid needed db1 open Hshort.
  assert (Hbody :
    bookFamilyAppointments_body Date_parse c primaryPatientId familyMembers preferredDate
      timing primaryType disk
    = insufficient Date_parse familyMembers preferredDate
        (findDay preferredDate (availableSlots db1)) db1).
  { unfold bookFamilyAppointments_body. rewrite Hp.
    destruct familyMembers as [|m ms]; [contradiction|].
    cbn [length Nat.eqb]. rewrite Hvalid.
    fold db1. unfold open, openSlots in Hshort.
    destruct (findDay preferredDate (availableSlots db1)) as [d|]; [|reflexivity].
    simpl in Hshort. apply Nat.ltb_lt in Hshort. unfold needed in Hshort.
    cbn [length] in Hshort. now rewrite Hshort. }
  assert (Hopen : match findDay preferredDate (availableSlots db1) with
                  | Some d => s_slots d | None => [] end = open).
  { unfold open, openSlots. now destruct (findDay preferredDate (availableSlots db1)). }
  unfold bookFamilyAppointments, readDatabase. rewrite Hbody.
  unfold insufficient. rewrite Hopen.
  change (fun s : SlotDay =>
            laterThan Date_parse (s_date s) preferredDate
            && (length familyMembers + 1 <=? length (s_slots s))%nat)
    with (isAlternative Date_parse needed preferredDate).
  assert (Hsame :
    find (isAlternative Date_parse needed preferredDate) (availableSlots db1)
    = find (isAlternative Date_parse needed preferredDate) (availableSlots disk))
    by apply find_alternative_preempt.
  rewrite Hsame. clear Hsame.
  split.
  - intros (s0 & Hin0 & Halt0).
    destruct (find (isAlternative Date_parse needed preferredDate) (availableSlots disk))
      as [s|] eqn:Hfind.
    + exists s. eexists. split; [reflexivity|]. split; [reflexivity|].
      destruct (find_some _ _ Hfind) as [Hin Halt].
      split; [exact Hin|]. split; [exact Halt|].
      intros Hsorted. now apply first_alternative_nearest.
    + rewrite (find_none _ _ Hfind s0 Hin0) in Halt0. discriminate.
  - intros Hnone.
    destruct (find (isAlternative Date_parse needed preferredDate) (availableSlots disk))
      as [s|] eqn:Hfind; [|reflexivity].
    destruct (find_some _ _ Hfind) as [Hin Halt].
    rewrite (Hnone s Hin) in Halt. discriminate.
Qed.

End Family.

Lemma datesAscending_sample :
  datesAscending IsoDate.parse (availableSlots Sample.fresh).
Proof.
  unfold datesAscending. simpl.
  repeat (constructor; [|repeat constructor]). constructor.
Qed.

Lemma family_insufficient_alternative_witness :
  exists message,
    bookFamilyAppointments IsoDate.parse Sample.clock "p001"
      [Sample.jane; Sample.jane] "2025-10-24" "back-to-back" "Cleaning" Sample.fresh
    = (FailInsufficient [] "2025-10-25" ["9:00 AM"; "10:00 AM"; "2:00 PM"] message,
       Sample.fresh)
    /\ nearestAlternative IsoDate.parse 3 "2025-10-24" (availableSlots Sample.fresh)
         {| s_date := "2025-10-25"; s_slots := ["9:00 AM"; "10:00 AM"; "2:00 PM"] |}.
Proof.
  destruct (family_insufficient_alternative IsoDate.parse Sample.clock "p001"
              [Sample.jane; Sample.jane] "2025-10-24" "back-to-back" "Cleaning"
              Sample.fresh Sample.john) as [Hsome _].
  - reflexivity.
  - discriminate.
  - reflexivity.
  - simpl. lia.
  - destruct Hsome as (s & message & Hfind & Hrun & _ & _ & Hnear).
    + eexists. split; [left; reflexivity | reflexivity].
    + injection Hfind as <-. exists message. split; [exact Hrun|].
      apply Hnear, datesAscending_sample.
Defined.

(** C4 as stated fails.  The store holds the 30th before the 26th; both are
    later than the preferred 25th and have two open slots.  The answer
    carries the 30th, the first in stored order, and the 26th is nearer. *)
Lemma family_alternative_not_nearest :
  (exists message,
     bookFamilyAppointments IsoDate.parse Sample.clock "p001" [Sample.jane]
       "2025-10-25" "back-to-back" "Cleaning" Sample.unordered
     = (FailInsufficient ["9:00 AM"] "2025-10-30" ["9:00 AM"; "10:00 AM"] message,
        Sample.unordered))
  /\ (forall s, s_date s = "2025-10-30" ->
        ~ nearestAlternative IsoDate.parse 2 "2025-10-25"
            (availableSlots Sample.unordered) s)
  /\ nearestAlternative IsoDate.parse 2 "2025-10-25" (availableSlots Sample.unordered)
       {| s_date := "2025-10-26"; s_slots := ["9:00 AM"; "10:00 AM"] |}.
Proof.
  split; [eexists; reflexivity|]. split.
  - intros s Hs (_ & _ & Hmin).
    specialize (Hmin {| s_date := "2025-10-26"; s_slots := ["9:00 AM"; "10:00 AM"] |}).
    rewrite Hs in Hmin.
    assert (H : laterThan IsoDate.parse "2025-10-30" "2025-10-26" = false).
    { apply Hmin; [simpl; auto | reflexivity]. }
    discriminate H.
  - split; [simpl; auto|]. split; [reflexivity|].
    intros s' [<-|[<-|[<-|[]]]] H; try reflexivity; discriminate H.
Qed.

(* ================================================================== *)
(** ** Family booking: allocation *)
(* ================================================================== *)

Lemma skipn_nth_error {A : Type} (l : list A) (i : nat) (x : A) :
  nth_error l i = Some x -> skipn i l = x :: skipn (S i) l.
Proof.
  revert i. induction l as [|y r IH]; intros [|i]; simpl; try discriminate.
  - now intros [= ->].
  - intros H. now rewrite (IH i H).
Qed.

Lemma memberError_type (m : FamilyMember) :
  memberError m = None -> m_appointmentType m <> "".
Proof.
  unfold memberError.
  destruct (String.length (Js.trim (m_name m)) <? 2)%nat; [discriminate|].
  destruct (String.length (Js.trim (m_relationship m)) <? 2)%nat; [discriminate|].
  destruct (String.length (Js.trim (m_appointmentType m)) <? 2)%nat eqn:E; [discriminate|].
  intros _ Heq. rewrite Heq in E. discriminate E.
Qed.

Lemma firstMemberError_all (ms : list FamilyMember) :
  firstMemberError ms = None -> Forall (fun m => memberError m = None) ms.
Proof.
  induction ms as [|m r IH]; simpl; [constructor|].
  destruct (memberError m) eqn:E; [discriminate|].
  intros H. constructor; [exact E | exact (IH H)].
Qed.

Lemma bookedType_valid (ms : list FamilyMember) :
  firstMemberError ms = None -> map bookedType ms = map m_appointmentType ms.
Proof.
  intros H. apply firstMemberError_all in H.
  induction H as [|m r Hm _ IH]; simpl; [reflexivity|].
  rewrite IH. f_equal. unfold bookedType.
  destruct (String.eqb_spec (m_appointmentType m) ""); [|reflexivity].
  now apply memberError_type in Hm.
Qed.

(** The allocation loop when the day has a slot for every member still to
    be served: one appointment per member, in listed order, on consecutive
    entries of the list. *)
Lemma familyLoop_serves_all (c : Clock) (primary : Patient) (preferredDate : string)
    (slots : list string) (members : list FamilyMember) :
  forall st : FamilyLoop,
    fl_index st + length members <= length slots ->
    exists added,
      let st' := familyLoop c primary preferredDate slots members st in
      fl_booked st' = fl_booked st ++ added
      /\ fl_appointments st' = fl_appointments st ++ added
      /\ map a_time added = firstn (length members) (skipn (fl_index st) slots)
      /\ map a_patientName added = map m_name members
      /\ map a_type added = map bookedType members
      /\ map a_relationship added = map (fun m => Some (m_relationship m)) members
      /\ Forall (fun a => a_date a = preferredDate /\ a_status a = "confirmed") added.
Proof.
  induction members as [|m rest IH]; intros st Hlen.
  - exists []. simpl. rewrite !app_nil_r. repeat split. constructor.
  - simpl in Hlen.
    destruct (nth_error slots (fl_index st)) as [time|] eqn:Hnth.
    2:{ apply nth_error_None in Hnth. lia. }
    simpl familyLoop. rewrite Hnth.
    match goal with
    | |- context [familyLoop c primary preferredDate slots rest ?s] =>
        destruct (IH s) as (added & Hb & Ha & Ht & Hn & Hty & Hr & Hall)
    end.
    + simpl. lia.
    + eexists (_ :: added). cbn zeta in *. cbn [fl_booked fl_appointments fl_index] in *.
      rewrite Hb, Ha, <- !app_assoc. simpl app.
      split; [reflexivity|]. split; [reflexivity|].
      split; [|split; [|split; [|split]]].
      * rewrite (skipn_nth_error _ _ _ Hnth). simpl. now rewrite Ht.
      * simpl. now rewrite Hn.
      * simpl. now rewrite Hty.
      * simpl. now rewrite Hr.
      * constructor; [split; reflexivity | exact Hall].
Qed.

Section Allocation.

Variable Date_parse : string -> option Z.

(** C5 (amended).  For a family booking request that passes validation,
    with N members (N at least 1), on a preferred day that has at least N+1
    open slots after the pre-emption step, [bookFamilyAppointments]
    succeeds: it appends exactly N+1 appointments to the ledger, the first
    for the primary patient, with type [primaryType], at the first entry of
    the day's list in stored order, the following ones for the family
    members in listed order at the following entries, each with the member's
    name, relationship and appointment type; and the day's list afterwards
    is the old list without exactly those first N+1 entries. *)
Theorem family_allocation (c : Clock) (primaryPatientId : string)
    (familyMembers : list FamilyMember) (preferredDate timing primaryType : string)
    (disk : Db) (primary : Patient) (l : list string) :
  find (fun p => (p_id p =? primaryPatientId)%string) (patients disk) = Some primary ->
  familyMembers <> [] ->
  firstMemberError familyMembers = None ->
  let db1 := preemptFamily c primaryPatientId primary familyMembers preferredDate disk in
  openSlots preferredDate (availableSlots db1) = Some l ->
  length familyMembers + 1 <= length l ->
  exists first rest message details disk',
    bookFamilyAppointments Date_parse c primaryPatientId familyMembers preferredDate
      timing primaryType disk
    = (OkFamily (first :: rest) (length familyMembers) message details, disk')
    /\ length (first :: rest) = length familyMembers + 1
    /\ appointments disk' = appointments db1 ++ first :: rest
    /\ a_patientId first = primaryPatientId
    /\ a_patientName first = p_fullName primary
    /\ a_type first = primaryType
    /\ hd_error l = Some (a_time first)
    /\ map a_patientName rest = map m_name familyMembers
    /\ map a_type rest = map m_appointmentType familyMembers
    /\ map a_relationship rest = map (fun m => Some (m_relationship m)) familyMembers
    /\ map a_time (first :: rest) = firstn (length familyMembers + 1) l
    /\ Forall (fun a => a_date a = preferredDate /\ a_status a = "confirmed") (first :: rest)
    /\ openSlots preferredDate (availableSlots disk')
       = Some (skipn (length familyMembers + 1) l)
    /\ l = map a_time (first :: rest) ++ skipn (length familyMembers + 1) l.
Proof.
  intros Hp Hne Hvalid db1 Hl Hfit.
  destruct (findDay_openSlots _ _ _ Hl) as (d & Hd & Hsl).
  assert (Hbody :
    bookFamilyAppointments_body Date_parse c primaryPatientId familyMembers preferredDate
      timing primaryType disk
    = allocate c primaryPatientId primary familyMembers preferredDate primaryType d db1).
  { unfold bookFamilyAppointments_body. rewrite Hp.
    destruct familyMembers as [|m ms]; [contradiction|].
    cbn [length Nat.eqb]. rewrite Hvalid. fold db1. rewrite Hd.
    replace (length (s_slots d) <? S (length ms) + 1)%nat with false; [reflexivity|].
    symmetry. apply Nat.ltb_ge. rewrite Hsl. exact Hfit. }
  unfold bookFamilyAppointments, readDatabase. rewrite Hbody.
  unfold allocate. rewrite Hsl.
  destruct l as [|t0 l0]; [simpl in Hfit; lia|].
  set (primaryAppt :=
         primaryAppointment c primaryPatientId primary preferredDate
           (nth 0 (t0 :: l0) "") primaryType).
  match goal with
  | |- context [familyLoop c primary preferredDate (t0 :: l0) familyMembers ?s] =>
      destruct (familyLoop_serves_all c primary preferredDate (t0 :: l0) familyMembers s)
        as (added & Hb & Ha & Ht & Hn & Hty & Hr & Hall);
      [ cbn [fl_index]; simpl length in *; lia | set (st' := familyLoop c primary preferredDate (t0 :: l0) familyMembers s) in * ]
  end.
  cbn zeta in Hb, Ha. cbn [fl_booked fl_appointments fl_index] in Hb, Ha, Ht.
  simpl app in Hb.
  assert (Hlen : length added = length familyMembers).
  { rewrite <- (length_map a_patientName added), Hn. apply length_map. }
  unfold commit, writeDatabase. cbn [patients appointments availableSlots emergencyAlerts].
  rewrite Hb, Ha.
  exists primaryAppt, added. eexists. eexists. eexists.
  split; [reflexivity|].
  cbn [appointments availableSlots].
  split; [simpl; rewrite Hlen; lia|].
  split; [now rewrite <- app_assoc|].
  split; [reflexivity|]. split; [reflexivity|]. split; [reflexivity|].
  split; [reflexivity|]. split; [exact Hn|].
  split; [rewrite Hty; now apply bookedType_valid|].
  split; [exact Hr|].
  assert (Htimes : map a_time (primaryAppt :: added)
                   = firstn (length familyMembers + 1) (t0 :: l0)).
  { rewrite Nat.add_1_r. simpl. f_equal. rewrite Ht. reflexivity. }
  split; [exact Htimes|].
  split; [constructor; [split; reflexivity | exact Hall]|].
  split.
  - rewrite openSlots_updateDay_same. fold db1. rewrite Hl. simpl option_map.
    rewrite Nat.add_1_r, <- Hlen. reflexivity.
  - rewrite Htimes. symmetry. apply firstn_skipn.
Qed.

End Allocation.

Lemma family_allocation_witness :
  exists first rest message details disk',
    bookFamilyAppointments IsoDate.parse Sample.clock "p001" [Sample.jane; Sample.jane]
      "2025-10-25" "back-to-back" "Exam" Sample.fresh
    = (OkFamily (first :: rest) 2 message details, disk')
    /\ map (fun a => (a_patientName a, a_time a, a_type a)) (first :: rest)
       = [ ("John Doe", "9:00 AM", "Exam"); ("Jane Doe", "10:00 AM", "Cleaning");
           ("Jane Doe", "2:00 PM", "Cleaning") ]
    /\ openSlots "2025-10-25" (availableSlots disk') = Some [].
Proof.
  destruct (family_allocation IsoDate.parse Sample.clock "p001" [Sample.jane; Sample.jane]
              "2025-10-25" "back-to-back" "Exam" Sample.fresh Sample.john
              ["9:00 AM"; "10:00 AM"; "2:00 PM"])
    as (first & rest & message & details & disk' & Hrun & _).
  - reflexivity.
  - discriminate.
  - reflexivity.
  - reflexivity.
  - simpl. lia.
  - exists first, rest, message, details, disk'. split; [exact Hrun|].
    injection Hrun as <- <- _ _ <-. split; reflexivity.
Defined.

(** C5 as stated fails.  A request without family members is refused even
    though the day has a slot for the primary patient.  And the primary
    patient is not given the earliest open time: the open slots of the 25th
    are 9:00 AM and 10:00 AM and John holds 11:00 AM; the pre-emption step
    releases 11:00 AM and sorts the labels as text, which puts 9:00 AM last,
    so John is booked at 10:00 AM, Jane at 11:00 AM, and 9:00 AM stays
    open. *)
Lemma family_primary_not_earliest :
  fst (bookFamilyAppointments IsoDate.parse Sample.clock "p001" [] "2025-10-25"
         "back-to-back" "Cleaning" Sample.fresh)
  = Fail "Family members information is required"
  /\ openSlots "2025-10-25" (availableSlots Sample.fresh)
     = Some ["9:00 AM"; "10:00 AM"; "2:00 PM"]
  /\ exists first rest message details disk',
       bookFamilyAppointments IsoDate.parse Sample.clock "p001" [Sample.jane]
         "2025-10-25" "back-to-back" "Cleaning" Sample.morning
       = (OkFamily (first :: rest) 1 message details, disk')
       /\ a_patientId first = "p001"
       /\ a_time first = "10:00 AM"
       /\ map a_time rest = ["11:00 AM"]
       /\ openSlots "2025-10-25" (availableSlots disk') = Some ["9:00 AM"]
       /\ hour24 "9:00 AM" = Some 9
       /\ hour24 (a_time first) = Some 10.
Proof.
  split; [reflexivity|]. split; [reflexivity|].
  do 5 eexists. split; [reflexivity|]. repeat split.
Qed.

(* ================================================================== *)
(** ** What the coordinator keeps *)
(* ================================================================== *)

(** The operations other than a reschedule of an appointment that is not
    active keep the state [kept], of which the consistency of C2 is one
    part.  The lemmas below are stated over the list of held slots, which
    the ledger determines up to order. *)

Lemma offered_release (d t : string) (days : list SlotDay) (slot : string * string) :
  offered (release d t days) slot -> offered days slot \/ slot = (d, t).
Proof.
  destruct slot as [d' t']. unfold offered. simpl. intros (l & Hl & Hin).
  destruct (String.eqb_spec d d') as [<-|Hne].
  - rewrite openSlots_release_same in Hl.
    destruct (openSlots d days) as [l0|]; [|discriminate].
    simpl in Hl. injection Hl as <-. apply pushSorted_In in Hin.
    destruct Hin as [->|Hin]; [now right | left; now exists l0].
  - unfold release in Hl. rewrite openSlots_updateDay_other in Hl by exact Hne.
    left. now exists l.
Qed.

Lemma offered_updateDay_at (date : string) (f : list string -> list string)
    (days : list SlotDay) (l : list string) (slot : string * string) :
  openSlots date days = Some l ->
  (forall x, In x (f l) -> In x l) ->
  offered (updateDay date f days) slot -> offered days slot.
Proof.
  intros Hl Hsub. destruct slot as [d' t']. unfold offered. simpl.
  intros (l' & Hl' & Hin).
  destruct (String.eqb_spec date d') as [<-|Hne].
  - rewrite openSlots_updateDay_same, Hl in Hl'. simpl in Hl'. injection Hl' as <-.
    exists l. split; [exact Hl | now apply Hsub].
  - rewrite openSlots_updateDay_other in Hl' by exact Hne. now exists l'.
Qed.

Lemma tidy_updateDay (date : string) (f : list string -> list string)
    (days : list SlotDay) :
  (forall l, openSlots date days = Some l -> NoDup (f l)) ->
  Forall (fun d => NoDup (s_slots d)) days ->
  Forall (fun d => NoDup (s_slots d)) (updateDay date f days).
Proof.
  unfold openSlots, findDay.
  induction days as [|d rest IH]; simpl; intros Hf Hall; [constructor|].
  inversion Hall as [|? ? Hd Hrest]; subst.
  destruct (s_date d =? date)%string.
  - constructor; [simpl; now apply Hf | exact Hrest].
  - constructor; [exact Hd | now apply IH].
Qed.

Lemma openSlots_NoDup (date : string) (days : list SlotDay) (l : list string) :
  Forall (fun d => NoDup (s_slots d)) days -> openSlots date days = Some l -> NoDup l.
Proof.
  intros Hall Hl. destruct (findDay_openSlots _ _ _ Hl) as (d & Hd & <-).
  apply find_some in Hd. rewrite Forall_forall in Hall. now apply Hall.
Qed.

Lemma NoDup_app_disjoint {A : Type} (l1 l2 : list A) (x : A) :
  NoDup (l1 ++ l2) -> In x l1 -> In x l2 -> False.
Proof.
  induction l1 as [|y r IH]; simpl; [tauto|].
  intros H [->|Hin] H2; inversion H; subst.
  - match goal with Hn : ~ In _ _ |- _ => apply Hn end. apply in_or_app. now right.
  - now apply IH.
Qed.

Lemma keptSlots_perm (h h' : list (string * string)) (days : list SlotDay) :
  Permutation h h' -> keptSlots h days -> keptSlots h' days.
Proof.
  intros P (Hnd & Hc & Ht). split; [|split].
  - exact (Permutation_NoDup P Hnd).
  - intros slot Hin. apply Hc. exact (Permutation_in _ (Permutation_sym P) Hin).
  - exact Ht.
Qed.

(** Giving up a held slot and releasing it. *)
Lemma keptSlots_release (slot : string * string) (h : list (string * string))
    (days : list SlotDay) :
  keptSlots (slot :: h) days -> keptSlots h (release (fst slot) (snd slot) days).
Proof.
  intros (Hnd & Hc & Ht). inversion Hnd as [|? ? Hnotin Hnd']; subst.
  split; [exact Hnd'|]. split.
  - intros s Hs Hoff. apply offered_release in Hoff. destruct Hoff as [Hoff|Heq].
    + exact (Hc s (or_intror Hs) Hoff).
    + apply Hnotin. destruct slot. simpl in Heq. now rewrite <- Heq.
  - apply tidy_updateDay; [|exact Ht].
    intros l Hl. apply pushSorted_NoDup. exact (openSlots_NoDup _ _ _ Ht Hl).
Qed.

(** The release loops: every appointment of [chosen] gives up its slot. *)
Lemma keptSlots_releases (g : Appointment -> string) (chosen : list Appointment) :
  forall (days : list SlotDay) (h : list (string * string)),
    keptSlots (map (fun a => (g a, a_time a)) chosen ++ h) days ->
    keptSlots h (fold_left (fun ds a => release (g a) (a_time a) ds) chosen days).
Proof.
  induction chosen as [|a rest IH]; intros days h Hk; simpl; [exact Hk|].
  apply IH. exact (keptSlots_release (g a, a_time a) _ days Hk).
Qed.

(** Taking open times [ts] of one day, with [f] the update of the day's
    list that removes them. *)
Lemma keptSlots_take (date : string) (ts : list string) (f : list string -> list string)
    (h : list (string * string)) (days : list SlotDay) (l : list string) :
  keptSlots h days ->
  openSlots date days = Some l ->
  NoDup ts ->
  (forall t, In t ts -> In t l /\ ~ In t (f l)) ->
  (forall x, In x (f l) -> In x l) ->
  NoDup (f l) ->
  keptSlots (h ++ map (pair date) ts) (updateDay date f days).
Proof.
  intros (Hnd & Hc & Ht) Hl Hts Htake Hsub Hfl. split; [|split].
  - apply NoDup_app; [exact Hnd | |].
    + apply Finite.Injective_map_NoDup; [|exact Hts]. intros x y [= E]. exact E.
    + intros s Hs Hin. apply in_map_iff in Hin. destruct Hin as (t & <- & Hin).
      apply (Hc _ Hs). exists l. split; [exact Hl | exact (proj1 (Htake t Hin))].
  - intros s Hs Hoff. apply in_app_or in Hs. destruct Hs as [Hs|Hs].
    + exact (Hc s Hs (offered_updateDay_at _ _ _ _ _ Hl Hsub Hoff)).
    + apply in_map_iff in Hs. destruct Hs as (t & <- & Hin).
      destruct Hoff as (l' & Hl' & Hin'). simpl in Hl', Hin'.
      rewrite openSlots_updateDay_same, Hl in Hl'. simpl in Hl'. injection Hl' as <-.
      exact (proj2 (Htake t Hin) Hin').
  - apply tidy_updateDay; [|exact Ht]. intros l' Hl'. congruence.
Qed.

Lemma heldSlots_app (l1 l2 : list Appointment) :
  heldSlots (l1 ++ l2) = heldSlots l1 ++ heldSlots l2.
Proof. unfold heldSlots. now rewrite filter_app, map_app. Qed.

Lemma heldSlots_active (added : list Appointment) :
  Forall (fun a => isActive a = true) added -> heldSlots added = map slotOf added.
Proof.
  unfold heldSlots. induction 1 as [|a r Ha _ IH]; simpl; [reflexivity|].
  rewrite Ha. simpl. now rewrite IH.
Qed.

(** Cancelling the appointments selected by [p] takes exactly their slots
    out of the held ones. *)
Lemma heldSlots_cancelled (p : Appointment -> bool) (at_ : string)
    (reason : option string) (l : list Appointment) :
  (forall a, p a = true -> isActive a = true) ->
  Permutation (heldSlots l)
    (map slotOf (filter p l) ++ heldSlots (updateAll p (setCancelled at_ reason) l)).
Proof.
  intros Hp. unfold heldSlots.
  induction l as [|a r IH]; simpl; [constructor|].
  destruct (p a) eqn:E.
  - rewrite (Hp a E), isActive_setCancelled. simpl. now constructor.
  - destruct (isActive a); simpl; [|exact IH].
    now apply Permutation_cons_app.
Qed.

Lemma updateFirst_split {A : Type} (p : A -> bool) (l : list A) (x : A) :
  find p l = Some x ->
  exists l1 l2, l = l1 ++ x :: l2 /\ forall f, updateFirst p f l = l1 ++ f x :: l2.
Proof.
  induction l as [|y r IH]; simpl; [discriminate|].
  destruct (p y) eqn:E.
  - intros [= ->]. exists [], r. split; [reflexivity | reflexivity].
  - intros H. destruct (IH H) as (l1 & l2 & -> & Hu).
    exists (y :: l1), l2. split; [reflexivity|]. intros f. simpl. now rewrite Hu.
Qed.

Lemma heldSlots_cons_active (a : Appointment) (l : list Appointment) :
  isActive a = true -> heldSlots (a :: l) = slotOf a :: heldSlots l.
Proof. unfold heldSlots. simpl. now intros ->. Qed.

Lemma heldSlots_cons_inactive (a : Appointment) (l : list Appointment) :
  isActive a = false -> heldSlots (a :: l) = heldSlots l.
Proof. unfold heldSlots. simpl. now intros ->. Qed.

(** [consistent] is the second part of [kept]. *)
Lemma kept_consistent (db : Db) : kept db -> consistent db = true.
Proof.
  intros (_ & Hc & _). unfold consistent. apply forallb_forall. intros a Ha.
  unfold slotTaken. destruct (isActive a) eqn:E; [simpl|reflexivity].
  destruct (findDay (a_date a) (availableSlots db)) as [d|] eqn:Hd; [|reflexivity].
  apply negb_true_iff, includes_false. intros Hin.
  apply (Hc (slotOf a)).
  - unfold heldSlots. apply in_map, filter_In. now split.
  - exists (s_slots d). split; [now apply openSlots_findDay | exact Hin].
Qed.

Lemma isActive_not_cancelled (a : Appointment) :
  (a_status a =? "cancelled")%string = false -> isActive a = true.
Proof. unfold isActive. now intros ->. Qed.

Lemma cancelAppointment_keeps (c : Clock) (appointmentId : string) (disk : Db) :
  kept disk -> kept (snd (cancelAppointment c appointmentId disk)).
Proof.
  intros Hk. unfold cancelAppointment, cancelAppointment_body, readDatabase.
  destruct (find (hasId appointmentId) (appointments disk)) as [a|] eqn:Hf;
    [|exact Hk].
  destruct (a_status a =? "cancelled")%string eqn:Hs; [exact Hk|].
  apply isActive_not_cancelled in Hs.
  unfold commit, writeDatabase, kept in *. cbn [snd appointments availableSlots].
  destruct (updateFirst_split _ _ _ Hf) as (l1 & l2 & Happ & Hupd).
  rewrite Hupd. rewrite Happ in Hk.
  rewrite heldSlots_app in *.
  rewrite heldSlots_cons_active in Hk by exact Hs.
  rewrite (heldSlots_cons_inactive (setCancelled (c_iso c) None a) l2 eq_refl).
  apply (keptSlots_release (slotOf a)).
  eapply keptSlots_perm; [|exact Hk].
  apply Permutation_sym, Permutation_middle.
Qed.

Lemma cancelAllAppointments_keeps (c : Clock) (patientId : string) (disk : Db) :
  kept disk -> kept (snd (cancelAllAppointments c patientId disk)).
Proof.
  intros Hk. unfold cancelAllAppointments, cancelAllAppointments_body, readDatabase.
  destruct (length (filter (activeOf patientId) (appointments disk)) =? 0)%nat;
    [exact Hk|].
  unfold commit, writeDatabase, kept, releaseAll in *.
  cbn [snd appointments availableSlots].
  apply (keptSlots_releases a_date).
  eapply keptSlots_perm; [|exact Hk].
  apply heldSlots_cancelled.
  intros a Ha. unfold activeOf in Ha. now apply andb_true_iff in Ha.
Qed.

Lemma rescheduleAppointment_keeps (c : Clock) (appointmentId newDate newTime : string)
    (disk : Db) :
  kept disk ->
  (forall a, find (hasId appointmentId) (appointments disk) = Some a ->
             isActive a = true) ->
  kept (snd (rescheduleAppointment c appointmentId newDate newTime disk)).
Proof.
  intros Hk Hact. unfold rescheduleAppointment, rescheduleAppointment_body, readDatabase.
  destruct (find (hasId appointmentId) (appointments disk)) as [a|] eqn:Hf;
    [|exact Hk].
  specialize (Hact a eq_refl).
  destruct (findDay newDate (availableSlots disk)) as [d|] eqn:Hd; [|exact Hk].
  destruct (Js.includes newTime (s_slots d)) eqn:Hinc; [|exact Hk].
  apply includes_In in Hinc. apply openSlots_findDay in Hd.
  unfold commit, writeDatabase, kept in *. cbn [negb snd appointments availableSlots].
  destruct (updateFirst_split _ _ _ Hf) as (l1 & l2 & Happ & Hupd).
  rewrite Hupd. rewrite Happ in Hk.
  rewrite heldSlots_app in *.
  rewrite heldSlots_cons_active in Hk by exact Hact.
  rewrite (heldSlots_cons_active (setRescheduled newDate newTime (c_iso c) a) l2 Hact).
  assert (Hrel : keptSlots (heldSlots l1 ++ heldSlots l2)
                   (release (a_date a) (a_time a) (availableSlots disk))).
  { apply (keptSlots_release (slotOf a)).
    eapply keptSlots_perm; [|exact Hk]. apply Permutation_sym, Permutation_middle. }
  destruct (openSlots_release_some (a_date a) newDate (a_time a) _ _ Hd)
    as (l' & Hl' & Hkeep).
  eapply keptSlots_perm;
    [|apply (keptSlots_take newDate [newTime] (removeSlot newTime) _ _ l' Hrel Hl')].
  - simpl. rewrite <- app_assoc. simpl.
    apply Permutation_app_head, Permutation_sym.
    apply (Permutation_cons_append (heldSlots l2) (newDate, newTime)).
  - constructor; [intros [] | constructor].
  - intros t [<-|[]]. split; [now apply Hkeep | apply removeSlot_gone].
  - intros x Hx. now apply removeSlot_In in Hx.
  - apply NoDup_filter. destruct Hrel as (_ & _ & Ht).
    exact (openSlots_NoDup _ _ _ Ht Hl').
Qed.

Lemma sameDay_slots (patientId date : string) (l : list Appointment) :
  map (fun a => (date, a_time a)) (filter (sameDayOf patientId date) l)
  = map slotOf (filter (sameDayOf patientId date) l).
Proof.
  apply map_ext_in. intros a Ha. apply filter_In in Ha. destruct Ha as [_ Ha].
  unfold sameDayOf in Ha. apply andb_true_iff in Ha. destruct Ha as [Ha _].
  apply andb_true_iff in Ha. destruct Ha as [_ Ha]. apply String.eqb_eq in Ha.
  unfold slotOf. now rewrite Ha.
Qed.

Lemma overwriteSameDay_keeps (c : Clock) (patientId date : string) (db : Db) :
  kept db -> kept (overwriteSameDay c patientId date db).
Proof.
  intros Hk. unfold kept, overwriteSameDay in *. cbn [appointments availableSlots].
  apply (keptSlots_releases (fun _ => date)). rewrite sameDay_slots.
  eapply keptSlots_perm; [|exact Hk].
  apply heldSlots_cancelled.
  intros a Ha. unfold sameDayOf in Ha. now apply andb_true_iff in Ha.
Qed.

Lemma bookAppointment_keeps (c : Clock)
    (patientId patientName date time type emergencyDetails : string) (disk : Db) :
  kept disk ->
  kept (snd (bookAppointment c patientId patientName date time type emergencyDetails disk)).
Proof.
  intros Hk.
  destruct (bookAppointment c patientId patientName date time type emergencyDetails disk)
    as [r disk'] eqn:Hrun.
  destruct (success r) eqn:Hs.
  - destruct (bookAppointment_success _ _ _ _ _ _ _ _ _ _ Hrun Hs)
      as (_ & -> & l1 & Hl1 & Hin1).
    pose proof (overwriteSameDay_keeps c patientId date disk Hk) as Hk1.
    unfold kept in *. cbn [snd appointments availableSlots].
    rewrite heldSlots_app.
    apply (keptSlots_take date [time] (removeSlot time) _ _ l1 Hk1 Hl1).
    + constructor; [intros [] | constructor].
    + intros t [<-|[]]. split; [exact Hin1 | apply removeSlot_gone].
    + intros x Hx. now apply removeSlot_In in Hx.
    + apply NoDup_filter. destruct Hk1 as (_ & _ & Ht).
      exact (openSlots_NoDup _ _ _ Ht Hl1).
  - pose proof (commit_failure disk _
                  (bookAppointment_writes c patientId patientName date time type
                     emergencyDetails (readDatabase disk))) as Hsame.
    unfold bookAppointment in Hrun. rewrite Hrun in Hsame. simpl in *.
    now rewrite (Hsame Hs).
Qed.

Lemma preempted_slots (candidates : list string) (preferredDate : string)
    (l : list Appointment) :
  map (fun a => (preferredDate, a_time a)) (filter (preempted candidates preferredDate) l)
  = map slotOf (filter (preempted candidates preferredDate) l).
Proof.
  apply map_ext_in. intros a Ha. apply filter_In in Ha. destruct Ha as [_ Ha].
  unfold preempted in Ha. apply andb_true_iff in Ha. destruct Ha as [Ha _].
  apply andb_true_iff in Ha. destruct Ha as [Ha _]. apply String.eqb_eq in Ha.
  unfold slotOf. now rewrite Ha.
Qed.

Lemma preemptFamily_keeps (c : Clock) (primaryPatientId : string) (primary : Patient)
    (familyMembers : list FamilyMember) (preferredDate : string) (db : Db) :
  kept db ->
  kept (preemptFamily c primaryPatientId primary familyMembers preferredDate db).
Proof.
  intros Hk. unfold kept, preemptFamily in *. cbn [appointments availableSlots].
  apply (keptSlots_releases (fun _ => preferredDate)). rewrite preempted_slots.
  eapply keptSlots_perm; [|exact Hk].
  apply heldSlots_cancelled.
  intros a Ha. unfold preempted in Ha. apply andb_true_iff in Ha.
  destruct Ha as [Ha _]. now apply andb_true_iff in Ha.
Qed.

Lemma firstn_In {A : Type} (k : nat) (l : list A) (x : A) :
  In x (firstn k l) -> In x l.
Proof.
  intros H. rewrite <- (firstn_skipn k l). apply in_or_app. now left.
Qed.

Lemma skipn_In {A : Type} (k : nat) (l : list A) (x : A) :
  In x (skipn k l) -> In x l.
Proof.
  intros H. rewrite <- (firstn_skipn k l). apply in_or_app. now right.
Qed.

Lemma insufficient_returns (Date_parse : string -> option Z)
    (familyMembers : list FamilyMember) (preferredDate : string)
    (dateSlots : option SlotDay) (db1 disk : Db) :
  snd (commit disk (insufficient Date_parse familyMembers preferredDate dateSlots db1))
  = disk.
Proof. unfold insufficient. now destruct (find _ (availableSlots db1)). Qed.

Lemma allocate_keeps (c : Clock) (primaryPatientId : string) (primary : Patient)
    (familyMembers : list FamilyMember) (preferredDate primaryType : string)
    (d : SlotDay) (db1 disk : Db) :
  kept db1 ->
  findDay preferredDate (availableSlots db1) = Some d ->
  length familyMembers + 1 <= length (s_slots d) ->
  kept (snd (commit disk
               (allocate c primaryPatientId primary familyMembers preferredDate
                  primaryType d db1))).
Proof.
  intros Hk Hd Hfit. apply openSlots_findDay in Hd.
  unfold allocate.
  destruct (s_slots d) as [|t0 l0] eqn:Hsl; [simpl in Hfit; lia|].
  set (primaryAppt :=
         primaryAppointment c primaryPatientId primary preferredDate
           (nth 0 (t0 :: l0) "") primaryType).
  match goal with
  | |- context [familyLoop c primary preferredDate (t0 :: l0) familyMembers ?s] =>
      destruct (familyLoop_serves_all c primary preferredDate (t0 :: l0) familyMembers s)
        as (added & Hb & Ha & Ht & _ & _ & _ & Hall);
      [ cbn [fl_index]; simpl length in *; lia
      | set (st' := familyLoop c primary preferredDate (t0 :: l0) familyMembers s) in * ]
  end.
  cbn zeta in Hb, Ha. cbn [fl_booked fl_appointments fl_index] in Hb, Ha, Ht.
  simpl app in Hb.
  unfold commit, writeDatabase, kept in *. cbn [snd appointments availableSlots].
  rewrite Hb, Ha, <- app_assoc. simpl app.
  assert (Hactive : Forall (fun a => isActive a = true) (primaryAppt :: added)).
  { constructor; [reflexivity|]. eapply Forall_impl; [|exact Hall].
    intros a [_ Hst]. unfold isActive. now rewrite Hst. }
  assert (Hdates : map slotOf (primaryAppt :: added)
                   = map (pair preferredDate) (map a_time (primaryAppt :: added))).
  { rewrite map_map. apply map_ext_in. intros a [<-|Hin]; [reflexivity|].
    rewrite Forall_forall in Hall. unfold slotOf. now rewrite (proj1 (Hall a Hin)). }
  rewrite heldSlots_app, (heldSlots_active _ Hactive), Hdates.
  assert (Htimes : map a_time (primaryAppt :: added)
                   = firstn (length (primaryAppt :: added)) (t0 :: l0)).
  { simpl. f_equal. rewrite Ht. f_equal.
    rewrite <- (length_map a_time added), Ht.
    rewrite length_firstn. simpl in Hfit |- *. lia. }
  rewrite Htimes.
  destruct Hk as (Hnd & Hc & Htidy).
  pose proof (openSlots_NoDup _ _ _ Htidy Hd) as Hl.
  rewrite <- (firstn_skipn (length (primaryAppt :: added)) (t0 :: l0)) in Hl.
  apply (keptSlots_take preferredDate _ _ _ _ (t0 :: l0)); auto.
  - split; [exact Hnd | split; [exact Hc | exact Htidy]].
  - exact (NoDup_app_remove_r _ _ Hl).
  - intros t Hin. split; [exact (firstn_In _ _ _ Hin)|].
    intros Hin'. exact (NoDup_app_disjoint _ _ _ Hl Hin Hin').
  - intros x. apply skipn_In.
  - exact (NoDup_app_remove_l _ _ Hl).
Qed.

Lemma bookFamilyAppointments_keeps (Date_parse : string -> option Z) (c : Clock)
    (primaryPatientId : string) (familyMembers : list FamilyMember)
    (preferredDate timing primaryType : string) (disk : Db) :
  kept disk ->
  kept (snd (bookFamilyAppointments Date_parse c primaryPatientId familyMembers
               preferredDate timing primaryType disk)).
Proof.
  intros Hk. unfold bookFamilyAppointments, bookFamilyAppointments_body, readDatabase.
  destruct (find _ (patients disk)) as [primary|]; [|exact Hk].
  destruct (length familyMembers =? 0)%nat; [exact Hk|].
  destruct (firstMemberError familyMembers); [exact Hk|].
  pose proof (preemptFamily_keeps c primaryPatientId primary familyMembers
                preferredDate disk Hk) as Hk1.
  destruct (findDay preferredDate (availableSlots (preemptFamily _ _ _ _ _ disk)))
    as [d|] eqn:Hd.
  - destruct (length (s_slots d) <? length familyMembers + 1)%nat eqn:Hlen.
    + now rewrite insufficient_returns.
    + apply Nat.ltb_ge in Hlen. now apply allocate_keeps.
  - now rewrite insufficient_returns.
Qed.

(** X10.  Every operation of the booking core keeps the state, a reschedule
    included when the appointment it finds is active; the reschedule of an
    appointment that is not active is the one path that does not. *)
Lemma coordinator_keeps (Date_parse : string -> option Z) (c : Clock) (call : Call)
    (disk : Db) :
  kept disk ->
  (forall appointmentId newDate newTime a,
     call = reschedule_appointment appointmentId newDate newTime ->
     find (hasId appointmentId) (appointments disk) = Some a ->
     isActive a = true) ->
  kept (snd (executeFunctionCall Date_parse c call disk))
  /\ consistent (snd (executeFunctionCall Date_parse c call disk)) = true.
Proof.
  intros Hk Hact.
  assert (H : kept (snd (executeFunctionCall Date_parse c call disk))).
  { destruct call; simpl.
    - now apply bookAppointment_keeps.
    - unfold registerNewPatient.
      repeat match goal with
             | |- context [match ?x with _ => _ end] => destruct x
             end; exact Hk.
    - now apply cancelAppointment_keeps.
    - now apply cancelAllAppointments_keeps.
    - apply rescheduleAppointment_keeps; [exact Hk|].
      intros a. now apply (Hact appointmentId newDate newTime).
    - unfold notifyStaffEmergency, notifyStaffEmergency_body, readDatabase.
      repeat match goal with
             | |- context [match ?x with _ => _ end] => destruct x
             | |- context [if ?x then _ else _] => destruct x
             end; exact Hk.
    - now apply bookFamilyAppointments_keeps. }
  split; [exact H | now apply kept_consistent].
Qed.

Lemma kept_sample : kept Sample.rebooked.
Proof.
  split; [|split].
  - simpl. constructor; [intros [] | constructor].
  - intros slot [<-|[]] (l & Hl & Hin). simpl in Hl. injection Hl as <-.
    simpl in Hin. destruct Hin as [H|[H|[]]]; discriminate H.
  - repeat constructor; simpl; intuition discriminate.
Qed.

(* ================================================================== *)
(** ** Validation: what an accepted value looks like *)
(* ================================================================== *)

Lemma filterChars_id (keep : ascii -> bool) (s : string) :
  Js.allChars keep s = true -> Js.filterChars keep s = s.
Proof.
  induction s as [|ch r IH]; simpl; [reflexivity|].
  intros H. apply andb_true_iff in H. destruct H as [Hc Hr].
  now rewrite Hc, IH.
Qed.

Lemma normalizePhone_digits (phone : string) :
  Js.allChars Js.isDigit (normalizePhone phone) = true.
Proof.
  unfold normalizePhone.
  assert (Hd : Js.allChars Js.isDigit (Js.stripNonDigits phone) = true)
    by apply filterChars_all.
  destruct ((String.length (Js.stripNonDigits phone) =? 11)%nat
            && Js.startsWith "1" (Js.stripNonDigits phone));
    [now apply allChars_dropFirst | exact Hd].
Qed.

Lemma validatePhoneNumber_valid (phone n : string) :
  validatePhoneNumber phone = Valid n ->
  n = normalizePhone phone /\ String.length n = 10.
Proof.
  rewrite validatePhoneNumber_normalizePhone.
  destruct (String.length (normalizePhone phone) =? 10)%nat eqn:E.
  - intros [= <-]. split; [reflexivity | now apply Nat.eqb_eq].
  - destruct (phone =? "")%string; discriminate.
Qed.

Lemma normalizePhone_fixed (n : string) :
  String.length n = 10 -> Js.allChars Js.isDigit n = true -> normalizePhone n = n.
Proof.
  intros Hl Hd. unfold normalizePhone, Js.stripNonDigits.
  rewrite (filterChars_id _ _ Hd), Hl. reflexivity.
Qed.

Lemma validPhone_facts (phone n : string) :
  validatePhoneNumber phone = Valid n ->
  String.length n = 10
  /\ Js.allChars Js.isDigit n = true
  /\ normalizePhone n = n
  /\ validatePhoneNumber n = Valid n
  /\ (forall name disk,
        searchPatient n name disk = searchByName disk (findPatientByPhone n disk) name).
Proof.
  intros H. destruct (validatePhoneNumber_valid _ _ H) as [Hn Hl].
  assert (Hd : Js.allChars Js.isDigit n = true)
    by (rewrite Hn; apply normalizePhone_digits).
  assert (Hfix : normalizePhone n = n) by now apply normalizePhone_fixed.
  assert (Hv : validatePhoneNumber n = Valid n).
  { rewrite validatePhoneNumber_normalizePhone, Hfix, Hl. reflexivity. }
  repeat split; auto.
  intros name disk. unfold searchPatient. rewrite Hv.
  destruct (String.eqb_spec n "") as [E|_]; [|reflexivity].
  rewrite E in Hl. discriminate Hl.
Qed.

(** X1.  A phone that [validatePhoneNumber] accepts is answered as ten
    decimal digits, and that answer is a fixed point: it validates to
    itself and [normalizePhone] leaves it as it is.  So the second
    validation that [registerNewPatient] runs through [searchPatient]
    cannot fail, and a stored normal form is found under itself. *)
Theorem validatePhoneNumber_idempotent (phone n : string) :
  validatePhoneNumber phone = Valid n ->
  String.length n = 10
  /\ Js.allChars Js.isDigit n = true
  /\ normalizePhone n = n
  /\ validatePhoneNumber n = Valid n
  /\ (forall name disk,
        searchPatient n name disk = searchByName disk (findPatientByPhone n disk) name).
Proof. apply validPhone_facts. Qed.

Lemma validatePhoneNumber_idempotent_witness :
  validatePhoneNumber "5551234567" = Valid "5551234567"
  /\ normalizePhone "5551234567" = "5551234567".
Proof.
  destruct (validatePhoneNumber_idempotent "1 (555) 123-4567" "5551234567")
    as (_ & _ & Hfix & Hv & _).
  - reflexivity.
  - split; [exact Hv | exact Hfix].
Defined.

Lemma trimEnd_idem (s : string) : Js.trimEnd (Js.trimEnd s) = Js.trimEnd s.
Proof.
  induction s as [|ch r IH]; simpl; [reflexivity|].
  destruct (Js.trimEnd r) as [|ch' r'] eqn:E.
  - destruct (Js.isSpace ch) eqn:Hs; simpl; [reflexivity | now rewrite Hs].
  - simpl in IH |- *. now rewrite IH.
Qed.

(** [trimStart] leaves nothing, or a text that does not start with white
    space. *)
Lemma trimStart_head (s : string) :
  match Js.trimStart s with
  | EmptyString => True
  | String ch _ => Js.isSpace ch = false
  end.
Proof.
  induction s as [|ch r IH]; simpl; [exact I|].
  destruct (Js.isSpace ch) eqn:E; [exact IH | simpl; exact E].
Qed.

Lemma trimEnd_head (ch : ascii) (r : string) :
  Js.isSpace ch = false -> exists r', Js.trimEnd (String ch r) = String ch r'.
Proof.
  intros H. simpl. destruct (Js.trimEnd r); [rewrite H|]; eexists; reflexivity.
Qed.

Lemma trim_idem (s : string) : Js.trim (Js.trim s) = Js.trim s.
Proof.
  unfold Js.trim. pose proof (trimStart_head s) as H.
  destruct (Js.trimStart s) as [|ch r]; [reflexivity|].
  destruct (trimEnd_head ch r H) as (r' & E). rewrite E.
  simpl Js.trimStart. rewrite H, <- E. apply trimEnd_idem.
Qed.

(** X2.  A name that [validatePatientName] accepts is answered trimmed: the
    answer is the input without its leading and trailing white space, has at
    least two characters, all of them letters, white space, hyphens or
    apostrophes, and validates to itself. *)
Theorem validatePatientName_normal (name n : string) :
  validatePatientName name = Valid n ->
  n = Js.trim name
  /\ 2 <= String.length n
  /\ Js.allChars isNameChar n = true
  /\ Js.trim n = n
  /\ validatePatientName n = Valid n.
Proof.
  unfold validatePatientName.
  destruct (String.length (Js.trim name) <? 2)%nat eqn:El; [discriminate|].
  destruct (Js.allChars isNameChar (Js.trim name)) eqn:Ea; simpl; [|discriminate].
  intros [= <-]. apply Nat.ltb_ge in El.
  split; [reflexivity|]. split; [exact El|]. split; [exact Ea|].
  split; [apply trim_idem|].
  rewrite trim_idem, Ea. apply Nat.ltb_ge in El. now rewrite El.
Qed.

Lemma validatePatientName_normal_witness :
  validatePatientName "Mary-Ann O'Neil" = Valid "Mary-Ann O'Neil".
Proof.
  destruct (validatePatientName_normal "  Mary-Ann O'Neil  " "Mary-Ann O'Neil")
    as (_ & _ & _ & _ & H).
  - reflexivity.
  - exact H.
Defined.

(** X3.  An insurance that [validateInsurance] accepts is answered as one of
    the ten listed providers, in the spelling of the list, and equals the
    trimmed input up to letter case.  Every listed provider is accepted as
    itself: no entry of the list hides a later one. *)
Theorem validateInsurance_canonical :
  (forall insurance found,
     validateInsurance insurance = Valid found ->
     In found validInsurances
     /\ Js.toLowerCase found = Js.toLowerCase (Js.trim insurance)
     /\ validateInsurance found = Valid found)
  /\ (forall listed, In listed validInsurances -> validateInsurance listed = Valid listed).
Proof.
  assert (Hlisted : forall listed, In listed validInsurances ->
                                   validateInsurance listed = Valid listed).
  { intros listed H. simpl in H.
    repeat (destruct H as [<-|H]; [reflexivity|]). destruct H. }
  split; [|exact Hlisted].
  intros insurance found. unfold validateInsurance.
  destruct (String.length (Js.trim insurance) <? 2)%nat; [discriminate|].
  destruct (find _ validInsurances) as [f|] eqn:Hf; [|discriminate].
  intros [= <-]. apply find_some in Hf. destruct Hf as [Hin Heq].
  apply String.eqb_eq in Heq.
  split; [exact Hin|]. split; [exact Heq | now apply Hlisted].
Qed.

Lemma validateInsurance_canonical_witness :
  validateInsurance "  delta DENTAL " = Valid "Delta Dental"
  /\ In "Delta Dental" validInsurances.
Proof.
  destruct validateInsurance_canonical as [H _].
  destruct (H "  delta DENTAL " "Delta Dental") as (Hin & _ & _).
  - reflexivity.
  - split; [reflexivity | exact Hin].
Defined.

(* ================================================================== *)
(** ** Registration *)
(* ================================================================== *)

Lemma validatePhoneNumber_nonempty (phone n : string) :
  validatePhoneNumber phone = Valid n -> (phone =? "")%string = false.
Proof.
  unfold validatePhoneNumber. destruct (phone =? "")%string; [discriminate | reflexivity].
Qed.

Lemma searchPatient_valid_phone (phone n name : string) (disk : Db) :
  validatePhoneNumber phone = Valid n ->
  searchPatient phone name disk = searchByName disk (findPatientByPhone n disk) name.
Proof.
  intros H. unfold searchPatient.
  now rewrite (validatePhoneNumber_nonempty _ _ H), H.
Qed.

Lemma searchByName_found (disk : Db) (p : Patient) (name : string) :
  searchByName disk (Some p) name
  = SearchFound p
      (filter (fun a => (a_patientId a =? p_id p)%string && isActive a) (appointments disk))
      (match p_familyMembers p with Some l => l | None => [] end).
Proof. reflexivity. Qed.

(** The outcomes of [registerNewPatient] once the four fields are valid. *)
Lemma registerNewPatient_valid (c : Clock) (fullName phone dateOfBirth insurance : string)
    (nameN phoneN dobN insuranceN : string) (disk : Db) :
  validatePatientName fullName = Valid nameN ->
  validatePhoneNumber phone = Valid phoneN ->
  validateDateOfBirth (c_year c) dateOfBirth = Valid dobN ->
  validateInsurance insurance = Valid insuranceN ->
  registerNewPatient c fullName phone dateOfBirth insurance disk =
  match findPatientByPhone phoneN disk with
  | Some existing =>
      (FailDuplicate ("A patient with phone number " ++ phoneN ++ " already exists")
         existing, disk)
  | None =>
      let patient :=
        {| p_id := "p" ++ Js.padStart0 3 (Js.String_nat (length (patients disk) + 1));
           p_fullName := nameN; p_phone := phoneN; p_dateOfBirth := dobN;
           p_insurance := insuranceN; p_registeredDate := c_day c;
           p_familyMembers := Some [] |} in
      (OkPatient patient, addPatient patient disk)
  end.
Proof.
  intros Hn Hp Hd Hi. unfold registerNewPatient. rewrite Hn, Hp, Hd, Hi.
  destruct (validPhone_facts _ _ Hp) as (_ & _ & _ & _ & Hs).
  rewrite Hs. destruct (findPatientByPhone phoneN disk) as [existing|]; reflexivity.
Qed.

Lemma registerNewPatient_success (c : Clock)
    (fullName phone dateOfBirth insurance : string) (disk disk' : Db) (patient : Patient) :
  registerNewPatient c fullName phone dateOfBirth insurance disk = (OkPatient patient, disk') ->
  validatePatientName fullName = Valid (p_fullName patient)
  /\ validatePhoneNumber phone = Valid (p_phone patient)
  /\ validateDateOfBirth (c_year c) dateOfBirth = Valid (p_dateOfBirth patient)
  /\ validateInsurance insurance = Valid (p_insurance patient)
  /\ findPatientByPhone (p_phone patient) disk = None
  /\ p_id patient = ("p" ++ Js.padStart0 3 (Js.String_nat (length (patients disk) + 1)))%string
  /\ p_familyMembers patient = Some []
  /\ disk' = addPatient patient disk.
Proof.
  destruct (validatePatientName fullName) as [|nameN] eqn:Hn;
    [unfold registerNewPatient; rewrite Hn; discriminate|].
  destruct (validatePhoneNumber phone) as [|phoneN] eqn:Hp;
    [unfold registerNewPatient; rewrite Hn, Hp; discriminate|].
  destruct (validateDateOfBirth (c_year c) dateOfBirth) as [|dobN] eqn:Hd;
    [unfold registerNewPatient; rewrite Hn, Hp, Hd; discriminate|].
  destruct (validateInsurance insurance) as [|insuranceN] eqn:Hi;
    [unfold registerNewPatient; rewrite Hn, Hp, Hd, Hi; discriminate|].
  rewrite (registerNewPatient_valid c _ _ _ _ _ _ _ _ disk Hn Hp Hd Hi).
  destruct (findPatientByPhone phoneN disk) eqn:Hf; [discriminate|].
  cbv zeta. intros [= <- <-]. simpl. repeat split. exact Hf.
Qed.

Lemma findPatientByPhone_added (patient : Patient) (disk : Db) :
  findPatientByPhone (p_phone patient) disk = None ->
  findPatientByPhone (p_phone patient) (addPatient patient disk) = Some patient.
Proof.
  unfold findPatientByPhone. intros H. simpl.
  rewrite find_app_none by exact H. simpl. now rewrite String.eqb_refl.
Qed.



(** X5.  With four valid fields, [registerNewPatient] answers the duplicate
    failure exactly when a stored patient has the phone up to formatting; the
    failure carries the first such patient and the files are unchanged.  In
    particular a second registration under any spelling of a phone that was
    just registered is refused and carries the record just created. *)
Theorem register_duplicate (c : Clock) (fullName phone dateOfBirth insurance : string)
    (nameN phoneN dobN insuranceN : string) (disk : Db) :
  validatePatientName fullName = Valid nameN ->
  validatePhoneNumber phone = Valid phoneN ->
  validateDateOfBirth (c_year c) dateOfBirth = Valid dobN ->
  validateInsurance insurance = Valid insuranceN ->
  (forall existing,
     findPatientByPhone phoneN disk = Some existing ->
     registerNewPatient c fullName phone dateOfBirth insurance disk
     = (FailDuplicate ("A patient with phone number " ++ phoneN ++ " already exists")
          existing, disk)
     /\ normalizePhone (p_phone existing) = phoneN)
  /\ (findPatientByPhone phoneN disk = None ->
      exists patient,
        registerNewPatient c fullName phone dateOfBirth insurance disk
        = (OkPatient patient, addPatient patient disk)
        /\ forall c2 fullName2 phone2 dateOfBirth2 insurance2 nameN2 dobN2 insuranceN2,
             validatePatientName fullName2 = Valid nameN2 ->
             validatePhoneNumber phone2 = Valid phoneN ->
             validateDateOfBirth (c_year c2) dateOfBirth2 = Valid dobN2 ->
             validateInsurance insurance2 = Valid insuranceN2 ->
             registerNewPatient c2 fullName2 phone2 dateOfBirth2 insurance2
               (addPatient patient disk)
             = (FailDuplicate
                  ("A patient with phone number " ++ phoneN ++ " already exists")
                  patient, addPatient patient disk)).
Proof.
  intros Hn Hp Hd Hi.
  destruct (validPhone_facts _ _ Hp) as (_ & _ & Hfix & _ & _).
  split.
  - intros existing Hf.
    rewrite (registerNewPatient_valid c _ _ _ _ _ _ _ _ disk Hn Hp Hd Hi), Hf.
    split; [reflexivity|].
    unfold findPatientByPhone in Hf. apply find_some in Hf. destruct Hf as [_ Hf].
    apply String.eqb_eq in Hf. now rewrite Hf.
  - intros Hf.
    rewrite (registerNewPatient_valid c _ _ _ _ _ _ _ _ disk Hn Hp Hd Hi), Hf.
    cbv zeta. eexists. split; [reflexivity|].
    intros c2 fullName2 phone2 dateOfBirth2 insurance2 nameN2 dobN2 insuranceN2
           Hn2 Hp2 Hd2 Hi2.
    rewrite (registerNewPatient_valid c2 _ _ _ _ _ _ _ _ _ Hn2 Hp2 Hd2 Hi2).
    match goal with
    | |- context [addPatient ?p disk] =>
        change phoneN with (p_phone p) at 1;
        rewrite (findPatientByPhone_added p disk Hf)
    end.
    reflexivity.
Qed.

Lemma register_duplicate_witness :
  registerNewPatient Sample.clock "Jane Roe" "(123) 456-7890" "02021992" "aetna"
    Sample.fresh
  = (FailDuplicate "A patient with phone number 1234567890 already exists" Sample.john,
     Sample.fresh).
Proof.
  destruct (register_duplicate Sample.clock "Jane Roe" "(123) 456-7890" "02021992" "aetna"
              "Jane Roe" "1234567890" "02021992" "Aetna" Sample.fresh) as [Hdup _].
  - reflexivity.
  - reflexivity.
  - reflexivity.
  - reflexivity.
  - destruct (Hdup Sample.john) as [Hrun _]; [reflexivity | exact Hrun].
Defined.

(** X6.  Registration keeps the stored phones distinct up to formatting:
    when no two stored patients share a phone, none do after
    [registerNewPatient], whatever it answers. *)
Theorem register_keeps_phones_unique (c : Clock)
    (fullName phone dateOfBirth insurance : string) (disk : Db) :
  phonesUnique disk ->
  phonesUnique (snd (registerNewPatient c fullName phone dateOfBirth insurance disk)).
Proof.
  intros Hu.
  destruct (registerNewPatient c fullName phone dateOfBirth insurance disk)
    as [r disk'] eqn:Hrun.
  destruct r; try (pose proof (registerNewPatient_failure c fullName phone dateOfBirth
                                 insurance disk) as Hf;
                   rewrite Hrun in Hf; simpl in Hf |- *; now rewrite Hf).
  all: try (exfalso; revert Hrun; unfold registerNewPatient;
            repeat match goal with
                   | |- context [match ?x with _ => _ end] => destruct x
                   end; discriminate).
  destruct (registerNewPatient_success _ _ _ _ _ _ _ _ Hrun)
    as (_ & Hp & _ & _ & Hf & _ & _ & ->).
  unfold phonesUnique in *. simpl. rewrite map_app. simpl.
  apply NoDup_app; [exact Hu | constructor; [intros [] | constructor] |].
  intros x Hx [<-|[]]. apply in_map_iff in Hx. destruct Hx as (p & Hpx & Hin).
  unfold findPatientByPhone in Hf.
  pose proof (find_none _ _ Hf p Hin) as Hne. simpl in Hne.
  apply String.eqb_neq in Hne. now apply Hne.
Qed.

Lemma register_keeps_phones_unique_witness :
  phonesUnique
    (snd (registerNewPatient Sample.clock "John Doe" "987-654-3210" "01151990"
            "Blue Cross" Sample.fresh)).
Proof.
  apply register_keeps_phones_unique.
  unfold phonesUnique. simpl.
  repeat (constructor; [simpl; intuition discriminate|]). constructor.
Defined.

(* ================================================================== *)
(** ** When a booking succeeds *)
(* ================================================================== *)

Lemma holdsSlot_time (patientId date time : string) (a : Appointment) :
  holdsSlot patientId date time a = true <->
  sameDayOf patientId date a = true /\ a_time a = time.
Proof.
  unfold holdsSlot. rewrite andb_true_iff. now rewrite String.eqb_eq.
Qed.

(** X7.  [bookAppointment] succeeds exactly when the patient is stored under
    the given identifier with exactly the given name, the date has an entry
    in the slot store, and the time is either open on that date or held by
    an active appointment of this same patient on that date, which the
    overwrite step releases before the availability check. *)
Theorem book_succeeds_iff (c : Clock)
    (patientId patientName date time type emergencyDetails : string) (disk : Db) :
  success (fst (bookAppointment c patientId patientName date time type emergencyDetails disk))
  = true
  <->
  exists patient l,
    find (fun p => (p_id p =? patientId)%string) (patients disk) = Some patient
    /\ p_fullName patient = patientName
    /\ openSlots date (availableSlots disk) = Some l
    /\ (In time l
        \/ exists a, In a (appointments disk) /\ holdsSlot patientId date time a = true).
Proof.
  assert (Hopen : forall l,
            openSlots date (availableSlots disk) = Some l ->
            exists l', openSlots date (availableSlots (overwriteSameDay c patientId date disk))
                       = Some l'
                       /\ (In time l' <->
                           In time l \/ exists a, In a (appointments disk)
                                                  /\ holdsSlot patientId date time a = true)).
  { intros l Hl.
    destruct (openSlots_overwrite_loop date
                (filter (sameDayOf patientId date) (appointments disk))
                (availableSlots disk) l Hl) as (l' & Hl' & Hin & _).
    exists l'. split; [exact Hl'|]. rewrite Hin. split.
    - intros [H|H]; [now left | right].
      apply in_map_iff in H. destruct H as (a & Ht & Ha).
      apply filter_In in Ha. exists a. split; [tauto|].
      apply holdsSlot_time. tauto.
    - intros [H|(a & Ha & Hh)]; [now left | right].
      apply holdsSlot_time in Hh. destruct Hh as [Hs <-].
      apply in_map, filter_In. tauto. }
  unfold bookAppointment, bookAppointment_body, readDatabase. split.
  - destruct (find _ (patients disk)) as [patient|]; [|discriminate].
    destruct (String.eqb_spec (p_fullName patient) patientName) as [Hn|]; [|discriminate].
    simpl negb. cbv iota.
    destruct (findDay date (availableSlots (overwriteSameDay c patientId date disk)))
      as [d|] eqn:Hd; [|discriminate].
    destruct (Js.includes time (s_slots d)) eqn:Hinc; [|discriminate].
    intros _. apply includes_In in Hinc. apply openSlots_findDay in Hd.
    destruct (openSlots date (availableSlots disk)) as [l|] eqn:Hl.
    + destruct (Hopen l eq_refl) as (l' & Hl' & Hiff).
      rewrite Hl' in Hd. injection Hd as Hd. rewrite <- Hd in Hinc.
      exists patient, l. repeat split; auto. now apply Hiff.
    + cbn [overwriteSameDay availableSlots] in Hd.
      rewrite openSlots_overwrite_loop_none in Hd by exact Hl. congruence.
  - intros (patient & l & Hp & Hn & Hl & Hor).
    rewrite Hp, Hn, String.eqb_refl. simpl negb. cbv iota.
    destruct (Hopen l Hl) as (l' & Hl' & Hiff).
    destruct (findDay_openSlots _ _ _ Hl') as (d & Hd & Hsl). rewrite Hd.
    replace (Js.includes time (s_slots d)) with true; [reflexivity|].
    symmetry. apply includes_In. rewrite Hsl. now apply Hiff.
Qed.

(** John holds 2:00 PM, which the day does not offer; his booking of that
    same time succeeds. *)
Lemma book_succeeds_iff_witness :
  success (fst (bookAppointment Sample.clock "p001" "John Doe" "2025-10-25" "2:00 PM"
                  "Filling" "" Sample.johnBooked)) = true.
Proof.
  apply book_succeeds_iff.
  exists Sample.john, ["10:00 AM"; "9:00 AM"].
  split; [reflexivity|]. split; [reflexivity|]. split; [reflexivity|].
  right. eexists. split; [left; reflexivity | reflexivity].
Defined.

(* ================================================================== *)
(** ** Cancelling all appointments of a patient *)
(* ================================================================== *)

Lemma openSlots_releaseAll (chosen : list Appointment) :
  forall (days : list SlotDay) (date : string) (l : list string),
    openSlots date days = Some l ->
    exists l',
      openSlots date (releaseAll chosen days) = Some l'
      /\ forall x, In x l' <->
                   In x l \/ exists a, In a chosen /\ a_date a = date /\ a_time a = x.
Proof.
  unfold releaseAll.
  induction chosen as [|a rest IH]; intros days date l Hl; simpl.
  - exists l. split; [exact Hl|]. intros x. split; [now left|].
    intros [H|(a & [] & _)]. exact H.
  - destruct (String.eqb_spec (a_date a) date) as [E|Hne].
    + destruct (IH (release (a_date a) (a_time a) days) date (pushSorted (a_time a) l))
        as (l' & Hl' & Hin).
      { rewrite E. now rewrite openSlots_release_same, Hl. }
      exists l'. split; [exact Hl'|]. intros x. rewrite Hin, pushSorted_In. split.
      * intros [[->|H]|(b & Hb & Hd & Ht)]; [right; exists a | now left | right; exists b];
          intuition.
      * intros [H|(b & [<-|Hb] & Hd & Ht)]; [tauto | left; left; now symmetry |].
        right. exists b. tauto.
    + destruct (IH (release (a_date a) (a_time a) days) date l) as (l' & Hl' & Hin).
      { unfold release. now rewrite openSlots_updateDay_other. }
      exists l'. split; [exact Hl'|]. intros x. rewrite Hin. split.
      * intros [H|(b & Hb & Hd & Ht)]; [now left | right; exists b]. intuition.
      * intros [H|(b & [<-|Hb] & Hd & Ht)]; [now left | contradiction |].
        right. exists b. tauto.
Qed.

Lemma filter_updateAll_activeOf (c : Clock) (patientId : string) (l : list Appointment) :
  filter (activeOf patientId)
    (updateAll (activeOf patientId) (setCancelled (c_iso c) None) l) = [].
Proof.
  induction l as [|a r IH]; simpl; [reflexivity|].
  destruct (activeOf patientId a) eqn:E.
  - replace (activeOf patientId (setCancelled (c_iso c) None a)) with false; [exact IH|].
    unfold activeOf. rewrite isActive_setCancelled. now rewrite andb_false_r.
  - rewrite E. exact IH.
Qed.

(** X8.  [cancelAllAppointments] fails with "No active appointments found to
    cancel", files unchanged, exactly when the patient has no active
    appointment.  Otherwise it reports one entry per active appointment of
    the patient, in ledger order; afterwards the patient has no active
    appointment, every appointment of the ledger is at its place, cancelled
    if it was one of them and untouched if not, each released time is in its
    day's list where the day has one, and a second call fails. *)
Theorem cancelAll_outcome (c c2 : Clock) (patientId : string) (disk : Db) :
  let chosen := filter (activeOf patientId) (appointments disk) in
  (chosen = [] ->
   cancelAllAppointments c patientId disk
   = (Fail "No active appointments found to cancel", disk))
  /\
  (chosen <> [] ->
   exists message disk',
     cancelAllAppointments c patientId disk
     = (OkCancelledAll message (map (summary false) chosen), disk')
     /\ filter (activeOf patientId) (appointments disk') = []
     /\ (forall i a, nth_error (appointments disk) i = Some a ->
           nth_error (appointments disk') i
           = Some (if activeOf patientId a then setCancelled (c_iso c) None a else a))
     /\ length (appointments disk') = length (appointments disk)
     /\ patients disk' = patients disk
     /\ (forall a l, In a chosen ->
           openSlots (a_date a) (availableSlots disk) = Some l ->
           exists l', openSlots (a_date a) (availableSlots disk') = Some l'
                      /\ In (a_time a) l')
     /\ cancelAllAppointments c2 patientId disk'
        = (Fail "No active appointments found to cancel", disk')).
Proof.
  intros chosen. unfold cancelAllAppointments, cancelAllAppointments_body, readDatabase.
  fold chosen. split.
  - intros H. rewrite H. reflexivity.
  - intros Hne.
    assert (Hlen : (length chosen =? 0)%nat = false).
    { apply Nat.eqb_neq. intros H0. apply Hne. now apply length_zero_iff_nil. }
    rewrite Hlen. unfold commit, writeDatabase.
    cbn [patients appointments availableSlots emergencyAlerts].
    eexists. eexists. split; [reflexivity|].
    cbn [patients appointments availableSlots emergencyAlerts].
    split; [apply filter_updateAll_activeOf|].
    split; [intros i a Ha; now rewrite nth_error_updateAll, Ha|].
    split; [apply length_updateAll|]. split; [reflexivity|]. split.
    + intros a l Ha Hl.
      destruct (openSlots_releaseAll chosen _ _ _ Hl) as (l' & Hl' & Hin).
      exists l'. split; [exact Hl'|]. apply Hin. right.
      exists a. repeat split; auto.
    + rewrite filter_updateAll_activeOf. reflexivity.
Qed.

Lemma cancelAll_outcome_witness :
  exists message disk',
    cancelAllAppointments Sample.clock "p001" Sample.johnBooked
    = (OkCancelledAll message
         [summary false
            (Sample.visit "a001" "p001" "John Doe" "2025-10-25" "2:00 PM" "scheduled")],
       disk')
    /\ filter (activeOf "p001") (appointments disk') = []
    /\ cancelAllAppointments Sample.clockLater "p001" disk'
       = (Fail "No active appointments found to cancel", disk').
Proof.
  destruct (cancelAll_outcome Sample.clock Sample.clockLater "p001" Sample.johnBooked)
    as [_ H].
  destruct H as (message & disk' & Hrun & Hnone & _ & _ & _ & _ & Hagain).
  - discriminate.
  - exists message, disk'. split; [exact Hrun|]. split; [exact Hnone | exact Hagain].
Defined.

(* ================================================================== *)
(** ** When a reschedule succeeds *)
(* ================================================================== *)

Lemma length_map_updateFirst {A : Type} (p : A -> bool) (f : A -> A) (l : list A) :
  length (updateFirst p f l) = length l.
Proof.
  induction l as [|x r IH]; simpl; [reflexivity|].
  destruct (p x); simpl; [reflexivity | now rewrite IH].
Qed.

Lemma slotTaken_active (days : list SlotDay) (a : Appointment) (l : list string) :
  slotTaken days a = true -> isActive a = true ->
  openSlots (a_date a) days = Some l -> ~ In (a_time a) l.
Proof.
  unfold slotTaken. intros H Ha Hl. rewrite Ha in H. simpl in H.
  destruct (findDay_openSlots _ _ _ Hl) as (d & Hd & <-). rewrite Hd in H.
  apply negb_true_iff in H. now apply includes_false.
Qed.



(** Mary cancels the slot she holds in the sample state; the result is kept
    and consistent. *)
Lemma coordinator_keeps_witness :
  consistent
    (snd (executeFunctionCall IsoDate.parse Sample.clock (cancel_appointment "a002")
            Sample.rebooked)) = true.
Proof.
  refine (proj2 (coordinator_keeps IsoDate.parse Sample.clock (cancel_appointment "a002")
                   Sample.rebooked _ _)).
  - split; [|split].
    + simpl. constructor; [intros [] | constructor].
    + intros slot [<-|[]] (l & Hl & Hin). simpl in Hl. injection Hl as <-.
      simpl in Hin. destruct Hin as [H|[H|[]]]; discriminate H.
    + repeat constructor; simpl; intuition discriminate.
  - intros appointmentId newDate newTime a H. discriminate H.
Defined.

(* ================================================================== *)
(** ** Family booking: patient records and the family list *)
(* ================================================================== *)

Section FamilyRecords.

Variable Date_parse : string -> option Z.

(** A successful family booking has passed every check and ends in
    [allocate]. *)
Lemma bookFamilyAppointments_success (c : Clock) (primaryPatientId : string)
    (familyMembers : list FamilyMember) (preferredDate timing primaryType : string)
    (disk disk' : Db) (r : Result) :
  bookFamilyAppointments Date_parse c primaryPatientId familyMembers preferredDate timing
    primaryType disk = (r, disk') ->
  success r = true ->
  exists primary d,
    find (fun p => (p_id p =? primaryPatientId)%string) (patients disk) = Some primary
    /\ familyMembers <> []
    /\ firstMemberError familyMembers = None
    /\ findDay preferredDate
         (availableSlots
            (preemptFamily c primaryPatientId primary familyMembers preferredDate disk))
       = Some d
    /\ length familyMembers + 1 <= length (s_slots d)
    /\ commit disk
         (allocate c primaryPatientId primary familyMembers preferredDate primaryType d
            (preemptFamily c primaryPatientId primary familyMembers preferredDate disk))
       = (r, disk').
Proof.
  unfold bookFamilyAppointments, bookFamilyAppointments_body, readDatabase.
  destruct (find _ (patients disk)) as [primary|];
    [|simpl; intros [= <- _] H; discriminate H].
  destruct familyMembers as [|m ms] eqn:Hms;
    [simpl; intros [= <- _] H; discriminate H|].
  rewrite <- Hms. replace (length familyMembers =? 0)%nat with false by now rewrite Hms.
  destruct (firstMemberError familyMembers) eqn:Hv;
    [simpl; intros [= <- _] H; discriminate H|].
  destruct (findDay preferredDate _) as [d|] eqn:Hd.
  - destruct (length (s_slots d) <? length familyMembers + 1)%nat eqn:Hlen.
    + unfold insufficient. destruct (find _ _); simpl; intros [= <- _] H; discriminate H.
    + intros Hrun _. exists primary, d. apply Nat.ltb_ge in Hlen.
      repeat split; auto. now rewrite Hms.
  - unfold insufficient. destruct (find _ _); simpl; intros [= <- _] H; discriminate H.
Qed.

End FamilyRecords.

Lemma addRef_keeps (c : Clock) (m : FamilyMember) (refs : list FamilyMemberRef) :
  (forall fm, In fm refs -> In fm (addRef c m refs))
  /\ In (m_name m) (map fm_name (addRef c m refs))
  /\ (NoDup (map fm_name refs) -> NoDup (map fm_name (addRef c m refs))).
Proof.
  unfold addRef.
  destruct (existsb (fun fm => (fm_name fm =? m_name m)%string) refs) eqn:E.
  - split; [auto|]. split; [|auto].
    apply existsb_exists in E. destruct E as (fm & Hin & Heq).
    apply String.eqb_eq in Heq. rewrite <- Heq. now apply in_map.
  - split; [intros fm H; apply in_or_app; now left|]. split.
    + rewrite map_app. apply in_or_app. right. simpl. now left.
    + intros Hnd. rewrite map_app. simpl.
      apply NoDup_app; [exact Hnd | constructor; [intros [] | constructor] |].
      intros x Hx [<-|[]]. apply in_map_iff in Hx. destruct Hx as (fm & Hfm & Hin).
      assert (Hex : existsb (fun fm => (fm_name fm =? m_name m)%string) refs = true).
      { apply existsb_exists. exists fm. split; [exact Hin|]. now apply String.eqb_eq. }
      congruence.
Qed.

(** What the allocation loop does to the patient list and to the family
    list when the day has a slot for every member. *)
Lemma familyLoop_records (c : Clock) (primary : Patient) (preferredDate : string)
    (slots : list string) (members : list FamilyMember) :
  forall st : FamilyLoop,
    fl_index st + length members <= length slots ->
    let st' := familyLoop c primary preferredDate slots members st in
    exists created added,
      fl_patients st' = fl_patients st ++ created
      /\ length created <= length members
      /\ Forall (fun p => p_phone p = p_phone primary
                          /\ p_dateOfBirth p = p_dateOfBirth primary
                          /\ p_insurance p = p_insurance primary
                          /\ p_familyMembers p = Some []
                          /\ exists m, In m members /\ p_fullName p = m_name m) created
      /\ fl_booked st' = fl_booked st ++ added
      /\ Forall2 (fun m a =>
                    a_patientName a = m_name m
                    /\ exists p, In p (fl_patients st') /\ p_id p = a_patientId a
                                 /\ isMemberRecord primary m p = true) members added
      /\ (forall fm, In fm (fl_refs st) -> In fm (fl_refs st'))
      /\ (forall m, In m members -> In (m_name m) (map fm_name (fl_refs st')))
      /\ (NoDup (map fm_name (fl_refs st)) -> NoDup (map fm_name (fl_refs st'))).
Proof.
  induction members as [|m rest IH]; intros st Hlen.
  - exists [], []. simpl. rewrite !app_nil_r.
    repeat split; auto. intros m [].
  - simpl in Hlen.
    destruct (nth_error slots (fl_index st)) as [time|] eqn:Hnth.
    2:{ apply nth_error_None in Hnth. lia. }
    simpl familyLoop. rewrite Hnth.
    destruct (addRef_keeps c m (fl_refs st)) as (Hkeep & Hnamed & Hnd).
    match goal with
    | |- context [familyLoop c primary preferredDate slots rest ?s] =>
        destruct (IH s) as (created & added & Hps & Hcl & Hcr & Hb & Hf2 & Hrk & Hrn & Hrd);
        [simpl; lia|];
        set (st' := familyLoop c primary preferredDate slots rest s) in *
    end.
    cbn zeta in *. cbn [fl_patients fl_booked fl_refs fl_index] in *.
    destruct (find (isMemberRecord primary m) (fl_patients st)) as [existing|] eqn:Hfind.
    + exists created. eexists (_ :: added).
      split; [exact Hps|]. split; [simpl; lia|]. split.
      { eapply Forall_impl; [|exact Hcr].
        intros p (H1 & H2 & H3 & H4 & m' & Hm' & H5).
        repeat split; auto. exists m'. split; [now right | exact H5]. }
      split; [rewrite Hb, <- app_assoc; reflexivity|]. split.
      { constructor; [|exact Hf2]. split; [reflexivity|].
        apply find_some in Hfind. destruct Hfind as [Hin Hrec].
        exists existing. split; [rewrite Hps; apply in_or_app; now left|].
        split; [reflexivity | exact Hrec]. }
      split; [intros fm H; apply Hrk, Hkeep, H|]. split.
      { intros m' [<-|Hm'].
        - apply in_map_iff in Hnamed. destruct Hnamed as (fm & Hfm & Hin).
          rewrite <- Hfm. apply in_map, Hrk, Hin.
        - now apply Hrn. }
      intros H. apply Hrd, Hnd, H.
    + eexists (_ :: created). eexists (_ :: added).
      split; [rewrite Hps, <- app_assoc; reflexivity|]. split; [simpl; lia|]. split.
      { constructor.
        - repeat split. exists m. split; [now left | reflexivity].
        - eapply Forall_impl; [|exact Hcr].
          intros p (H1 & H2 & H3 & H4 & m' & Hm' & H5).
          repeat split; auto. exists m'. split; [now right | exact H5]. }
      split; [rewrite Hb, <- app_assoc; reflexivity|]. split.
      { constructor; [|exact Hf2]. split; [reflexivity|].
        eexists. split; [rewrite Hps; apply in_or_app; left; apply in_or_app; right;
                         left; reflexivity|].
        split; [reflexivity|].
        unfold isMemberRecord. cbn [memberPatient p_fullName p_phone].
        now rewrite !String.eqb_refl. }
      split; [intros fm H; apply Hrk, Hkeep, H|]. split.
      { intros m' [<-|Hm'].
        - apply in_map_iff in Hnamed. destruct Hnamed as (fm & Hfm & Hin).
          rewrite <- Hfm. apply in_map, Hrk, Hin.
        - now apply Hrn. }
      intros H. apply Hrd, Hnd, H.
Qed.

Lemma updateFirst_In {A : Type} (q : A -> bool) (f : A -> A) (l : list A) (x : A) :
  In x l -> In x (updateFirst q f l) \/ In (f x) (updateFirst q f l).
Proof.
  induction l as [|y r IH]; simpl; [tauto|].
  intros [->|H].
  - destruct (q x); simpl; auto.
  - destruct (q y); simpl; [auto|]. destruct (IH H); auto.
Qed.

Lemma nth_error_updateFirst {A : Type} (q : A -> bool) (f : A -> A) (l : list A)
    (i : nat) (x : A) :
  nth_error l i = Some x ->
  nth_error (updateFirst q f l) i = Some x \/ nth_error (updateFirst q f l) i = Some (f x).
Proof.
  revert i. induction l as [|y r IH]; intros [|i]; simpl; try discriminate.
  - intros [= ->]. destruct (q x); simpl; auto.
  - intros H. destruct (q y); simpl; auto.
Qed.

Lemma find_app_found {A : Type} (p : A -> bool) (l1 l2 : list A) (x : A) :
  find p l1 = Some x -> find p (l1 ++ l2) = Some x.
Proof.
  induction l1 as [|y r IH]; simpl; [discriminate|].
  destruct (p y); [auto | exact IH].
Qed.

Section FamilyRecordsTheorem.

Variable Date_parse : string -> option Z.


End FamilyRecordsTheorem.


Lemma candidates_spec (primaryPatientId : string) (primary : Patient)
    (familyMembers : list FamilyMember) (ps : list Patient) (id : string) :
  Js.includes id (candidatesToOverwrite primaryPatientId primary familyMembers ps) = true
  <-> id = primaryPatientId
      \/ exists m existing,
           In m familyMembers /\ find (isMemberRecord primary m) ps = Some existing
           /\ p_id existing = id.
Proof.
  rewrite includes_In. unfold candidatesToOverwrite. simpl. rewrite in_flat_map. split.
  - intros [H|(m & Hm & Hin)]; [left; now symmetry | right].
    destruct (find (isMemberRecord primary m) ps) as [existing|] eqn:E; [|destruct Hin].
    destruct Hin as [<-|[]]. now exists m, existing.
  - intros [->|(m & existing & Hm & Hf & <-)]; [now left | right].
    exists m. split; [exact Hm|]. rewrite Hf. now left.
Qed.

Section FamilyPreemption.

Variable Date_parse : string -> option Z.

(** X12.  A successful family booking first overwrites the party's
    appointments of the preferred date: the party is the primary patient and
    every stored patient that stands for a listed member (same name up to
    case, the primary's phone).  Each of their active appointments on that
    date is, at its place in the ledger, cancelled with reason
    "overwritten_by_family_booking"; every other appointment is untouched.
    Afterwards the primary patient's only active appointments on that date
    are ones this booking created. *)
Theorem family_preemption (c : Clock) (primaryPatientId : string)
    (familyMembers : list FamilyMember) (preferredDate timing primaryType : string)
    (disk disk' : Db) (booked : list Appointment) (n : nat) (message : string)
    (details : list string) :
  bookFamilyAppointments Date_parse c primaryPatientId familyMembers preferredDate timing
    primaryType disk = (OkFamily booked n message details, disk') ->
  exists primary,
    find (fun p => (p_id p =? primaryPatientId)%string) (patients disk) = Some primary
    /\ let party a :=
         a_patientId a = primaryPatientId
         \/ exists m existing,
              In m familyMembers
              /\ find (isMemberRecord primary m) (patients disk) = Some existing
              /\ p_id existing = a_patientId a in
       (forall i a,
          nth_error (appointments disk) i = Some a ->
          a_date a = preferredDate -> isActive a = true -> party a ->
          nth_error (appointments disk') i
          = Some (setCancelled (c_iso c) (Some "overwritten_by_family_booking") a))
       /\ (forall i a,
             nth_error (appointments disk) i = Some a ->
             ~ (a_date a = preferredDate /\ isActive a = true /\ party a) ->
             nth_error (appointments disk') i = Some a)
       /\ appointments disk'
          = updateAll
              (preempted
                 (candidatesToOverwrite primaryPatientId primary familyMembers
                    (patients disk)) preferredDate)
              (setCancelled (c_iso c) (Some "overwritten_by_family_booking"))
              (appointments disk) ++ booked
       /\ (forall a, In a (appointments disk') ->
             a_patientId a = primaryPatientId -> a_date a = preferredDate ->
             isActive a = true -> In a booked).
Proof.
  intros Hrun.
  destruct (bookFamilyAppointments_success Date_parse _ _ _ _ _ _ _ _ _ Hrun eq_refl)
    as (primary & d & Hp & Hne & Hvalid & Hd & Hfit & Hcommit).
  exists primary. split; [exact Hp|]. intros party.
  set (candidates :=
         candidatesToOverwrite primaryPatientId primary familyMembers (patients disk)).
  assert (Hparty : forall a,
            preempted candidates preferredDate a = true
            <-> a_date a = preferredDate /\ isActive a = true /\ party a).
  { intros a. unfold preempted. rewrite !andb_true_iff, String.eqb_eq.
    unfold candidates. rewrite candidates_spec. unfold party. tauto. }
  assert (Happ : appointments disk'
                 = updateAll (preempted candidates preferredDate)
                     (setCancelled (c_iso c) (Some "overwritten_by_family_booking"))
                     (appointments disk) ++ booked).
  { unfold allocate in Hcommit.
    match type of Hcommit with
    | context [familyLoop c primary preferredDate (s_slots d) familyMembers ?s] =>
        destruct (familyLoop_serves_all c primary preferredDate (s_slots d)
                    familyMembers s) as (added & Hb & Ha & _);
        [cbn [fl_index]; lia|];
        set (st' := familyLoop c primary preferredDate (s_slots d) familyMembers s) in *
    end.
    cbn zeta in *. cbn [fl_booked fl_appointments] in *.
    unfold commit, writeDatabase in Hcommit.
    cbn [patients appointments availableSlots emergencyAlerts] in Hcommit.
    injection Hcommit as Hbooked _ _ _ Hdisk.
    rewrite <- Hdisk, <- Hbooked. cbn [appointments]. rewrite Ha, Hb, <- app_assoc.
    reflexivity. }
  assert (Hnth : forall i a, nth_error (appointments disk) i = Some a ->
            nth_error (appointments disk') i
            = Some (if preempted candidates preferredDate a
                    then setCancelled (c_iso c) (Some "overwritten_by_family_booking") a
                    else a)).
  { intros i a Hi. rewrite Happ, nth_error_app1.
    - now rewrite nth_error_updateAll, Hi.
    - rewrite length_updateAll. apply nth_error_Some. congruence. }
  split; [|split; [|split]].
  - intros i a Hi Hdate Hact Hpa. rewrite (Hnth i a Hi).
    replace (preempted candidates preferredDate a) with true; [reflexivity|].
    symmetry. apply Hparty. auto.
  - intros i a Hi Hnot. rewrite (Hnth i a Hi).
    destruct (preempted candidates preferredDate a) eqn:E; [|reflexivity].
    exfalso. apply Hnot. now apply Hparty.
  - exact Happ.
  - intros a Hin Hid Hdate Hact. rewrite Happ in Hin. apply in_app_or in Hin.
    destruct Hin as [Hin|Hin]; [exfalso | exact Hin].
    unfold updateAll in Hin. apply in_map_iff in Hin. destruct Hin as (x & Hx & _).
    destruct (preempted candidates preferredDate x) eqn:E.
    + rewrite <- Hx in Hact. discriminate Hact.
    + subst x. assert (Ht : preempted candidates preferredDate a = true).
      { apply Hparty. split; [exact Hdate|]. split; [exact Hact|]. now left. }
      congruence.
Qed.

End FamilyPreemption.

Lemma family_preemption_witness :
  map (fun a => (a_time a, a_status a, a_cancelReason a))
    (appointments
       (snd (bookFamilyAppointments IsoDate.parse Sample.clock "p001" [Sample.jane]
               "2025-10-25" "back-to-back" "Cleaning" Sample.morning)))
  = [ ("11:00 AM", "cancelled", Some "overwritten_by_family_booking");
      ("10:00 AM", "confirmed", None); ("11:00 AM", "confirmed", None) ].
Proof.
  assert (Hrun : exists booked n message details disk',
            bookFamilyAppointments IsoDate.parse Sample.clock "p001" [Sample.jane]
              "2025-10-25" "back-to-back" "Cleaning" Sample.morning
            = (OkFamily booked n message details, disk'))
    by (do 5 eexists; reflexivity).
  destruct Hrun as (booked & n & message & details & disk' & Hrun).
  destruct (family_preemption IsoDate.parse _ _ _ _ _ _ _ _ _ _ _ _ Hrun)
    as (primary & _ & _ & _ & Happ & _).
  rewrite Hrun. cbn [snd]. rewrite Happ.
  injection Hrun as <- _ _ _ _. reflexivity.
Defined.

(* ================================================================== *)
(** ** The database manager *)
(* ================================================================== *)

Lemma ascii_compare_N (a b : ascii) :
  (a ?= b)%char = (N_of_ascii a ?= N_of_ascii b)%N.
Proof. reflexivity. Qed.

Lemma ascii_compare_lt_trans (a b d : ascii) :
  (a ?= b)%char = Lt -> (b ?= d)%char = Lt -> (a ?= d)%char = Lt.
Proof.
  rewrite !ascii_compare_N, !N.compare_lt_iff. apply N.lt_trans.
Qed.

Lemma string_compare_lt_trans (s1 : string) :
  forall s2 s3, (s1 ?= s2)%string = Lt -> (s2 ?= s3)%string = Lt ->
                (s1 ?= s3)%string = Lt.
Proof.
  induction s1 as [|c1 r1 IH]; intros [|c2 r2] [|c3 r3]; simpl; try discriminate; auto.
  destruct (c1 ?= c2)%char eqn:E12; try discriminate.
  - apply Ascii.compare_eq_iff in E12. subst c2.
    destruct (c1 ?= c3)%char; try discriminate; auto. apply IH.
  - destruct (c2 ?= c3)%char eqn:E23; try discriminate.
    + apply Ascii.compare_eq_iff in E23. subst c3. now rewrite E12.
    + now rewrite (ascii_compare_lt_trans _ _ _ E12 E23).
Qed.

Lemma string_leb_trans (s1 s2 s3 : string) :
  (s1 <=? s2)%string = true -> (s2 <=? s3)%string = true -> (s1 <=? s3)%string = true.
Proof.
  unfold String.leb.
  destruct (s1 ?= s2)%string eqn:E12; try discriminate;
    destruct (s2 ?= s3)%string eqn:E23; try discriminate; intros _ _.
  - apply String.compare_eq_iff in E12. subst. now rewrite E23.
  - apply String.compare_eq_iff in E12. subst. now rewrite E23.
  - apply String.compare_eq_iff in E23. subst. now rewrite E12.
  - now rewrite (string_compare_lt_trans _ _ _ E12 E23).
Qed.



Lemma removeSlot_idem (time : string) (l : list string) :
  removeSlot time (removeSlot time l) = removeSlot time l.
Proof.
  unfold removeSlot. induction l as [|x r IH]; simpl; [reflexivity|].
  destruct (x =? time)%string eqn:E; simpl; [exact IH|]. now rewrite E, IH.
Qed.

Lemma updateDay_twice (date : string) (f g : list string -> list string)
    (days : list SlotDay) :
  updateDay date g (updateDay date f days) = updateDay date (fun l => g (f l)) days.
Proof.
  induction days as [|d r IH]; simpl; [reflexivity|].
  destruct (s_date d =? date)%string eqn:E; simpl; rewrite E; [reflexivity|].
  now rewrite IH.
Qed.

Lemma updateDay_ext (date : string) (f g : list string -> list string)
    (days : list SlotDay) :
  (forall l, f l = g l) -> updateDay date f days = updateDay date g days.
Proof.
  intros H. induction days as [|d r IH]; simpl; [reflexivity|].
  destruct (s_date d =? date)%string; [now rewrite H | now rewrite IH].
Qed.

Lemma findDay_updateDay_some (date : string) (f : list string -> list string)
    (days : list SlotDay) :
  findDay date days <> None -> findDay date (updateDay date f days) <> None.
Proof.
  unfold findDay. induction days as [|d r IH]; simpl; [auto|].
  destruct (s_date d =? date)%string eqn:E; simpl; rewrite E; [discriminate | exact IH].
Qed.

(** X14.  [removeTimeSlot] takes every occurrence of the time out of the
    date's list and nothing else: afterwards a slot is offered exactly when
    it was offered before and is not the removed one.  The other collections
    are untouched, a date without entry leaves the files as they are, a
    second removal changes nothing, and a release of the slot offers it
    again. *)
Theorem removeTimeSlot_effect (date time : string) (disk : Db) :
  let disk' := DatabaseManager.removeTimeSlot date time disk in
  (forall slot, offered (availableSlots disk') slot
                <-> offered (availableSlots disk) slot /\ slot <> (date, time))
  /\ patients disk' = patients disk
  /\ appointments disk' = appointments disk
  /\ emergencyAlerts disk' = emergencyAlerts disk
  /\ (openSlots date (availableSlots disk) = None -> disk' = disk)
  /\ DatabaseManager.removeTimeSlot date time disk' = disk'
  /\ (openSlots date (availableSlots disk) <> None ->
      offered (release date time (availableSlots disk')) (date, time)).
Proof.
  intros disk'.
  assert (Hslots : availableSlots disk'
                   = updateDay date (removeSlot time) (availableSlots disk)).
  { unfold disk', DatabaseManager.removeTimeSlot.
    destruct (findDay date (availableSlots disk)) eqn:Hd; [reflexivity|].
    symmetry. clear -Hd. unfold findDay in Hd.
    induction (availableSlots disk) as [|d r IH]; simpl in *; [reflexivity|].
    destruct (s_date d =? date)%string; [discriminate | now rewrite IH]. }
  split; [|split; [|split; [|split; [|split; [|split]]]]].
  - intros [d' t']. rewrite Hslots. unfold offered. simpl. split.
    + intros (l & Hl & Hin). destruct (String.eqb_spec date d') as [<-|Hne].
      * rewrite openSlots_updateDay_same in Hl.
        destruct (openSlots date (availableSlots disk)) as [l0|]; [|discriminate].
        simpl in Hl. injection Hl as <-. apply removeSlot_In in Hin.
        split; [exists l0; tauto | intros [= E]; tauto].
      * rewrite openSlots_updateDay_other in Hl by exact Hne.
        split; [now exists l | intros [= E _]; now apply Hne].
    + intros [(l & Hl & Hin) Hne]. destruct (String.eqb_spec date d') as [<-|Hnd].
      * rewrite openSlots_updateDay_same, Hl. simpl. eexists. split; [reflexivity|].
        apply removeSlot_In. split; [exact Hin|]. intros ->. now apply Hne.
      * rewrite openSlots_updateDay_other by exact Hnd. now exists l.
  - unfold disk', DatabaseManager.removeTimeSlot.
    now destruct (findDay date (availableSlots disk)).
  - unfold disk', DatabaseManager.removeTimeSlot.
    now destruct (findDay date (availableSlots disk)).
  - unfold disk', DatabaseManager.removeTimeSlot.
    now destruct (findDay date (availableSlots disk)).
  - unfold disk', DatabaseManager.removeTimeSlot, openSlots.
    now destruct (findDay date (availableSlots disk)).
  - unfold disk', DatabaseManager.removeTimeSlot.
    destruct (findDay date (availableSlots disk)) eqn:Hd.
    + cbn [availableSlots patients appointments emergencyAlerts].
      destruct (findDay date (updateDay date (removeSlot time) (availableSlots disk)))
        eqn:Hd'.
      * cbn [availableSlots patients appointments emergencyAlerts].
        f_equal. rewrite updateDay_twice. apply updateDay_ext.
        intros l. apply removeSlot_idem.
      * exfalso. revert Hd'. apply findDay_updateDay_some. congruence.
    + now rewrite Hd.
  - intros Hsome. rewrite Hslots. unfold offered. simpl.
    rewrite openSlots_release_same, openSlots_updateDay_same.
    destruct (openSlots date (availableSlots disk)) as [l|]; [|contradiction].
    simpl. eexists. split; [reflexivity | apply pushSorted_has].
Qed.

Lemma removeTimeSlot_effect_witness :
  openSlots "2025-10-25"
    (availableSlots (DatabaseManager.removeTimeSlot "2025-10-25" "10:00 AM" Sample.fresh))
  = Some ["9:00 AM"; "2:00 PM"]
  /\ DatabaseManager.removeTimeSlot "2025-11-01" "10:00 AM" Sample.fresh = Sample.fresh.
Proof.
  destruct (removeTimeSlot_effect "2025-11-01" "10:00 AM" Sample.fresh)
    as (_ & _ & _ & _ & Hnone & _).
  split; [reflexivity | apply Hnone; reflexivity].
Defined.

Lemma getEmergencyAlerts_added (status : string) (alert : EmergencyAlert) (disk : Db) :
  DatabaseManager.getEmergencyAlerts status (DatabaseManager.addEmergencyAlert alert disk)
  = DatabaseManager.getEmergencyAlerts status disk
    ++ (if (status =? "")%string || (e_status alert =? status)%string then [alert] else []).
Proof.
  unfold DatabaseManager.getEmergencyAlerts, DatabaseManager.addEmergencyAlert.
  cbn [emergencyAlerts]. destruct (status =? "")%string; [reflexivity|].
  rewrite filter_app. simpl. now destruct (e_status alert =? status)%string.
Qed.

Section AlertsGrow.

Variable Date_parse : string -> option Z.

(** X15.  [notifyStaffEmergency] touches nothing but the alert store, and
    there it either changes nothing or does what [addEmergencyAlert] does
    with one alert of status "pending" stamped with the clock reading: no
    stored alert is removed or changed.  So the list [getEmergencyAlerts]
    gives for any other status is the same before and after, and the pending
    list and the full list grow by that alert at the end. *)
Theorem notify_only_adds_pending (c : Clock)
    (patientName emergencyDetails contactPhone : string) (disk : Db) :
  let disk' :=
    snd (notifyStaffEmergency Date_parse c patientName emergencyDetails contactPhone disk) in
  patients disk' = patients disk
  /\ appointments disk' = appointments disk
  /\ availableSlots disk' = availableSlots disk
  /\ (disk' = disk
      \/ exists alert,
           disk' = DatabaseManager.addEmergencyAlert alert disk
           /\ e_status alert = "pending"
           /\ e_alertedAt alert = c_iso c
           /\ validatePhoneNumber contactPhone = Valid (e_contactPhone alert)
           /\ DatabaseManager.getEmergencyAlerts "pending" disk'
              = DatabaseManager.getEmergencyAlerts "pending" disk ++ [alert]
           /\ DatabaseManager.getEmergencyAlerts "" disk'
              = DatabaseManager.getEmergencyAlerts "" disk ++ [alert])
  /\ (forall status, status <> "" -> status <> "pending" ->
        DatabaseManager.getEmergencyAlerts status disk'
        = DatabaseManager.getEmergencyAlerts status disk).
Proof.
  intros disk'.
  assert (H : disk' = disk
              \/ exists alert,
                   disk' = DatabaseManager.addEmergencyAlert alert disk
                   /\ e_status alert = "pending" /\ e_alertedAt alert = c_iso c
                   /\ validatePhoneNumber contactPhone = Valid (e_contactPhone alert)).
  { unfold disk', notifyStaffEmergency, notifyStaffEmergency_body, readDatabase.
    destruct (validatePatientName patientName); [now left|].
    destruct (validatePhoneNumber contactPhone); [now left|].
    destruct (String.length (Js.trim emergencyDetails) <? 5)%nat; [now left|].
    destruct (existsb _ (emergencyAlerts disk)); [now left|].
    right. eexists. split; [reflexivity|]. repeat split. }
  destruct H as [->|(alert & -> & Hst & Hat & Hph)].
  - repeat split; auto.
  - split; [reflexivity|]. split; [reflexivity|]. split; [reflexivity|]. split.
    + right. exists alert. split; [reflexivity|]. split; [exact Hst|].
      split; [exact Hat|]. split; [exact Hph|].
      rewrite !getEmergencyAlerts_added, Hst. split; reflexivity.
    + intros status Hne Hnp. rewrite getEmergencyAlerts_added, Hst.
      destruct (String.eqb_spec status "") as [E|_]; [contradiction|].
      destruct (String.eqb_spec "pending" status) as [E|_]; [now symmetry in E|].
      simpl. apply app_nil_r.
Qed.

End AlertsGrow.

Lemma notify_only_adds_pending_witness :
  DatabaseManager.getEmergencyAlerts "resolved"
    (snd (notifyStaffEmergency IsoDate.parse Sample.clock "John Doe"
            "Severe toothache and swelling" "(123) 456-7890" Sample.fresh))
  = DatabaseManager.getEmergencyAlerts "resolved" Sample.fresh
  /\ length (emergencyAlerts
               (snd (notifyStaffEmergency IsoDate.parse Sample.clock "John Doe"
                       "Severe toothache and swelling" "(123) 456-7890" Sample.fresh)))
     = S (length (emergencyAlerts Sample.fresh)).
Proof.
  destruct (notify_only_adds_pending IsoDate.parse Sample.clock "John Doe"
              "Severe toothache and swelling" "(123) 456-7890" Sample.fresh)
    as (_ & _ & _ & _ & Hother).
  split; [apply Hother; discriminate | reflexivity].
Defined.

Lemma filter_roles_disjoint (logs : list LogEntry) :
  length (filter (DatabaseManager.hasRole "user") logs)
  + length (filter (DatabaseManager.hasRole "assistant") logs)
  + length (filter DatabaseManager.isErrorLog logs)
  <= length logs.
Proof.
  induction logs as [|l r IH]; simpl; [lia|].
  unfold DatabaseManager.isErrorLog, DatabaseManager.hasRole in *.
  destruct (String.eqb_spec (l_role l) "user") as [E|_];
    [rewrite E; simpl; lia|].
  destruct (String.eqb_spec (l_role l) "assistant") as [E|_];
    [rewrite E; simpl; lia|].
  destruct ((l_role l =? "system")%string && _); simpl; lia.
Qed.

Lemma last_map_Some_app {A : Type} (l : list A) (x : A) :
  last (map Some (l ++ [x])) None = Some x.
Proof.
  induction l as [|y r IH]; simpl; [reflexivity|].
  rewrite IH. destruct (map Some (r ++ [x])) eqn:E; [|reflexivity].
  destruct r; discriminate E.
Qed.

(** X16.  [getConversationSummary] answers [null] exactly when no log entry
    carries the conversation identifier.  Otherwise the total is the number
    of entries of that conversation, the user, assistant and error counts
    are counts of disjoint entries and so add up to at most the total, and
    the error flag says whether the error count is positive.  Entries of
    other conversations do not change the summary, and after
    [addConversationLog] of an entry of this conversation the total is one
    more and the end time and last message are those of the new entry. *)
Theorem conversation_summary (conversationId : string) (logs : list LogEntry) :
  (DatabaseManager.getConversationSummary conversationId logs = None
   <-> forall l, In l logs -> l_conversationId l <> conversationId)
  /\ (forall s,
        DatabaseManager.getConversationSummary conversationId logs = Some s ->
        cs_totalMessages s
        = length (DatabaseManager.getConversationLogs conversationId logs)
        /\ 1 <= cs_totalMessages s
        /\ cs_userMessages s + cs_assistantMessages s + cs_errors s <= cs_totalMessages s
        /\ (cs_hasErrors s = true <-> 0 < cs_errors s))
  /\ (forall other,
        l_conversationId other <> conversationId ->
        DatabaseManager.getConversationSummary conversationId
          (DatabaseManager.addConversationLog other logs)
        = DatabaseManager.getConversationSummary conversationId logs)
  /\ (forall entry,
        l_conversationId entry = conversationId ->
        exists s,
          DatabaseManager.getConversationSummary conversationId
            (DatabaseManager.addConversationLog entry logs) = Some s
          /\ cs_totalMessages s
             = S (length (DatabaseManager.getConversationLogs conversationId logs))
          /\ cs_endTime s = Some (l_timestamp entry)
          /\ cs_lastMessage s = l_message entry).
Proof.
  unfold DatabaseManager.getConversationSummary, DatabaseManager.addConversationLog.
  split; [|split; [|split]].
  - unfold DatabaseManager.getConversationLogs.
    destruct (length (filter _ logs) =? 0)%nat eqn:E.
    + apply Nat.eqb_eq, length_zero_iff_nil in E. split; [|reflexivity].
      intros _ l Hin Heq.
      assert (H : In l (filter (fun log => (l_conversationId log =? conversationId)%string)
                          logs))
        by (apply filter_In; split; [exact Hin | now apply String.eqb_eq]).
      rewrite E in H. destruct H.
    + split; [discriminate|]. intros H. exfalso. apply Nat.eqb_neq in E. apply E.
      apply length_zero_iff_nil. clear E.
      induction logs as [|l r IH]; simpl in *; [reflexivity|].
      destruct (String.eqb_spec (l_conversationId l) conversationId) as [Heq|_].
      * exfalso. exact (H l (or_introl eq_refl) Heq).
      * apply IH. intros x Hx. apply H. now right.
  - intros s.
    destruct (length (DatabaseManager.getConversationLogs conversationId logs) =? 0)%nat
      eqn:E; [discriminate|].
    intros [= <-]. cbn. apply Nat.eqb_neq in E.
    split; [reflexivity|]. split; [lia|]. split; [apply filter_roles_disjoint|].
    destruct (length (filter DatabaseManager.isErrorLog
                        (DatabaseManager.getConversationLogs conversationId logs)));
      split; intros H; try discriminate H; lia.
  - intros other Hne. unfold DatabaseManager.getConversationLogs.
    rewrite filter_app. simpl.
    destruct (String.eqb_spec (l_conversationId other) conversationId) as [E|_];
      [contradiction|]. now rewrite app_nil_r.
  - intros entry Heq. unfold DatabaseManager.getConversationLogs.
    rewrite filter_app. simpl. rewrite Heq, String.eqb_refl.
    set (mine := filter (fun log => (l_conversationId log =? conversationId)%string) logs).
    replace (length (mine ++ [entry]) =? 0)%nat with false
      by (rewrite length_app, Nat.add_1_r; reflexivity).
    eexists. split; [reflexivity|].
    cbn [cs_totalMessages cs_endTime cs_lastMessage].
    rewrite length_app, last_map_Some_app, Nat.add_1_r. auto.
Qed.

Lemma conversation_summary_witness :
  exists s,
    DatabaseManager.getConversationSummary "c1"
      (DatabaseManager.addConversationLog
         (mkLogEntry "c1" "system" (Some "ERROR: storage") "2025-10-19T12:05:00.000Z")
         [mkLogEntry "c1" "user" (Some "hello") "2025-10-19T12:00:00.000Z";
          mkLogEntry "c2" "user" (Some "hi") "2025-10-19T12:01:00.000Z"])
    = Some s
    /\ cs_totalMessages s = 2
    /\ cs_endTime s = Some "2025-10-19T12:05:00.000Z".
Proof.
  destruct (conversation_summary "c1"
              [mkLogEntry "c1" "user" (Some "hello") "2025-10-19T12:00:00.000Z";
               mkLogEntry "c2" "user" (Some "hi") "2025-10-19T12:01:00.000Z"])
    as (_ & _ & _ & Hadd).
  destruct (Hadd (mkLogEntry "c1" "system" (Some "ERROR: storage")
                    "2025-10-19T12:05:00.000Z") eq_refl)
    as (s & Hs & Htot & Hend & _).
  exists s. split; [exact Hs|]. split; [exact Htot | exact Hend].
Defined.

(* ================================================================== *)
(** ** Listing open slots *)
(* ================================================================== *)

Lemma inPreferredTimes_single (p time : string) :
  inPreferredTimes [p] time =
  match hourOfLabel time with
  | None => false
  | Some h =>
      ((p =? "morning")%string && (h <? 12)%Z)
      || ((p =? "afternoon")%string && (12 <=? h)%Z && (h <? 17)%Z)
      || ((p =? "evening")%string && (17 <=? h)%Z)
  end.
Proof.
  unfold inPreferredTimes. destruct (hourOfLabel time) as [h|]; [|reflexivity].
  unfold Js.includes. cbn [existsb]. rewrite !orb_false_r.
  now rewrite (String.eqb_sym "morning"), (String.eqb_sym "afternoon"),
    (String.eqb_sym "evening").
Qed.

(** X17.  The time-of-day test of the listing.  A list of preferences acts
    as the union of its entries.  A label whose hour reads as a number falls
    in exactly one of morning (before 12), afternoon (12 up to 17) and
    evening (17 on); a label whose text before the colon does not start with
    a number falls in none, so the filter drops it whatever is preferred. *)
Theorem time_of_day_classes (time : string) :
  (forall preferredTimes,
     inPreferredTimes preferredTimes time
     = existsb (fun p => inPreferredTimes [p] time) preferredTimes)
  /\ (forall h, hourOfLabel time = Some h ->
        inPreferredTimes ["morning"] time = (h <? 12)%Z
        /\ inPreferredTimes ["afternoon"] time = ((12 <=? h)%Z && (h <? 17)%Z)
        /\ inPreferredTimes ["evening"] time = (17 <=? h)%Z
        /\ ((inPreferredTimes ["morning"] time = true
             /\ inPreferredTimes ["afternoon"] time = false
             /\ inPreferredTimes ["evening"] time = false)
            \/ (inPreferredTimes ["morning"] time = false
                /\ inPreferredTimes ["afternoon"] time = true
                /\ inPreferredTimes ["evening"] time = false)
            \/ (inPreferredTimes ["morning"] time = false
                /\ inPreferredTimes ["afternoon"] time = false
                /\ inPreferredTimes ["evening"] time = true)))
  /\ (hourOfLabel time = None ->
      forall preferredTimes, inPreferredTimes preferredTimes time = false).
Proof.
  split; [|split].
  - intros preferredTimes.
    induction preferredTimes as [|p r IH].
    + unfold inPreferredTimes. now destruct (hourOfLabel time).
    + simpl existsb. rewrite <- IH, inPreferredTimes_single.
      unfold inPreferredTimes, Js.includes. cbn [existsb].
      destruct (hourOfLabel time) as [h|]; [|reflexivity].
      rewrite (String.eqb_sym "morning"), (String.eqb_sym "afternoon"),
        (String.eqb_sym "evening").
      destruct (p =? "morning")%string, (p =? "afternoon")%string,
        (p =? "evening")%string,
        (existsb (String.eqb "morning") r), (existsb (String.eqb "afternoon") r),
        (existsb (String.eqb "evening") r),
        (h <? 12)%Z, (12 <=? h)%Z, (h <? 17)%Z, (17 <=? h)%Z; reflexivity.
  - intros h Hh. rewrite !inPreferredTimes_single, Hh.
    replace ("morning" =? "morning")%string with true by reflexivity.
    replace ("morning" =? "afternoon")%string with false by reflexivity.
    replace ("morning" =? "evening")%string with false by reflexivity.
    replace ("afternoon" =? "morning")%string with false by reflexivity.
    replace ("afternoon" =? "afternoon")%string with true by reflexivity.
    replace ("afternoon" =? "evening")%string with false by reflexivity.
    replace ("evening" =? "morning")%string with false by reflexivity.
    replace ("evening" =? "afternoon")%string with false by reflexivity.
    replace ("evening" =? "evening")%string with true by reflexivity.
    cbn [andb orb]. rewrite !orb_false_r.
    split; [reflexivity|]. split; [reflexivity|]. split; [reflexivity|].
    destruct (Z.ltb_spec h 12), (Z.leb_spec 12 h), (Z.ltb_spec h 17), (Z.leb_spec 17 h);
      simpl; try lia; auto 6.
  - intros Hn preferredTimes. unfold inPreferredTimes. now rewrite Hn.
Qed.

Lemma time_of_day_classes_witness :
  inPreferredTimes ["morning"] "12:15 AM" = true
  /\ inPreferredTimes ["afternoon"] "12:30 PM" = true
  /\ inPreferredTimes ["evening"] "5:00 PM" = true
  /\ inPreferredTimes ["morning"; "afternoon"; "evening"] "noon" = false.
Proof.
  destruct (time_of_day_classes "noon") as (_ & _ & Hnone).
  split; [reflexivity|]. split; [reflexivity|]. split; [reflexivity|].
  apply Hnone. reflexivity.
Defined.

Lemma findDay_NoDup (days : list SlotDay) (s : SlotDay) :
  NoDup (map s_date days) -> In s days -> findDay (s_date s) days = Some s.
Proof.
  unfold findDay. induction days as [|d r IH]; simpl; [tauto|].
  intros Hnd [->|Hin].
  - now rewrite String.eqb_refl.
  - inversion Hnd as [|? ? Hnot Hnd']; subst.
    destruct (String.eqb_spec (s_date d) (s_date s)) as [E|_]; [|now apply IH].
    exfalso. apply Hnot. rewrite E. now apply in_map.
Qed.

(** A booking for a stored patient, under the stored name, of a time the
    date offers succeeds. *)
Lemma bookAppointment_open (c : Clock)
    (patientId patientName date time type emergencyDetails : string) (disk : Db)
    (patient : Patient) (l : list string) :
  find (fun p => (p_id p =? patientId)%string) (patients disk) = Some patient ->
  p_fullName patient = patientName ->
  openSlots date (availableSlots disk) = Some l ->
  In time l ->
  exists appointment disk',
    bookAppointment c patientId patientName date time type emergencyDetails disk
    = (OkAppointment appointment, disk')
    /\ a_date appointment = date /\ a_time appointment = time
    /\ a_patientId appointment = patientId.
Proof.
  intros Hp Hn Hl Hin.
  unfold bookAppointment, bookAppointment_body, readDatabase.
  rewrite Hp, Hn, String.eqb_refl. simpl negb. cbv iota.
  destruct (openSlots_overwrite_loop date
              (filter (sameDayOf patientId date) (appointments disk))
              (availableSlots disk) l Hl) as (l' & Hl' & Hin' & _).
  change (openSlots date (availableSlots (overwriteSameDay c patientId date disk))
          = Some l') in Hl'.
  destruct (findDay_openSlots _ _ _ Hl') as (d & Hd & Hsl). rewrite Hd.
  replace (Js.includes time (s_slots d)) with true
    by (symmetry; apply includes_In; rewrite Hsl; apply Hin'; now left).
  simpl. eexists. eexists. split; [reflexivity|]. repeat split.
Qed.

Section Listing.

Variable Date_parse : string -> option Z.



End Listing.



(* ================================================================== *)
(** ** The session manager *)
(* ================================================================== *)

Section SessionFacts.

Variables Context Details : Type.
Variable Date_parse : string -> option Z.

Local Abbreviation Session := (SessionManager.Session Context Details).
Local Abbreviation Cache := (SessionManager.Cache Context Details).
Local Abbreviation getSession := (SessionManager.getSession Context Details).
Local Abbreviation cacheSet := (SessionManager.cacheSet Context Details).
Local Abbreviation setSession := (SessionManager.setSession Context Details).
Local Abbreviation setPendingAppointment := (SessionManager.setPendingAppointment Context Details).
Local Abbreviation getPendingAppointment := (SessionManager.getPendingAppointment Context Details).
Local Abbreviation clearPendingAppointment :=
  (SessionManager.clearPendingAppointment Context Details).
Local Abbreviation setSessionPatient := (SessionManager.setSessionPatient Context Details).
Local Abbreviation getSessionPatient := (SessionManager.getSessionPatient Context Details).
Local Abbreviation updateSessionContext := (SessionManager.updateSessionContext Context Details).
Local Abbreviation cleanupOldSessions :=
  (SessionManager.cleanupOldSessions Context Details Date_parse).
Local Abbreviation getSessionStats := (SessionManager.getSessionStats Context Details Date_parse).
Local Abbreviation updatedBefore := (SessionManager.updatedBefore Context Details Date_parse).
Local Abbreviation updatedAfter := (SessionManager.updatedAfter Context Details Date_parse).

Lemma getSession_cacheSet_same (id : string) (v : Session) (cache : Cache) :
  getSession id (cacheSet id v cache) = Some v.
Proof.
  unfold SessionManager.getSession.
  induction cache as [|kv r IH]; simpl; [now rewrite String.eqb_refl|].
  destruct (fst kv =? id)%string eqn:E; simpl; [now rewrite String.eqb_refl|].
  now rewrite E.
Qed.

Lemma getSession_cacheSet_other (id other : string) (v : Session) (cache : Cache) :
  other <> id -> getSession other (cacheSet id v cache) = getSession other cache.
Proof.
  intros Hne. unfold SessionManager.getSession.
  induction cache as [|kv r IH]; simpl.
  - destruct (String.eqb_spec id other); [congruence | reflexivity].
  - destruct (String.eqb_spec (fst kv) id) as [E|_]; simpl.
    + destruct (String.eqb_spec id other); [congruence|].
      destruct (String.eqb_spec (fst kv) other); [congruence | reflexivity].
    + destruct (fst kv =? other)%string; [reflexivity | exact IH].
Qed.

Lemma length_cacheSet (id : string) (v : Session) (cache : Cache) :
  length (cacheSet id v cache)
  = match getSession id cache with Some _ => length cache | None => S (length cache) end.
Proof.
  unfold SessionManager.getSession.
  induction cache as [|kv r IH]; simpl; [reflexivity|].
  destruct (fst kv =? id)%string; simpl; [reflexivity|]. rewrite IH.
  now destruct (find _ r).
Qed.


(** X21.  The patient of a session: [getSessionPatient] after
    [setSessionPatient] gives the identifier and name back; it gives [null]
    for an unknown conversation and a pair of undefined fields for a session
    that has none yet.  Storing the patient keeps the session's pending
    appointment, and storing a pending appointment or the conversation
    history keeps the patient. *)
Theorem session_patient_round_trip (c c2 : Clock) (id patient name : string)
    (details : Details) (ctx : Context) (cache : Cache) :
  let cache' := setSessionPatient c id patient name cache in
  getSessionPatient id cache' = Some (Some patient, Some name)
  /\ getPendingAppointment id cache' = getPendingAppointment id cache
  /\ getSessionPatient id (setPendingAppointment c2 id details cache')
     = Some (Some patient, Some name)
  /\ getSessionPatient id (updateSessionContext c2 id ctx cache')
     = Some (Some patient, Some name)
  /\ (forall other, other <> id -> getSession other cache' = getSession other cache)
  /\ (getSession id cache = None ->
      getSessionPatient id cache = None
      /\ getSessionPatient id (setPendingAppointment c2 id details cache)
         = Some (None, None)).
Proof.
  intros cache'.
  assert (Hs' : exists s', getSession id cache' = Some s'
                  /\ SessionManager.patientId _ _ s' = Some patient
                  /\ SessionManager.patientName _ _ s' = Some name
                  /\ SessionManager.pendingAppointment _ _ s'
                     = getPendingAppointment id cache).
  { unfold cache', SessionManager.setSessionPatient, SessionManager.setSession.
    rewrite getSession_cacheSet_same. eexists. split; [reflexivity|].
    split; [reflexivity|]. split; [reflexivity|].
    unfold SessionManager.sessionOrNew, SessionManager.getPendingAppointment.
    now destruct (getSession id cache). }
  destruct Hs' as (s' & Hs' & Hid & Hname & Hpend).
  split; [|split; [|split; [|split; [|split]]]].
  - unfold SessionManager.getSessionPatient. now rewrite Hs', Hid, Hname.
  - unfold SessionManager.getPendingAppointment at 1. now rewrite Hs'.
  - unfold SessionManager.getSessionPatient, SessionManager.setPendingAppointment,
      SessionManager.setSession.
    rewrite getSession_cacheSet_same. unfold SessionManager.sessionOrNew.
    rewrite Hs'. simpl. now rewrite Hid, Hname.
  - unfold SessionManager.getSessionPatient, SessionManager.updateSessionContext,
      SessionManager.setSession.
    rewrite getSession_cacheSet_same. unfold SessionManager.sessionOrNew.
    rewrite Hs'. simpl. now rewrite Hid, Hname.
  - intros other Hne.
    unfold cache', SessionManager.setSessionPatient, SessionManager.setSession.
    now apply getSession_cacheSet_other.
  - intros Hn. split.
    + unfold SessionManager.getSessionPatient. now rewrite Hn.
    + unfold SessionManager.getSessionPatient, SessionManager.setPendingAppointment,
        SessionManager.setSession.
      rewrite getSession_cacheSet_same. unfold SessionManager.sessionOrNew.
      now rewrite Hn.
Qed.

Lemma updatedAfter_mono (limit limit' : Z) (s : Session) :
  (limit' <= limit)%Z -> updatedAfter limit s = true -> updatedAfter limit' s = true.
Proof.
  unfold SessionManager.updatedAfter. intros Hle.
  destruct (SessionManager.lastUpdated _ _ s) as [text|]; [|discriminate].
  destruct (Date_parse text) as [t|]; [|discriminate].
  intros H. apply Z.ltb_lt in H. apply Z.ltb_lt. lia.
Qed.

Lemma length_filter_le {A : Type} (p q : A -> bool) (l : list A) :
  (forall x, p x = true -> q x = true) ->
  length (filter p l) <= length (filter q l) /\ length (filter q l) <= length l.
Proof.
  intros H. induction l as [|x r [IH1 IH2]]; simpl; [lia|].
  destruct (p x) eqn:E.
  - rewrite (H x E). simpl. lia.
  - destruct (q x); simpl; lia.
Qed.

Lemma filter_idem {A : Type} (p : A -> bool) (l : list A) :
  filter p (filter p l) = filter p l.
Proof.
  induction l as [|x r IH]; simpl; [reflexivity|].
  destruct (p x) eqn:E; simpl; [now rewrite E, IH | exact IH].
Qed.


End SessionFacts.


Lemma session_patient_round_trip_witness :
  SessionManager.getSessionPatient unit string "c1"
    (SessionManager.setPendingAppointment unit string Sample.clock "c1" "cleaning" [])
  = Some (None, None).
Proof.
  destruct (session_patient_round_trip unit string Sample.clock Sample.clock "c1" "p001"
              "John Doe" "cleaning" tt []) as (_ & _ & _ & _ & _ & Hnone).
  destruct (Hnone eq_refl) as [_ H]. exact H.
Defined.


(* ================================================================== *)
(** ** Search *)
(* ================================================================== *)

Lemma searchByName_cases (disk : Db) (byPhone : option Patient) (name : string) :
  match searchByName disk byPhone name with
  | SearchFound p appts family =>
      appts = filter (fun a => (a_patientId a =? p_id p)%string && isActive a)
                (appointments disk)
      /\ family = match p_familyMembers p with Some l => l | None => [] end
      /\ (byPhone = Some p
          \/ (byPhone = None /\ name <> "" /\ In p (patients disk)
              /\ (Js.includesStr (Js.toLowerCase name) (Js.toLowerCase (p_fullName p))
                  || Js.includesStr (Js.toLowerCase (p_fullName p)) (Js.toLowerCase name))
                 = true))
  | SearchMissing _ => byPhone = None
  | SearchInvalid _ => False
  end.
Proof.
  unfold searchByName. destruct byPhone as [p|].
  - split; [reflexivity|]. split; [reflexivity|]. now left.
  - destruct (String.eqb_spec name "") as [->|Hne]; [reflexivity|].
    destruct (find _ (patients disk)) as [p|] eqn:Hf; [|reflexivity].
    apply find_some in Hf. destruct Hf as [Hin Hm].
    split; [reflexivity|]. split; [reflexivity|]. right. auto.
Qed.

(** X23.  What [searchPatient] reports.  A found patient is a stored one,
    and the appointments reported are exactly that patient's appointments
    that are not cancelled, in ledger order.  A supplied phone that
    normalises to the phone of a stored patient decides the answer: the
    first such patient is found and the name is not looked at.  The name is
    only used when the phone finds nobody, and then matches by containment
    either way round up to letter case.  Without phone and name nothing is
    found. *)
Theorem search_reports (phone name : string) (disk : Db) :
  (forall p appts family,
     searchPatient phone name disk = SearchFound p appts family ->
     In p (patients disk)
     /\ appts = filter (fun a => (a_patientId a =? p_id p)%string && isActive a)
                  (appointments disk)
     /\ (forall a, In a appts ->
           In a (appointments disk) /\ a_patientId a = p_id p /\ a_status a <> "cancelled")
     /\ ((phone <> "" /\ normalizePhone (p_phone p) = normalizePhone phone)
         \/ (name <> ""
             /\ (Js.includesStr (Js.toLowerCase name) (Js.toLowerCase (p_fullName p))
                 || Js.includesStr (Js.toLowerCase (p_fullName p)) (Js.toLowerCase name))
                = true)))
  /\ (forall n p,
        validatePhoneNumber phone = Valid n ->
        findPatientByPhone n disk = Some p ->
        exists appts family,
          searchPatient phone name disk = SearchFound p appts family
          /\ normalizePhone (p_phone p) = n)
  /\ (phone = "" -> name = "" -> exists message,
        searchPatient phone name disk = SearchMissing message).
Proof.
  split; [|split].
  - intros p appts family Hs.
    assert (Hby : exists byPhone,
              searchByName disk byPhone name = SearchFound p appts family
              /\ (byPhone = None
                  \/ (byPhone = Some p /\ phone <> ""
                      /\ In p (patients disk)
                      /\ normalizePhone (p_phone p) = normalizePhone phone))).
    { unfold searchPatient in Hs.
      destruct (String.eqb_spec phone "") as [E|Hne]; [exists None; auto|].
      destruct (validatePhoneNumber phone) as [|n] eqn:Hv; [discriminate|].
      destruct (validatePhoneNumber_valid _ _ Hv) as [Hn Hl].
      assert (Hfix : normalizePhone n = n).
      { apply normalizePhone_fixed; [exact Hl|]. rewrite Hn.
        apply normalizePhone_digits. }
      destruct (findPatientByPhone n disk) as [q|] eqn:Hf.
      - exists (Some q). split; [exact Hs|]. right.
        rewrite searchByName_found in Hs. injection Hs as -> _ _.
        unfold findPatientByPhone in Hf. apply find_some in Hf.
        destruct Hf as [Hin Hq]. apply String.eqb_eq in Hq.
        repeat split; auto. now rewrite Hq, Hfix.
      - exists None. auto. }
    destruct Hby as (byPhone & Hb & Hcase).
    pose proof (searchByName_cases disk byPhone name) as Hc. rewrite Hb in Hc.
    destruct Hc as (Happts & _ & Hwho).
    assert (Hin : In p (patients disk)).
    { destruct Hcase as [->|(-> & _ & Hin & _)]; [|exact Hin].
      destruct Hwho as [H|(_ & _ & Hin & _)]; [discriminate | exact Hin]. }
    split; [exact Hin|]. split; [exact Happts|]. split.
    + intros a Ha. rewrite Happts in Ha. apply filter_In in Ha.
      destruct Ha as [Ha Hp]. apply andb_true_iff in Hp. destruct Hp as [Hid Hact].
      apply String.eqb_eq in Hid. split; [exact Ha|]. split; [exact Hid|].
      unfold isActive in Hact. apply negb_true_iff, String.eqb_neq in Hact. exact Hact.
    + destruct Hcase as [->|(-> & Hne & _ & Hph)]; [|left; auto].
      destruct Hwho as [H|(_ & Hnm & _ & Hm)]; [discriminate | right; auto].
  - intros n p Hv Hf. rewrite (searchPatient_valid_phone _ _ _ _ Hv), Hf.
    rewrite searchByName_found. eexists. eexists. split; [reflexivity|].
    unfold findPatientByPhone in Hf. apply find_some in Hf. destruct Hf as [_ Hq].
    apply String.eqb_eq in Hq. rewrite Hq.
    destruct (validatePhoneNumber_valid _ _ Hv) as [Hn Hl].
    apply normalizePhone_fixed; [exact Hl|]. rewrite Hn. apply normalizePhone_digits.
  - intros -> ->. eexists. reflexivity.
Qed.

Lemma search_reports_witness :
  exists appts family,
    searchPatient "(123) 456-7890" "Mary" Sample.johnBooked
    = SearchFound Sample.john appts family
    /\ map a_id appts = ["a001"].
Proof.
  destruct (search_reports "(123) 456-7890" "Mary" Sample.johnBooked) as (_ & Hphone & _).
  destruct (Hphone "1234567890" Sample.john) as (appts & family & Hs & _).
  - reflexivity.
  - reflexivity.
  - exists appts, family. split; [exact Hs|].
    injection Hs as <- _. reflexivity.
Defined.

(* ================================================================== *)
(** ** Cancel, then book *)
(* ================================================================== *)

(** X24.  A cancelled appointment frees its slot for anyone: after
    [cancelAppointment] succeeds on an appointment whose date has an entry in
    the slot store, a booking of that date and time for any stored patient
    under the stored name succeeds. *)
Theorem cancel_then_book (c c2 : Clock) (appointmentId : string) (disk : Db)
    (a : Appointment) (l : list string) (patient : Patient)
    (type emergencyDetails : string) :
  find (hasId appointmentId) (appointments disk) = Some a ->
  a_status a <> "cancelled" ->
  openSlots (a_date a) (availableSlots disk) = Some l ->
  find (fun p => (p_id p =? p_id patient)%string) (patients disk) = Some patient ->
  exists summary disk1 appointment disk2,
    cancelAppointment c appointmentId disk
    = (OkCancelled "Appointment cancelled successfully" summary, disk1)
    /\ bookAppointment c2 (p_id patient) (p_fullName patient) (a_date a) (a_time a) type
         emergencyDetails disk1
       = (OkAppointment appointment, disk2)
    /\ a_date appointment = a_date a /\ a_time appointment = a_time a
    /\ a_patientId appointment = p_id patient
    /\ a_status appointment = "scheduled".
Proof.
  intros Hf Hs Hl Hp.
  unfold cancelAppointment, cancelAppointment_body, readDatabase. rewrite Hf.
  destruct (String.eqb_spec (a_status a) "cancelled") as [E|_]; [contradiction|].
  unfold commit, writeDatabase. cbn [patients appointments availableSlots emergencyAlerts].
  eexists. eexists.
  match goal with
  | |- exists appointment disk2, (_, ?d1) = _ /\ _ =>
      destruct (bookAppointment_open c2 (p_id patient) (p_fullName patient) (a_date a)
                  (a_time a) type emergencyDetails d1 patient
                  (pushSorted (a_time a) l)) as (appointment & disk2 & Hb & Hd & Ht & Hi)
  end.
  - exact Hp.
  - reflexivity.
  - cbn [availableSlots]. now rewrite openSlots_release_same, Hl.
  - apply pushSorted_has.
  - exists appointment, disk2. split; [reflexivity|]. split; [exact Hb|].
    split; [exact Hd|]. split; [exact Ht|]. split; [exact Hi|].
    revert Hb. unfold bookAppointment, bookAppointment_body, readDatabase.
    repeat match goal with
           | |- context [match ?x with _ => _ end] => destruct x
           | |- context [if ?x then _ else _] => destruct x
           end; simpl; intros [= <- _]; reflexivity.
Qed.

Lemma cancel_then_book_witness :
  exists summary disk1 appointment disk2,
    cancelAppointment Sample.clock "a001" Sample.johnBooked
    = (OkCancelled "Appointment cancelled successfully" summary, disk1)
    /\ bookAppointment Sample.clockLater "p002" "Mary Major" "2025-10-25" "2:00 PM"
         "Exam" "" disk1
       = (OkAppointment appointment, disk2).
Proof.
  destruct (cancel_then_book Sample.clock Sample.clockLater "a001" Sample.johnBooked
              (Sample.visit "a001" "p001" "John Doe" "2025-10-25" "2:00 PM" "scheduled")
              ["10:00 AM"; "9:00 AM"] Sample.mary "Exam" "")
    as (summary & disk1 & appointment & disk2 & Hc & Hb & _).
  - reflexivity.
  - discriminate.
  - reflexivity.
  - reflexivity.
  - exists summary, disk1, appointment, disk2. split; [exact Hc | exact Hb].
Defined.

(* ================================================================== *)
(** ** The date of birth *)
(* ================================================================== *)

Lemma string_length_app (a b : string) :
  String.length (a ++ b) = String.length a + String.length b.
Proof. induction a as [|c r IH]; simpl; [reflexivity | now rewrite IH]. Qed.

Lemma allChars_app (p : ascii -> bool) (a b : string) :
  Js.allChars p (a ++ b) = Js.allChars p a && Js.allChars p b.
Proof.
  induction a as [|c r IH]; simpl; [reflexivity|].
  rewrite IH. now destruct (p c).
Qed.

Lemma substring_app_skip (a b : string) (n k : nat) :
  substring (String.length a + n) k (a ++ b) = substring n k b.
Proof. induction a as [|c r IH]; simpl; [reflexivity | exact IH]. Qed.

Lemma substring_app_prefix (a b : string) :
  substring 0 (String.length a) (a ++ b) = a.
Proof.
  induction a as [|c r IH]; simpl.
  - now destruct b.
  - now rewrite IH.
Qed.

Lemma substring_whole (a : string) :
  substring 0 (String.length a) a = a.
Proof.
  induction a as [|c r IH]; simpl; [reflexivity | now rewrite IH].
Qed.

(** Below [10 ^ k] a number printed on [k] digits reads back as itself;
    checked by running the printer and the reader on every such number. *)
Lemma render_two (n : nat) :
  n < 100 ->
  String.length (Js.padStart0 2 (Js.String_nat n)) = 2
  /\ Js.allChars Js.isDigit (Js.padStart0 2 (Js.String_nat n)) = true
  /\ Js.digitsValue 0 (Js.padStart0 2 (Js.String_nat n)) = n.
Proof.
  intros Hn.
  assert (Hall : forallb (fun n =>
                    let s := Js.padStart0 2 (Js.String_nat n) in
                    (String.length s =? 2)%nat && Js.allChars Js.isDigit s
                    && (Js.digitsValue 0 s =? n)%nat) (seq 0 100) = true)
    by (vm_compute; reflexivity).
  rewrite forallb_forall in Hall.
  specialize (Hall n). cbv zeta in Hall.
  destruct (andb_prop _ _ (Hall ltac:(apply in_seq; lia))) as [H12 H3].
  destruct (andb_prop _ _ H12) as [H1 H2].
  apply Nat.eqb_eq in H1, H3. auto.
Qed.

Lemma render_four (n : nat) :
  n < 100 * 100 ->
  String.length (Js.padStart0 4 (Js.String_nat n)) = 4
  /\ Js.allChars Js.isDigit (Js.padStart0 4 (Js.String_nat n)) = true
  /\ Js.digitsValue 0 (Js.padStart0 4 (Js.String_nat n)) = n.
Proof.
  intros Hn.
  assert (Hall : forallb (fun n =>
                    let s := Js.padStart0 4 (Js.String_nat n) in
                    (String.length s =? 4)%nat && Js.allChars Js.isDigit s
                    && (Js.digitsValue 0 s =? n)%nat) (seq 0 (100 * 100)) = true)
    by (vm_compute; reflexivity).
  rewrite forallb_forall in Hall.
  specialize (Hall n). cbv zeta in Hall.
  destruct (andb_prop _ _ (Hall ltac:(apply in_seq; lia))) as [H12 H3].
  destruct (andb_prop _ _ H12) as [H1 H2].
  apply Nat.eqb_eq in H1, H3. auto.
Qed.

Lemma validateDateOfBirth_fields (year : nat) (mm dd yyyy : string) :
  String.length mm = 2 -> String.length dd = 2 -> String.length yyyy = 4 ->
  Js.allChars Js.isDigit mm = true -> Js.allChars Js.isDigit dd = true ->
  Js.allChars Js.isDigit yyyy = true ->
  1 <= Js.digitsValue 0 mm <= 12 ->
  1 <= Js.digitsValue 0 dd <= 31 ->
  1900 <= Js.digitsValue 0 yyyy <= year ->
  validateDateOfBirth year (mm ++ dd ++ yyyy) = Valid (mm ++ dd ++ yyyy).
Proof.
  intros Lm Ld Ly Dm Dd Dy Hm Hd Hy. unfold validateDateOfBirth.
  assert (Hlen : String.length (mm ++ dd ++ yyyy) = 8)
    by (rewrite !string_length_app; lia).
  destruct (String.eqb_spec (mm ++ dd ++ yyyy) "") as [E|_];
    [rewrite E in Hlen; discriminate Hlen|].
  rewrite Hlen, !allChars_app, Dm, Dd, Dy. cbn [Nat.eqb andb negb].
  replace (substring 0 2 (mm ++ dd ++ yyyy)) with mm
    by (rewrite <- Lm at 1; now rewrite substring_app_prefix).
  replace (substring 2 2 (mm ++ dd ++ yyyy)) with dd.
  2:{ replace 2 with (String.length mm + 0) at 1 by lia.
      rewrite substring_app_skip. rewrite <- Ld at 1.
      now rewrite substring_app_prefix. }
  replace (substring 4 4 (mm ++ dd ++ yyyy)) with yyyy.
  2:{ replace 4 with (String.length mm + 2) at 1 by lia.
      rewrite substring_app_skip.
      replace 2 with (String.length dd + 0) at 1 by lia.
      rewrite substring_app_skip. rewrite <- Ly at 1.
      now rewrite substring_whole. }
  cbv zeta.
  replace (Js.digitsValue 0 mm <? 1)%nat with false by (symmetry; apply Nat.ltb_ge; lia).
  replace (12 <? Js.digitsValue 0 mm)%nat with false by (symmetry; apply Nat.ltb_ge; lia).
  replace (Js.digitsValue 0 dd <? 1)%nat with false by (symmetry; apply Nat.ltb_ge; lia).
  replace (31 <? Js.digitsValue 0 dd)%nat with false by (symmetry; apply Nat.ltb_ge; lia).
  replace (Js.digitsValue 0 yyyy <? 1900)%nat with false
    by (symmetry; apply Nat.ltb_ge; lia).
  replace (year <? Js.digitsValue 0 yyyy)%nat with false
    by (symmetry; apply Nat.ltb_ge; lia).
  reflexivity.
Qed.

(** X25.  [validateDateOfBirth] checks the three fields one by one and no
    calendar: every month 1 to 12 written on two digits, followed by every
    day 1 to 31 on two digits and every year from 1900 to the current one on
    four digits, is accepted, whatever the month's length.  What it accepts
    is answered unchanged, consists of exactly eight decimal digits, is
    accepted again, and stays accepted in every later year. *)
Theorem dateOfBirth_no_calendar (year : nat) :
  (forall m d y,
     1 <= m <= 12 -> 1 <= d <= 31 -> 1900 <= y <= year -> (Z.of_nat y <= 9999)%Z ->
     let dob := (Js.padStart0 2 (Js.String_nat m) ++ Js.padStart0 2 (Js.String_nat d)
                 ++ Js.padStart0 4 (Js.String_nat y))%string in
     validateDateOfBirth year dob = Valid dob)
  /\ (forall dob v,
        validateDateOfBirth year dob = Valid v ->
        v = dob
        /\ String.length dob = 8
        /\ Js.allChars Js.isDigit dob = true
        /\ validateDateOfBirth year v = Valid v
        /\ forall later, year <= later -> validateDateOfBirth later dob = Valid dob).
Proof.
  split.
  - intros m d y Hm Hd Hy Hy4 dob.
    destruct (render_two m ltac:(lia)) as (Lm & Dm & Vm).
    destruct (render_two d ltac:(lia)) as (Ld & Dd & Vd).
    destruct (render_four y ltac:(lia)) as (Ly & Dy & Vy).
    apply validateDateOfBirth_fields; auto; rewrite ?Vm, ?Vd, ?Vy; lia.
  - intros dob v Hv.
    assert (H : v = dob /\ String.length dob = 8 /\ Js.allChars Js.isDigit dob = true
                /\ forall later, year <= later -> validateDateOfBirth later dob = Valid dob).
    { revert Hv. unfold validateDateOfBirth.
      destruct (dob =? "")%string; [discriminate|].
      destruct (String.length dob =? 8)%nat eqn:E8; [|discriminate].
      destruct (Js.allChars Js.isDigit dob) eqn:Ed; [|discriminate].
      cbn [andb negb]. cbv zeta.
      destruct (_ || _); [discriminate|].
      destruct (_ || _); [discriminate|].
      destruct (Js.digitsValue 0 (substring 4 4 dob) <? 1900)%nat; [discriminate|].
      cbn [orb]. destruct (Nat.ltb_spec year (Js.digitsValue 0 (substring 4 4 dob)));
        [discriminate|].
      intros [= <-]. apply Nat.eqb_eq in E8.
      split; [reflexivity|]. split; [exact E8|]. split; [reflexivity|].
      intros later Hl.
      replace (later <? Js.digitsValue 0 (substring 4 4 dob))%nat with false
        by (symmetry; apply Nat.ltb_ge; lia).
      reflexivity. }
    destruct H as (-> & H8 & Hd & Hlater).
    split; [reflexivity|]. split; [exact H8|]. split; [exact Hd|].
    split; [apply Hlater; lia | exact Hlater].
Qed.

Lemma dateOfBirth_no_calendar_witness :
  validateDateOfBirth 2025 "02312001" = Valid "02312001".
Proof.
  destruct (dateOfBirth_no_calendar 2025) as [Hany _].
  apply (Hany 2 31 2001); lia.
Defined.
